(** * allinone-converter: the two API routes, embedded and verified

    Sources modelled here:
    - [app/api/transcribe-video/route.ts], both revisions: [extractAudio],
      [transcribeWithWhisper], [downloadYouTubeVideoAndExtractAudio], [POST];
    - [app/api/convert-document/route.ts], both revisions:
      [performCloudConversion], [POST];
    - [app/transcribe/page.tsx]: the handlers of the page;
    - [lib/prisma.ts].

    The routes are asynchronous TypeScript that talks to the file system, to
    ffmpeg, to ytdl-core, to the OpenAI SDK and to the CloudConvert SDK.  Each
    [await] is sequential, so a route is modelled as a computation in a state
    and exception monad; the answers of the outside world are read from a
    record of oracles ([World]), and every call that leaves the process is
    appended to a trace. *)

From Stdlib Require Import String Ascii List Bool Arith Lia.
Import ListNotations.
Set Warnings "-register-all".
Local Open Scope list_scope.
Local Open Scope string_scope.

(** ** JavaScript strings

    A JavaScript string is a sequence of UTF-16 code units.  The strings of
    this development are those whose code units are all below 256, with one
    [ascii] for each code unit: lengths, [substring], regular-expression
    classes and [toLowerCase] are those of JavaScript on such strings. *)

Module JsString.

(** [!s] is false exactly for the non-empty strings. *)
Definition truthy (s : string) : bool :=
  match s with
  | EmptyString => false
  | String _ _ => true
  end.

(** Truthiness of a [string | null | undefined] value. *)
Definition truthy_opt (o : option string) : bool :=
  match o with
  | Some s => truthy s
  | None => false
  end.

(** [o === s] for a [string | null] value [o]. *)
Definition is_string (o : option string) (s : string) : bool :=
  match o with
  | Some x => String.eqb x s
  | None => false
  end.

(** [a || b] on optional strings, the result being used as a string. *)
Definition or_else (o : option string) (d : string) : string :=
  match o with
  | Some s => if truthy s then s else d
  | None => d
  end.

(** [toLowerCase] on one code unit below 256: the letters [A]-[Z] and the
    letters U+00C0-U+00DE (all but the multiplication sign U+00D7) move up by
    32; every other code unit stays. *)
Definition lower_unit (c : ascii) : ascii :=
  let n := nat_of_ascii c in
  if orb (andb (65 <=? n)%nat (n <=? 90)%nat)
         (andb (andb (192 <=? n)%nat (n <=? 222)%nat) (negb (n =? 215)%nat))
  then ascii_of_nat (n + 32) else c.

(** [String.prototype.toLowerCase]. *)
Fixpoint toLowerCase (s : string) : string :=
  match s with
  | EmptyString => EmptyString
  | String c r => String (lower_unit c) (toLowerCase r)
  end.

Fixpoint filter_chars (keep : ascii -> bool) (s : string) : string :=
  match s with
  | EmptyString => EmptyString
  | String c r =>
      if keep c then String c (filter_chars keep r) else filter_chars keep r
  end.

Fixpoint map_chars (f : ascii -> ascii) (s : string) : string :=
  match s with
  | EmptyString => EmptyString
  | String c r => String (f c) (map_chars f r)
  end.

(** [s.split(sep)] for a one-character separator. *)
Fixpoint split_at (sep : ascii) (s : string) : list string :=
  match s with
  | EmptyString => [EmptyString]
  | String c r =>
      if Ascii.eqb c sep then EmptyString :: split_at sep r
      else
        match split_at sep r with
        | [] => [String c EmptyString]
        | w :: ws => String c w :: ws
        end
  end.

(** [parts.join(sep)]. *)
Fixpoint join_with (sep : string) (parts : list string) : string :=
  match parts with
  | [] => EmptyString
  | [p] => p
  | p :: ps => p ++ sep ++ join_with sep ps
  end.

Definition eqb_list (s : string) (l : list string) : bool :=
  existsb (String.eqb s) l.

(** Position of the last occurrence of [c] in [s]. *)
Fixpoint last_index_of (c : ascii) (s : string) : option nat :=
  match s with
  | EmptyString => None
  | String d r =>
      match last_index_of c r with
      | Some i => Some (S i)
      | None => if Ascii.eqb d c then Some 0 else None
      end
  end.

End JsString.

(** ** Node's [path] module, POSIX flavour

    The routes only use [path.join] and [path.parse(p).name]; both are part of
    Node, not of the repository, and are written here after Node's documented
    behaviour, segment by segment. *)

Module NodePath.
Import JsString.

Definition slash : ascii := "/"%char.
Definition dot : ascii := "."%char.

(** One step of [normalizeString]: [stack] holds the kept segments, last
    one first. *)
Definition push_segment (allowAboveRoot : bool) (stack : list string) (seg : string)
  : list string :=
  if String.eqb seg EmptyString then stack
  else if String.eqb seg "." then stack
  else if String.eqb seg ".." then
    match stack with
    | top :: rest =>
        if String.eqb top ".." then
          (if allowAboveRoot then seg :: stack else stack)
        else rest
    | [] => if allowAboveRoot then [seg] else []
    end
  else seg :: stack.

Definition normalize_segments (allowAboveRoot : bool) (segs : list string) : list string :=
  rev (fold_left (push_segment allowAboveRoot) segs []).

Definition is_absolute (p : string) : bool :=
  match p with
  | String c _ => Ascii.eqb c slash
  | EmptyString => false
  end.

Fixpoint ends_with_slash (p : string) : bool :=
  match p with
  | EmptyString => false
  | String c EmptyString => Ascii.eqb c slash
  | String _ r => ends_with_slash r
  end.

(** [path.normalize]. *)
Definition normalize (p : string) : string :=
  if truthy p then
    let abs := is_absolute p in
    let trailing := ends_with_slash p in
    let body := join_with "/" (normalize_segments (negb abs) (split_at slash p)) in
    if truthy body then
      (if abs then "/" else EmptyString) ++ body ++ (if trailing then "/" else EmptyString)
    else if abs then "/"
    else if trailing then "./" else "."
  else ".".

(** [path.join(...parts)]: the non-empty parts glued with a slash, then
    normalized. *)
Definition join (parts : list string) : string :=
  match filter truthy parts with
  | [] => "."
  | ps => normalize (join_with "/" ps)
  end.

(** The last non-empty segment of a path: [path.parse(p).base]. *)
Definition base (p : string) : string :=
  match filter truthy (rev (split_at slash p)) with
  | b :: _ => b
  | [] => EmptyString
  end.

(** [path.parse(p).name]: the base without its extension.  The extension
    starts at the last dot of the base, unless that dot opens the base or
    the base is [..]. *)
Definition parse_name (p : string) : string :=
  let b := base p in
  if String.eqb b ".." then b
  else
    match last_index_of dot b with
    | Some (S i) => String.substring 0 (S i) b
    | _ => b
    end.

(** [file] lies strictly below directory [dir]. *)
Definition inside (dir file : string) : bool :=
  String.prefix (dir ++ "/") file.

End NodePath.

(** ** JavaScript values, thrown values and HTTP responses *)

Module Js.
Import JsString.

(** The values the routes inspect at run time ([unknown] in the source). *)
Inductive Value : Type :=
| Undefined
| Null
| Boolean (b : bool)
| Number (n : nat)
| Str (s : string)
| Arr (items : list Value)
| Obj (props : list (string * Value)).

Fixpoint assoc (k : string) (props : list (string * Value)) : option Value :=
  match props with
  | [] => None
  | (k', v) :: rest => if String.eqb k k' then Some v else assoc k rest
  end.

(** [typeof v === 'object' && v !== null]. *)
Definition is_object (v : Value) : bool :=
  match v with
  | Arr _ | Obj _ => true
  | _ => false
  end.

(** [k in v], for a [v] that passed [is_object]. *)
Definition has_prop (k : string) (v : Value) : bool :=
  match v with
  | Obj props => match assoc k props with Some _ => true | None => false end
  | _ => false
  end.

(** [v.k] where the read cannot throw ([v] is neither [null] nor
    [undefined]); a missing property reads as [undefined]. *)
Definition get (k : string) (v : Value) : Value :=
  match v with
  | Obj props => match assoc k props with Some x => x | None => Undefined end
  | _ => Undefined
  end.

Definition is_nullish (v : Value) : bool :=
  match v with
  | Undefined | Null => true
  | _ => false
  end.

(** [typeof v === 'string']. *)
Definition is_string (v : Value) : bool :=
  match v with
  | Str _ => true
  | _ => false
  end.

(** The string that [v] is, when [typeof v === 'string']. *)
Definition as_string (v : Value) : option string :=
  match v with
  | Str s => Some s
  | _ => None
  end.

Definition of_opt_string (o : option string) : Value :=
  match o with
  | Some s => Str s
  | None => Undefined
  end.

(** What a [catch (error: unknown)] clause receives: an instance of [Error]
    (its message, and whatever further properties an SDK attached to it), or
    any other value. *)
Inductive Thrown : Type :=
| ErrorObject (message : string) (props : list (string * Value))
| NotAnError (v : Value).

(** [new Error(msg)]. *)
Definition Error (msg : string) : Thrown := ErrorObject msg [].

(** The [ReferenceError] of reading an identifier that is not declared. *)
Definition ReferenceError (name : string) : Thrown :=
  Error (name ++ " is not defined").

(** V8's message for reading property [k] of [null] or [undefined]. *)
Definition TypeError_read (k : string) (v : Value) : Thrown :=
  Error ("Cannot read properties of "
         ++ (match v with Null => "null" | _ => "undefined" end)
         ++ " (reading '" ++ k ++ "')").

(** [error instanceof Error ? error.message : fallback]. *)
Definition message_or (fallback : string) (e : Thrown) : string :=
  match e with
  | ErrorObject m _ => m
  | NotAnError _ => fallback
  end.

Definition thrown_is_object (e : Thrown) : bool :=
  match e with
  | ErrorObject _ _ => true
  | NotAnError v => is_object v
  end.

(** [k in error] for the property names the handlers probe; none of them is
    a property that every [Error] has. *)
Definition thrown_has (k : string) (e : Thrown) : bool :=
  match e with
  | ErrorObject _ props => match assoc k props with Some _ => true | None => false end
  | NotAnError v => has_prop k v
  end.

Definition thrown_get (k : string) (e : Thrown) : Value :=
  match e with
  | ErrorObject _ props => match assoc k props with Some x => x | None => Undefined end
  | NotAnError v => get k v
  end.

(** The [response] probe that all handlers share: [error.response.data] when
    the response is an object that has [data], else [error.response]. *)
Definition response_payload (e : Thrown) : Value :=
  let r := thrown_get "response" e in
  if andb (is_object r) (has_prop "data" r) then get "data" r else r.

End Js.

Module Http.

Definition Buffer := list Byte.byte.

Inductive Body : Type :=
| Json (fields : list (string * Js.Value))
| Raw (bytes : Buffer).

Record Response : Type := mkResponse
  { status : nat;
    headers : list (string * string);
    body : Body }.

(** [NextResponse.json(fields, { status })]. *)
Definition json (st : nat) (fields : list (string * Js.Value)) : Response :=
  mkResponse st [] (Json fields).

(** The [details] field of a JSON response. *)
Definition details_field (r : Response) : Js.Value :=
  match body r with
  | Json fields => match Js.assoc "details" fields with Some v => v | None => Js.Undefined end
  | Raw _ => Js.Undefined
  end.

End Http.

(** The result of a call that may throw. *)
Inductive Outcome (A : Type) : Type :=
| Returned (a : A)
| Threw (e : Js.Thrown).
Arguments Returned {A} a.
Arguments Threw {A} e.

(** ** Data exchanged with the collaborators *)

(** An uploaded [File]. *)
Record File : Type := mkFile
  { file_name : string;
    file_bytes : Http.Buffer }.

(** A ytdl-core [videoFormat], with the fields the route reads. *)
Record Format : Type := mkFormat
  { fmt_url : option string;
    fmt_container : option string;
    fmt_hasAudio : bool;
    fmt_hasVideo : bool }.

Record VideoInfo : Type := mkVideoInfo
  { info_title : string;
    info_formats : list Format }.

(** The two option objects the route passes to [ytdl.chooseFormat]. *)
Inductive ChooseOptions : Type :=
| HighestAudio_AudioOnly   (* { quality: 'highestaudio', filter: 'audioonly' } *)
| Highest_HasAudio.        (* { quality: 'highest', filter: (f) => f.hasAudio } *)

(** How the piped download ended: which of the three listeners fired. *)
Inductive StreamEnd : Type :=
| StreamEnded
| StreamError (message : string)
| WriteStreamError (message : string).

(** A CloudConvert task and job, with the fields the route reads. *)
Record ResultFile : Type := mkResultFile
  { rf_filename : option string;
    rf_url : option string }.

Record Task : Type := mkTask
  { task_name : string;
    task_id : option string;
    task_status : string;
    task_message : option string;
    (* [result] and, inside it, [files] when it is an array *)
    task_result : option (option (list ResultFile)) }.

Record Job : Type := mkJob
  { job_id : option string;
    job_tasks : option (list Task);
    job_status : string;
    (* [message], when the job has one and it is a string *)
    job_message : option string }.

(** The [Response] of the global [fetch]. *)
Record Fetched : Type := mkFetched
  { fetched_ok : bool;
    fetched_has_body : bool;
    fetched_statusText : string;
    fetched_arrayBuffer : Outcome Http.Buffer }.

(** ** The outside world *)

(** Every effect that leaves the route, in the order it happened. *)
Inductive Event : Type :=
| EvMkdtemp (dir : string)
| EvWriteFile (path : string)
| EvRm (dir : string)
| EvAccess (path : string)
| EvFfmpeg (input output : string)
| EvGetInfo (url : string)
| EvDownload (videoUrl : string) (format : Format) (path : string)
| EvWhisper (audioPath : string)
| EvJobCreate (outputFormat : string)
| EvUpload (taskId path name : string)
| EvJobWait (jobId : string)
| EvFetch (url : string).

(** Calls that go over the network. *)
Definition is_network (e : Event) : bool :=
  match e with
  | EvGetInfo _ | EvDownload _ _ _ | EvWhisper _
  | EvJobCreate _ | EvUpload _ _ _ | EvJobWait _ | EvFetch _ => true
  | _ => false
  end.

(** Calls to the document-conversion provider. *)
Definition is_provider (e : Event) : bool :=
  match e with
  | EvJobCreate _ | EvUpload _ _ _ | EvJobWait _ | EvFetch _ => true
  | _ => false
  end.

Definition downloaded_format (e : Event) : option Format :=
  match e with
  | EvDownload _ f _ => Some f
  | _ => None
  end.

Definition written_path (e : Event) : option string :=
  match e with
  | EvWriteFile p => Some p
  | _ => None
  end.

Fixpoint filter_map {A B} (f : A -> option B) (l : list A) : list B :=
  match l with
  | [] => []
  | a :: r => match f a with Some b => b :: filter_map f r | None => filter_map f r end
  end.

(** The state a route runs in: the temporary directories that exist, the
    trace, and a counter that numbers the draws of [Date.now()] and
    [Math.random()]. *)
Record State : Type := mkState
  { dirs : list string;
    trace : list Event;
    ticks : nat }.

Definition exists_dir (d : string) (s : State) : bool :=
  JsString.eqb_list d (dirs s).

(** ** The monad of the routes: state and exceptions *)

Definition M (A : Type) : Type := State -> Outcome A * State.

Definition ret {A} (a : A) : M A := fun s => (Returned a, s).

Definition throw {A} (e : Js.Thrown) : M A := fun s => (Threw e, s).

Definition bind {A B} (m : M A) (k : A -> M B) : M B :=
  fun s =>
    match m s with
    | (Returned a, s') => k a s'
    | (Threw e, s') => (Threw e, s')
    end.

(** [try { m } catch (error) { h error }]. *)
Definition try_catch {A} (m : M A) (h : Js.Thrown -> M A) : M A :=
  fun s =>
    match m s with
    | (Returned a, s') => (Returned a, s')
    | (Threw e, s') => h e s'
    end.

(** [try { m } finally { f }]: [f] runs on every exit of [m]; the outcome of
    [m] stands unless [f] itself throws. *)
Definition try_finally {A} (m : M A) (f : M unit) : M A :=
  fun s =>
    match m s with
    | (r, s') =>
        match f s' with
        | (Returned _, s'') => (r, s'')
        | (Threw e, s'') => (Threw e, s'')
        end
    end.

Definition emit (e : Event) : M unit :=
  fun s => (Returned tt, mkState (dirs s) (trace s ++ [e])%list (ticks s)).

Definition lift {A} (o : Outcome A) : M A := fun s => (o, s).

(** An awaited call to a collaborator: it is recorded, then it answers. *)
Definition call {A} (e : Event) (answer : Outcome A) : M A :=
  bind (emit e) (fun _ => lift answer).

Definition add_dir (d : string) : M unit :=
  fun s => (Returned tt, mkState (d :: dirs s) (trace s) (ticks s)).

Definition remove_dir (d : string) : M unit :=
  fun s => (Returned tt,
            mkState (filter (fun x => negb (String.eqb x d)) (dirs s)) (trace s) (ticks s)).

Definition tick : M nat :=
  fun s => (Returned (ticks s), mkState (dirs s) (trace s) (S (ticks s))).

Declare Scope route_scope.
Delimit Scope route_scope with route.
Notation "x <- m ;; k" := (bind m (fun x => k))
  (at level 61, m at next level, right associativity) : route_scope.
Notation "m ;;; k" := (bind m (fun _ => k))
  (at level 61, right associativity) : route_scope.
Local Open Scope route_scope.

(** The answers of everything outside the route.  The libraries (ytdl-core,
    fluent-ffmpeg, openai, cloudconvert, the file system) are not part of the
    repository: their behaviour is a parameter. *)
Record World : Type := mkWorld
  { OPENAI_API_KEY : bool;
    CLOUDCONVERT_API_KEY : bool;
    os_tmpdir : string;
    (* [Date.now() + '_' + Math.random().toString(36).substring(2, 8)] *)
    unique_suffix : nat -> string;
    fs_mkdtemp : string -> Outcome string;
    fs_writeFile : string -> Http.Buffer -> Outcome unit;
    fs_rm : string -> Outcome unit;
    fs_access : string -> Outcome unit;
    (* [None]: the 'end' listener fired; [Some m]: 'error' with [err.message = m] *)
    ffmpeg_save : string -> string -> option string;
    ytdl_validateURL : string -> bool;
    ytdl_getInfo : string -> Outcome VideoInfo;
    ytdl_chooseFormat : list Format -> ChooseOptions -> Outcome (option Format);
    ytdl_pipe : string -> Format -> string -> StreamEnd;
    openai_transcriptions_create : string -> Outcome Js.Value;
    cc_jobs_create : string -> Outcome (option Job);
    cc_tasks_upload : Task -> string -> string -> Outcome unit;
    cc_jobs_wait : string -> Outcome Job;
    global_fetch : string -> Outcome Fetched;
    (* [headers.set(name, value)] on a [Headers] object: a [TypeError] when the
       platform refuses the value (a code unit above 255, a NUL, a line break) *)
    headers_set : string -> string -> Outcome unit }.

(** ** File-system primitives *)

Section FileSystem.
Variable w : World.

(** [fsPromises.mkdtemp(prefix)]. *)
Definition mkdtemp (prefix : string) : M string :=
  match fs_mkdtemp w prefix with
  | Returned d => emit (EvMkdtemp d) ;;; add_dir d ;;; ret d
  | Threw e => throw e
  end.

(** [fsPromises.rm(dir, { recursive: true, force: true })]. *)
Definition rm (dir : string) : M unit :=
  emit (EvRm dir) ;;;
  match fs_rm w dir with
  | Returned _ => remove_dir dir
  | Threw e => throw e
  end.

(** [fsPromises.writeFile(path, buffer)]. *)
Definition writeFile (path : string) (data : Http.Buffer) : M unit :=
  call (EvWriteFile path) (fs_writeFile w path data).

Definition uniqueSuffix : M string :=
  n <- tick ;; ret (unique_suffix w n).

End FileSystem.

(** ** The transcription route: [app/api/transcribe-video/route.ts] *)

Module Transcribe.
Import JsString.

(** The fields [POST] reads from the multipart form. *)
Record FormData : Type := mkFormData
  { operationType : option string;
    video : option File;
    videoUrl : option string }.

Definition could_not_extract : string :=
  "Could not extract text from Whisper API response: 'text' field missing, not a string, or structure unexpected.".

Definition double_quote : string := String (ascii_of_nat 34) EmptyString.

Definition invalid_operation_type : string :=
  "Invalid operation type. Ensure " ++ double_quote ++ "operationType" ++ double_quote
  ++ " is sent correctly from the client.".

Definition no_suitable_format : string :=
  "Could not find a suitable video/audio format to download from YouTube.".

(** The character class of the title-sanitizing regular expression: the
    characters that are unsafe in a file name (code 34 is the double quote). *)
Definition unsafe_title_char (c : ascii) : bool :=
  existsb (Ascii.eqb c)
    ["<"; ">"; ":"; ascii_of_nat 34; "/"; "\"; "|"; "?"; "*"]%char.

(** [/\s/] on a code unit below 256: tab, line feed, vertical tab, form
    feed, carriage return, space and the no-break space U+00A0. *)
Definition is_space (c : ascii) : bool :=
  existsb (Nat.eqb (nat_of_ascii c)) [9; 10; 11; 12; 13; 32; 160].

(** The sanitized title: unsafe characters removed, then
    [.substring(0, 100)], the first 100 code units. *)
Definition sanitizeTitle (title : string) : string :=
  String.substring 0 100 (filter_chars (fun c => negb (unsafe_title_char c)) title).

(** [videoTitle.replace(/\s/g, '_')]. *)
Definition underscored (t : string) : string :=
  map_chars (fun c => if is_space c then "_"%char else c) t.

(** The value of [format] when [!format || !format.url] is false. *)
Definition with_url (format : option Format) : option Format :=
  match format with
  | Some f => if truthy_opt (fmt_url f) then Some f else None
  | None => None
  end.

(** Lines 67-95 of [transcribeWithWhisper]: from the provider's answer to the
    transcript. *)
Definition extractText (transcription : Js.Value) : Outcome string :=
  if Js.is_nullish transcription then Threw (Js.TypeError_read "text" transcription)
  else
    match Js.get "text" transcription with
    | Js.Str text => Returned text
    | _ =>
        let extractedText : option string :=
          if Js.is_object transcription then
            if andb (Js.has_prop "text" transcription)
                 (Js.is_string (Js.get "text" transcription))
            then Js.as_string (Js.get "text" transcription)
            else if Js.has_prop "data" transcription then
              let dataProp := Js.get "data" transcription in
              if andb (andb (Js.is_object dataProp) (Js.has_prop "text" dataProp))
                   (Js.is_string (Js.get "text" dataProp))
              then Js.as_string (Js.get "text" dataProp)
              else None
            else None
          else None in
        match extractedText with
        | Some t => Returned t
        | None => Threw (Js.Error could_not_extract)
        end
    end.

Section Route.
Variable w : World.

Definition extractAudio (videoPath outputDir : string) : M string :=
  suffix <- uniqueSuffix w ;;
  let audioFileName := NodePath.parse_name videoPath ++ "_" ++ suffix ++ "_audio.mp3" in
  let audioOutputPath := NodePath.join [outputDir; audioFileName] in
  call (EvFfmpeg videoPath audioOutputPath)
    (match ffmpeg_save w videoPath audioOutputPath with
     | None => Returned audioOutputPath
     | Some m => Threw (Js.Error ("Failed to extract audio: " ++ m))
     end).

Definition transcribeWithWhisper (audioPath : string) : M string :=
  if negb (OPENAI_API_KEY w) then
    throw (Js.Error "OpenAI API key is not configured. Cannot transcribe.")
  else
    try_catch
      (call (EvAccess audioPath) (fs_access w audioPath) ;;;
       transcription <- call (EvWhisper audioPath)
                             (openai_transcriptions_create w audioPath) ;;
       lift (extractText transcription))
      (fun error =>
         let detailMessage := Js.message_or "Unknown Whisper API error" error in
         throw (Js.Error ("Whisper API transcription failed: " ++ detailMessage))).

(** Lines 133-140: the format to download. *)
Definition selectFormat (formats : list Format) : M Format :=
  format <- lift (ytdl_chooseFormat w formats HighestAudio_AudioOnly) ;;
  match with_url format with
  | Some f => ret f
  | None =>
      format' <- lift (ytdl_chooseFormat w formats Highest_HasAudio) ;;
      match with_url format' with
      | Some f => ret f
      | None => throw (Js.Error no_suitable_format)
      end
  end.

Definition downloadYouTubeVideoAndExtractAudio (url outputDir : string)
  : M (string * string) :=
  if negb (ytdl_validateURL w url) then throw (Js.Error "Invalid YouTube URL")
  else
    info <- call (EvGetInfo url) (ytdl_getInfo w url) ;;
    let videoTitle := sanitizeTitle (info_title info) in
    format <- selectFormat (info_formats info) ;;
    suffix <- uniqueSuffix w ;;
    let tempDownloadedVideoName :=
      "youtube_" ++ underscored videoTitle ++ "_" ++ suffix ++ "."
      ++ or_else (fmt_container format) "mp4" in
    let tempDownloadedVideoPath := NodePath.join [outputDir; tempDownloadedVideoName] in
    call (EvDownload url format tempDownloadedVideoPath)
      (match ytdl_pipe w url format tempDownloadedVideoPath with
       | StreamEnded => Returned tt
       | StreamError m => Threw (Js.Error ("Failed to download YouTube content: " ++ m))
       | WriteStreamError m =>
           Threw (Js.Error ("Failed to write YouTube content to disk: " ++ m))
       end) ;;;
    audioFilePath <- extractAudio tempDownloadedVideoPath outputDir ;;
    ret (audioFilePath, videoTitle).

(** The [details] of the 500 response (lines 239-255). *)
Definition detailsForResponse (error : Js.Thrown) : Js.Value :=
  if Js.thrown_is_object error then
    if Js.thrown_has "response" error then Js.response_payload error
    else if Js.thrown_has "error" error then Js.thrown_get "error" error
    else
      match error with
      | Js.ErrorObject _ _ => Js.Null
      | Js.NotAnError v => v
      end
  else Js.Null.

Definition errorResponse (error : Js.Thrown) : Http.Response :=
  let errorMessage :=
    Js.message_or "An unknown error occurred during transcription processing." error in
  Http.json 500 [("error", Js.Str errorMessage); ("details", detailsForResponse error)].

(** What follows the [if / else if / else] on [operationType]. *)
Definition transcribeAndRespond (audioToTranscribePath : string)
    (videoTitleFromUrl originalFileNameForDisplay : option string) : M Http.Response :=
  if negb (truthy audioToTranscribePath) then
    throw (Js.Error "No audio data could be prepared for transcription.")
  else
    transcriptionText <- transcribeWithWhisper audioToTranscribePath ;;
    ret (Http.json 200
           [("transcription", Js.Str transcriptionText);
            ("videoTitle", Js.of_opt_string videoTitleFromUrl);
            ("originalFileName", Js.of_opt_string originalFileNameForDisplay)]).

(** The body of the [try] block of [POST]. *)
Definition handle (formData : Outcome FormData) (tempSessionDir : string)
  : M Http.Response :=
  fd <- lift formData ;;
  if is_string (operationType fd) "file" then
    match video fd with
    | None => ret (Http.json 400 [("error", Js.Str "No video file provided for upload.")])
    | Some videoFile =>
        let tempUploadedVideoPath := NodePath.join [tempSessionDir; file_name videoFile] in
        writeFile w tempUploadedVideoPath (file_bytes videoFile) ;;;
        audio <- extractAudio tempUploadedVideoPath tempSessionDir ;;
        transcribeAndRespond audio None (Some (file_name videoFile))
    end
  else if is_string (operationType fd) "url" then
    if truthy_opt (videoUrl fd) then
      downloadResult <- downloadYouTubeVideoAndExtractAudio
                          (or_else (videoUrl fd) EmptyString) tempSessionDir ;;
      transcribeAndRespond (fst downloadResult)
        (Some (snd downloadResult)) (Some (snd downloadResult))
    else ret (Http.json 400 [("error", Js.Str "No video URL provided.")])
  else
    ret (Http.json 400 [("error", Js.Str invalid_operation_type)]).

(** The [finally] block of [POST]. *)
Definition cleanup (tempSessionDir : string) : M unit :=
  if truthy tempSessionDir then
    try_catch (rm w tempSessionDir) (fun cleanupError => ret tt)
  else ret tt.

Definition POST (formData : Outcome FormData) : M Http.Response :=
  tempSessionDir <- mkdtemp w (NodePath.join [os_tmpdir w; "transcribe-session-"]) ;;
  try_finally
    (try_catch (handle formData tempSessionDir) (fun error => ret (errorResponse error)))
    (cleanup tempSessionDir).

End Route.
End Transcribe.

(** ** The conversion route: [app/api/convert-document/route.ts] *)

Module Convert.
Import JsString.

(** The repository holds two revisions of the route.  They differ in the
    type annotations, in the fallback text of a failed job, and in their
    module-level constants: the annotated revision declares [EXT_TO_MIMETYPE]
    and [SUPPORTED_DOC_OUTPUT_FORMATS_API]; [route.ts] has a comment in their
    place (its line 15) and declares neither, while its [POST] reads both. *)
Inductive Revision : Type :=
| Inferred   (* src/app/api/convert-document/route.ts *)
| Annotated. (* the revision that declares CloudConvertJob and CloudConvertTask *)

Record FormData : Type := mkFormData
  { document : option File;
    targetFormat : option string;
    inputFileName : option string }.

Definition EXT_TO_MIMETYPE : list (string * string) :=
  [ ("pdf", "application/pdf");
    ("docx", "application/vnd.openxmlformats-officedocument.wordprocessingml.document");
    ("txt", "text/plain");
    ("html", "text/html");
    ("odt", "application/vnd.oasis.opendocument.text");
    ("pptx", "application/vnd.openxmlformats-officedocument.presentationml.presentation");
    ("jpg", "image/jpeg");
    ("png", "image/png") ].

Definition SUPPORTED_DOC_OUTPUT_FORMATS_API : list string :=
  ["pdf"; "docx"; "txt"; "html"; "odt"; "pptx"; "jpg"; "png"].

Fixpoint mime_lookup (ext : string) (table : list (string * string)) : option string :=
  match table with
  | [] => None
  | (k, v) :: rest => if String.eqb ext k then Some v else mime_lookup ext rest
  end.

(** [!targetFormat || !SUPPORTED_DOC_OUTPUT_FORMATS_API.includes(targetFormat.toLowerCase())]
    is false, for the list that the annotated revision declares. *)
Definition supported (targetFormat : option string) : bool :=
  match targetFormat with
  | Some t => andb (truthy t) (eqb_list (toLowerCase t) SUPPORTED_DOC_OUTPUT_FORMATS_API)
  | None => false
  end.

(** [tasks?.find(p)]. *)
Definition find_task (p : Task -> bool) (tasks : option (list Task)) : option Task :=
  match tasks with
  | Some l => find p l
  | None => None
  end.

Definition generic_failure (rev : Revision) : string :=
  match rev with
  | Inferred => "Unknown error"
  | Annotated => "Unknown error from CloudConvert"
  end.

(** The task the error branch reports: the first one whose status is
    [error]. *)
Definition failedTask (completedJob : Job) : option Task :=
  find_task (fun t => String.eqb (task_status t) "error") (job_tasks completedJob).

(** [failedTask?.message]. *)
Definition taskErrorMessage (completedJob : Job) : option string :=
  match failedTask completedJob with
  | Some t => task_message t
  | None => None
  end.

(** The text after [CloudConvert job failed: ]:
    [taskErrorMessage || jobErrorMessage || fallback]. *)
Definition failureDetail (rev : Revision) (completedJob : Job) : string :=
  or_else (taskErrorMessage completedJob)
    (or_else (job_message completedJob) (generic_failure rev)).

(** The files of the export task when the guard of lines 301-305 passes. *)
Definition exportedFiles (completedJob : Job) : option (list ResultFile) :=
  match find_task (fun t => String.eqb (task_name t) "export-file") (job_tasks completedJob) with
  | Some exportTask =>
      if String.eqb (task_status exportTask) "finished" then
        match task_result exportTask with
        | Some (Some (f :: fs)) => Some (f :: fs)
        | _ => None
        end
      else None
  | None => None
  end.

(** [resultFile.filename || `${path.parse(inputFile.name).name}.${targetFormat}`]. *)
Definition convertedFileName (resultFile : ResultFile) (inputName targetFormat : string)
  : string :=
  or_else (rf_filename resultFile) (NodePath.parse_name inputName ++ "." ++ targetFormat).

Section Route.
Variable w : World.
Variable rev : Revision.

(** Lines 252-281 of [performCloudConversion]: create the job, upload the
    document from a temporary directory, wait for the job. *)
Definition submitAndWait (inputFile : File) (targetFormat : string) : M Job :=
  job <- call (EvJobCreate (toLowerCase targetFormat))
              (cc_jobs_create w (toLowerCase targetFormat)) ;;
  match job with
  | None => throw (Js.Error "CloudConvert job creation failed or job has no ID.")
  | Some job =>
  if negb (truthy_opt (job_id job)) then
    throw (Js.Error "CloudConvert job creation failed or job has no ID.")
  else
  let jobId := or_else (job_id job) EmptyString in
  match find_task (fun t => String.eqb (task_name t) "import-file") (job_tasks job) with
  | None => throw (Js.Error "CloudConvert upload task not found in job or task has no ID.")
  | Some uploadTask =>
  if negb (truthy_opt (task_id uploadTask)) then
    throw (Js.Error "CloudConvert upload task not found in job or task has no ID.")
  else
  tempDir <- mkdtemp w (NodePath.join [os_tmpdir w; "cc-upload-"]) ;;
  let tempFilePath := NodePath.join [tempDir; file_name inputFile] in
  writeFile w tempFilePath (file_bytes inputFile) ;;;
  call (EvUpload (or_else (task_id uploadTask) EmptyString) tempFilePath (file_name inputFile))
       (cc_tasks_upload w uploadTask tempFilePath (file_name inputFile)) ;;;
  rm w tempDir ;;;
  call (EvJobWait jobId) (cc_jobs_wait w jobId)
  end
  end.

(** Lines 283-321: from the completed job to the converted bytes. *)
Definition collectResult (inputFile : File) (targetFormat : string) (completedJob : Job)
  : M (Http.Buffer * string) :=
  if String.eqb (job_status completedJob) "error" then
    throw (Js.Error ("CloudConvert job failed: " ++ failureDetail rev completedJob))
  else
  match exportedFiles completedJob with
  | Some (resultFile :: _) =>
      let name := convertedFileName resultFile (file_name inputFile) targetFormat in
      if negb (truthy_opt (rf_url resultFile)) then
        throw (Js.Error "CloudConvert export task result did not contain a URL.")
      else
        downloadResponse <- call (EvFetch (or_else (rf_url resultFile) EmptyString))
                                 (global_fetch w (or_else (rf_url resultFile) EmptyString)) ;;
        if negb (andb (fetched_ok downloadResponse) (fetched_has_body downloadResponse)) then
          throw (Js.Error ("Failed to download converted file from CloudConvert: "
                           ++ fetched_statusText downloadResponse))
        else
          convertedFileBuffer <- lift (fetched_arrayBuffer downloadResponse) ;;
          ret (convertedFileBuffer, name)
  | _ => throw (Js.Error "CloudConvert export task failed or did not produce a file.")
  end.

(** The [try] block of [performCloudConversion]. *)
Definition convertSteps (inputFile : File) (targetFormat : string)
  : M (Http.Buffer * string) :=
  completedJob <- submitAndWait inputFile targetFormat ;;
  collectResult inputFile targetFormat completedJob.

Definition performCloudConversion (inputFile : File) (targetFormat : string)
  : M (Http.Buffer * string) :=
  try_catch (convertSteps inputFile targetFormat)
    (fun error =>
       let errorMessage := Js.message_or "Unknown CloudConvert error" error in
       throw (Js.Error ("CloudConvert processing failed: " ++ errorMessage))).

(** The [details] of the 500 response of [POST]. *)
Definition responseDetails (error : Js.Thrown) : Js.Value :=
  if Js.thrown_is_object error then
    if Js.thrown_has "details" error then Js.thrown_get "details" error
    else if Js.thrown_has "response" error then Js.response_payload error
    else
      match error with
      | Js.ErrorObject _ _ => Js.Null
      | Js.NotAnError v => v
      end
  else Js.Null.

Definition errorResponse (error : Js.Thrown) : Http.Response :=
  let errorMessage :=
    Js.message_or "An unknown error occurred during document conversion." error in
  Http.json 500 [("error", Js.Str errorMessage); ("details", responseDetails error)].

(** [EXT_TO_MIMETYPE[targetFormat.toLowerCase()] || 'application/octet-stream'],
    for the table [table]. *)
Definition mimeTypeFrom (table : list (string * string)) (targetFormat : string)
  : string :=
  or_else (mime_lookup (toLowerCase targetFormat) table) "application/octet-stream".

(** The value of the [Content-Disposition] header. *)
Definition contentDisposition (convertedFileName : string) : string :=
  "attachment; filename=" ++ Transcribe.double_quote ++ convertedFileName
  ++ Transcribe.double_quote.

(** [new NextResponse(convertedFileBuffer, { status: 200, headers })]. *)
Definition responseFrom (table : list (string * string)) (targetFormat : string)
    (converted : Http.Buffer * string) : Http.Response :=
  Http.mkResponse 200
    [ ("Content-Type", mimeTypeFrom table targetFormat);
      ("Content-Disposition", contentDisposition (snd converted)) ]
    (Http.Raw (fst converted)).

(** The 200 response where the table is declared. *)
Definition successResponse (targetFormat : string) (converted : Http.Buffer * string)
  : Http.Response :=
  responseFrom EXT_TO_MIMETYPE targetFormat converted.

(** A read of the module-level constant [name]: its [value] in the revision
    that declares it, a [ReferenceError] in [route.ts]. *)
Definition moduleConstant {A : Type} (name : string) (value : A) : M A :=
  match rev with
  | Annotated => ret value
  | Inferred => throw (Js.ReferenceError name)
  end.

(** The condition of the second guard of [POST]:
    [!targetFormat || !SUPPORTED_DOC_OUTPUT_FORMATS_API.includes(targetFormat.toLowerCase())].
    The list is only read when [targetFormat] is a non-empty string. *)
Definition unsupportedTarget (targetFormat : option string) : M bool :=
  if negb (truthy_opt targetFormat) then ret true
  else
    supportedFormats <- moduleConstant "SUPPORTED_DOC_OUTPUT_FORMATS_API"
                          SUPPORTED_DOC_OUTPUT_FORMATS_API ;;
    ret (negb (eqb_list (toLowerCase (or_else targetFormat EmptyString)) supportedFormats)).

(** The [try] block of [POST]. *)
Definition handle (formData : Outcome FormData) : M Http.Response :=
  fd <- lift formData ;;
  match document fd with
  | None => ret (Http.json 400 [("error", Js.Str "No document file provided.")])
  | Some documentFile =>
      if negb (truthy_opt (inputFileName fd)) then
        ret (Http.json 400 [("error", Js.Str "No document file provided.")])
      else
        unsupported <- unsupportedTarget (targetFormat fd) ;;
        if (unsupported : bool) then
          ret (Http.json 400
                 [("error", Js.Str ("Unsupported target format: "
                                    ++ match targetFormat fd with
                                       | Some t => t
                                       | None => "null"
                                       end))])
        else
          let target := or_else (targetFormat fd) EmptyString in
          converted <- performCloudConversion documentFile target ;;
          table <- moduleConstant "EXT_TO_MIMETYPE" EXT_TO_MIMETYPE ;;
          lift (headers_set w "Content-Type" (mimeTypeFrom table target)) ;;;
          lift (headers_set w "Content-Disposition" (contentDisposition (snd converted))) ;;;
          ret (responseFrom table target converted)
  end.

Definition POST (formData : Outcome FormData) : M Http.Response :=
  if negb (CLOUDCONVERT_API_KEY w) then
    ret (Http.json 500
           [("error", Js.Str "Server configuration error for conversion service.")])
  else
    try_catch (handle formData) (fun error => ret (errorResponse error)).

End Route.
End Convert.

(** An empty start state: no temporary directory, nothing traced. *)
Definition initial : State := mkState [] [] 0.

(** ** What ytdl-core's [chooseFormat] does

    The library is not part of the repository.  Its [chooseFormat] first
    filters ([filterFormats] keeps the formats that have a [url] and pass the
    filter), then lets the quality pick one of the formats that are left, and
    throws [No such format found: <quality>] when none is left: it never
    returns [undefined], and never a format without a [url]. *)

Module Ytdl.

(** A format that [filterFormats] keeps for the given options. *)
Definition passes (options : ChooseOptions) (f : Format) : bool :=
  andb (JsString.truthy_opt (fmt_url f))
    (match options with
     | HighestAudio_AudioOnly => andb (negb (fmt_hasVideo f)) (fmt_hasAudio f)
     | Highest_HasAudio => fmt_hasAudio f
     end).

Definition quality (options : ChooseOptions) : string :=
  match options with
  | HighestAudio_AudioOnly => "highestaudio"
  | Highest_HasAudio => "highest"
  end.

(** A [chooseFormat] that ranks the formats by their position in the list. *)
Definition chooseFormat (formats : list Format) (options : ChooseOptions)
  : Outcome (option Format) :=
  match filter (passes options) formats with
  | best :: _ => Returned (Some best)
  | [] => Threw (Js.Error ("No such format found: " ++ quality options))
  end.

End Ytdl.

(** ** Concrete worlds and requests *)

Module Sample.

Definition sessionDir : string := "/tmp/transcribe-session-Ab12Cd".
Definition uploadDir : string := "/tmp/cc-upload-Xy34Zw".

Definition audioOnly : Format := mkFormat (Some "https://media.example/a") (Some "webm") true false.
Definition muxed : Format := mkFormat (Some "https://media.example/v") (Some "mp4") true true.
Definition noUrl : Format := mkFormat None (Some "webm") true false.

Definition createdJob : Job :=
  mkJob (Some "job-1")
    (Some [ mkTask "import-file" (Some "task-1") "waiting" None None;
            mkTask "convert-file" (Some "task-2") "waiting" None None;
            mkTask "export-file" (Some "task-3") "waiting" None None ])
    "created" None.

Definition finishedJob (file : ResultFile) : Job :=
  mkJob (Some "job-1")
    (Some [ mkTask "import-file" (Some "task-1") "finished" None None;
            mkTask "convert-file" (Some "task-2") "finished" None None;
            mkTask "export-file" (Some "task-3") "finished" None (Some (Some [file])) ])
    "finished" None.

Definition failedJob (taskMessage jobMessage : option string) : Job :=
  mkJob (Some "job-1")
    (Some [ mkTask "import-file" (Some "task-1") "finished" None None;
            mkTask "convert-file" (Some "task-2") "error" taskMessage None;
            mkTask "export-file" (Some "task-3") "waiting" None None ])
    "error" jobMessage.

Definition converted : Http.Buffer := [Byte.x25; Byte.x50; Byte.x44; Byte.x46].

(** A [Headers.set] that refuses a value with a NUL, a line feed or a
    carriage return in it. *)
Definition headersSet (name value : string) : Outcome unit :=
  if existsb (fun c => match JsString.last_index_of (ascii_of_nat c) value with
                       | Some _ => true
                       | None => false
                       end) [0; 10; 13]
  then Threw (Js.Error ("Headers.set: " ++ Transcribe.double_quote ++ value
                        ++ Transcribe.double_quote ++ " is an invalid header value."))
  else Returned tt.

(** A world in which every collaborator answers, except for the pieces a
    scenario varies. *)
Definition world
    (keys : bool)
    (validURL : string -> bool)
    (choose : list Format -> ChooseOptions -> Outcome (option Format))
    (transcription : Outcome Js.Value)
    (upload : Outcome unit)
    (completed : Job)
    (removal : Outcome unit) : World :=
  {| OPENAI_API_KEY := keys;
     CLOUDCONVERT_API_KEY := keys;
     os_tmpdir := "/tmp";
     unique_suffix := fun n => if Nat.eqb n 0 then "1700000000000_k3j9x1" else "1700000000042_p0q8z7";
     fs_mkdtemp := fun prefix =>
       Returned (prefix ++ (if String.eqb prefix "/tmp/cc-upload-" then "Xy34Zw" else "Ab12Cd"));
     fs_writeFile := fun _ _ => Returned tt;
     fs_rm := fun _ => removal;
     fs_access := fun _ => Returned tt;
     ffmpeg_save := fun _ _ => None;
     ytdl_validateURL := validURL;
     ytdl_getInfo := fun _ => Returned (mkVideoInfo "A talk: part 1/2" [muxed; audioOnly]);
     ytdl_chooseFormat := choose;
     ytdl_pipe := fun _ _ _ => StreamEnded;
     openai_transcriptions_create := fun _ => transcription;
     cc_jobs_create := fun _ => Returned (Some createdJob);
     cc_tasks_upload := fun _ _ _ => upload;
     cc_jobs_wait := fun _ => Returned completed;
     global_fetch := fun _ => Returned (mkFetched true true "OK" (Returned converted));
     headers_set := headersSet |}.

(** The library's [chooseFormat], the formats ranked by position. *)
Definition chooseFirstMatch (formats : list Format) (o : ChooseOptions)
  : Outcome (option Format) :=
  Ytdl.chooseFormat formats o.

(** [w] with another answer of [ytdl.getInfo]. *)
Definition withVideo (w : World) (info : VideoInfo) : World :=
  {| OPENAI_API_KEY := OPENAI_API_KEY w;
     CLOUDCONVERT_API_KEY := CLOUDCONVERT_API_KEY w;
     os_tmpdir := os_tmpdir w;
     unique_suffix := unique_suffix w;
     fs_mkdtemp := fs_mkdtemp w;
     fs_writeFile := fs_writeFile w;
     fs_rm := fs_rm w;
     fs_access := fs_access w;
     ffmpeg_save := ffmpeg_save w;
     ytdl_validateURL := ytdl_validateURL w;
     ytdl_getInfo := fun _ => Returned info;
     ytdl_chooseFormat := ytdl_chooseFormat w;
     ytdl_pipe := ytdl_pipe w;
     openai_transcriptions_create := openai_transcriptions_create w;
     cc_jobs_create := cc_jobs_create w;
     cc_tasks_upload := cc_tasks_upload w;
     cc_jobs_wait := cc_jobs_wait w;
     global_fetch := global_fetch w;
     headers_set := headers_set w |}.

Definition hello : Js.Value := Js.Obj [("text", Js.Str "hello world")].

Definition happy : World :=
  world true (fun _ => true) chooseFirstMatch (Returned hello) (Returned tt)
    (finishedJob (mkResultFile (Some "report.pdf") (Some "https://cc.example/out")))
    (Returned tt).

Definition report : File := mkFile "report.docx" [Byte.x50; Byte.x4b].
Definition clip : File := mkFile "clip.mp4" [Byte.x00; Byte.x01].

End Sample.

(** ** Specification-side definitions *)

Definition is_rm (e : Event) : bool :=
  match e with
  | EvRm _ => true
  | _ => false
  end.

Definition is_mkdtemp (e : Event) : bool :=
  match e with
  | EvMkdtemp _ => true
  | _ => false
  end.

(** The status of the response a route produced, if it produced one. *)
Definition response_status (o : Outcome Http.Response) : option nat :=
  match o with
  | Returned r => Some (Http.status r)
  | Threw _ => None
  end.

(** [s'] is [s] after some events that all satisfy [P], with the same
    temporary directories. *)
Definition extends (P : Event -> bool) (s s' : State) : Prop :=
  dirs s' = dirs s
  /\ exists evs, trace s' = (trace s ++ evs)%list /\ forallb P evs = true.

(** A computation that only emits events satisfying [P] and leaves the
    temporary directories alone, however it ends. *)
Definition quiet {A} (P : Event -> bool) (m : M A) : Prop :=
  forall s, extends P s (snd (m s)).

(** The transcript as the specification words it: the expected [text] string,
    else a top-level [text] string, else a [text] string under [data], else
    a failure that names the unrecognized shape. *)
Definition normalizeSpec (response : Js.Value) : Outcome string :=
  match Js.as_string (Js.get "text" response) with
  | Some expected => Returned expected
  | None =>
      match Js.as_string (Js.get "text" response) with
      | Some topLevel => Returned topLevel
      | None =>
          match Js.as_string (Js.get "text" (Js.get "data" response)) with
          | Some nested => Returned nested
          | None =>
              Threw (Js.Error
                       "Whisper API transcription failed: Could not extract text from Whisper API response: 'text' field missing, not a string, or structure unexpected.")
          end
      end
  end.

(** The collaborator [ytdl.chooseFormat] of [w] answers as the library
    does: with one of the formats that have a [url] and pass the filter, and
    with the library's exception when there is no such format. *)
Definition answers_like_ytdl (w : World) : Prop :=
  forall formats options,
    match ytdl_chooseFormat w formats options with
    | Returned (Some f) => In f (filter (Ytdl.passes options) formats)
    | Returned None => False
    | Threw e =>
        filter (Ytdl.passes options) formats = []
        /\ e = Js.Error ("No such format found: " ++ Ytdl.quality options)
    end.

(** [t] is the task of [job] whose status is [error]: the first one in the
    list of tasks, should there be several. *)
Definition task_in_error (job : Job) (t : Task) : Prop :=
  exists before after,
    job_tasks job = Some (before ++ t :: after)%list
    /\ task_status t = "error"
    /\ forall x, In x before -> task_status x <> "error".

(** No task of [job] has the status [error]. *)
Definition no_task_in_error (job : Job) : Prop :=
  forall tasks x, job_tasks job = Some tasks -> In x tasks -> task_status x <> "error".

(** The library offered no format that carries a download URL. *)
Definition lacks_url (answer : option Format) : Prop :=
  forall f, answer = Some f -> JsString.truthy_opt (fmt_url f) = false.

(** The formats a run started to download, oldest first. *)
Definition downloads (s : State) : list Format :=
  filter_map downloaded_format (trace s).

(** The job was created with an id and an import task, the document went
    through the temporary directory [tempDir] to the provider, the directory
    was removed, and the wait returned [completedJob]. *)
Definition completes (w : World) (inputFile : File) (targetFormat tempDir : string)
    (completedJob : Job) : Prop :=
  exists job jobId uploadTask,
    cc_jobs_create w (JsString.toLowerCase targetFormat) = Returned (Some job)
    /\ job_id job = Some jobId
    /\ JsString.truthy jobId = true
    /\ Convert.find_task (fun t => String.eqb (task_name t) "import-file") (job_tasks job)
       = Some uploadTask
    /\ JsString.truthy_opt (task_id uploadTask) = true
    /\ fs_mkdtemp w (NodePath.join [os_tmpdir w; "cc-upload-"]) = Returned tempDir
    /\ fs_writeFile w (NodePath.join [tempDir; file_name inputFile]) (file_bytes inputFile)
       = Returned tt
    /\ cc_tasks_upload w uploadTask (NodePath.join [tempDir; file_name inputFile])
         (file_name inputFile) = Returned tt
    /\ fs_rm w tempDir = Returned tt
    /\ cc_jobs_wait w jobId = Returned completedJob.

(** A conversion request that passes the validation of [POST]. *)
Definition accepted (w : World) (fd : Convert.FormData) (inputFile : File)
    (targetFormat : string) : Prop :=
  CLOUDCONVERT_API_KEY w = true
  /\ Convert.document fd = Some inputFile
  /\ JsString.truthy_opt (Convert.inputFileName fd) = true
  /\ Convert.targetFormat fd = Some targetFormat
  /\ Convert.supported (Some targetFormat) = true.

Module Scenario.
Import Sample.

(** No API key in the environment. *)
Definition unconfigured : World :=
  world false (fun _ => true) chooseFirstMatch (Returned hello) (Returned tt)
    createdJob (Returned tt).

(** The URL validator rejects everything. *)
Definition rejecting : World :=
  world true (fun _ => false) chooseFirstMatch (Returned hello) (Returned tt)
    createdJob (Returned tt).

(** The upload to the provider fails. *)
Definition uploadFails : World :=
  world true (fun _ => true) chooseFirstMatch (Returned hello)
    (Threw (Js.Error "socket hang up")) createdJob (Returned tt).

(** The job ends in [error]; the convert task says why. *)
Definition encrypted : World :=
  world true (fun _ => true) chooseFirstMatch (Returned hello) (Returned tt)
    (failedJob (Some "Encrypted file") (Some "job failed")) (Returned tt).

(** The result file carries no file name. *)
Definition unnamedResult : World :=
  world true (fun _ => true) chooseFirstMatch (Returned hello) (Returned tt)
    (finishedJob (mkResultFile None (Some "https://cc.example/out"))) (Returned tt).

(** A [chooseFormat] that, unlike the library's, proposes an audio-only
    format that has no URL. *)
Definition audioWithoutUrl : World :=
  world true (fun _ => true)
    (fun _ o => match o with
                | HighestAudio_AudioOnly => Returned (Some noUrl)
                | Highest_HasAudio => Returned (Some muxed)
                end)
    (Returned hello) (Returned tt) createdJob (Returned tt).

(** The removal of the session directory fails. *)
Definition removalFails : World :=
  world true (fun _ => true) chooseFirstMatch (Returned hello) (Returned tt)
    createdJob (Threw (Js.Error "EBUSY: resource busy or locked")).

(** The provider answers with the transcript under [data]. *)
Definition nestedTranscript : World :=
  world true (fun _ => true) chooseFirstMatch
    (Returned (Js.Obj [("data", Js.Obj [("text", Js.Str "nested words")])]))
    (Returned tt) createdJob (Returned tt).

(** The provider answers [null]. *)
Definition nullTranscript : World :=
  world true (fun _ => true) chooseFirstMatch (Returned Js.Null) (Returned tt)
    createdJob (Returned tt).

(** The video has a format with picture and sound, and no audio-only one. *)
Definition muxedOnly : World :=
  withVideo happy (mkVideoInfo "A talk: part 1/2" [muxed]).

(** The provider names the converted file with a line break in the name. *)
Definition brokenName : World :=
  world true (fun _ => true) chooseFirstMatch (Returned hello) (Returned tt)
    (finishedJob (mkResultFile (Some ("report" ++ String (ascii_of_nat 10) ".pdf"))
                    (Some "https://cc.example/out")))
    (Returned tt).

Definition toPdf : Convert.FormData :=
  Convert.mkFormData (Some report) (Some "PDF") (Some "report.docx").

Definition toExe : Convert.FormData :=
  Convert.mkFormData (Some report) (Some "exe") (Some "report.docx").

Definition noInputFileName : Convert.FormData :=
  Convert.mkFormData (Some report) (Some "pdf") None.

Definition notAUrl : Transcribe.FormData :=
  Transcribe.mkFormData (Some "url") None (Some "not-a-url").

Definition watchUrl : string := "https://www.youtube.com/watch?v=dQw4w9WgXcQ".

Definition uploadClip : Transcribe.FormData :=
  Transcribe.mkFormData (Some "file") (Some clip) None.

Definition traversal : Transcribe.FormData :=
  Transcribe.mkFormData (Some "file") (Some (mkFile "../evil.mp4" [Byte.x00])) None.

End Scenario.

(** ** Plain file names and directories *)

(** A path segment that [path.join] keeps as it is: not empty, not [.] or
    [..], and free of separators. *)
Definition plain_segment (seg : string) : bool :=
  match JsString.last_index_of NodePath.slash seg with
  | Some _ => false
  | None => negb (JsString.eqb_list seg [EmptyString; "."; ".."])
  end.

(** The absolute, normalized path of a directory, from its segments. *)
Definition directory (segs : list string) : string :=
  "/" ++ JsString.join_with "/" segs.

(** ** The steps of a conversion *)

(** What kind of effect an event is. *)
Inductive Step : Type :=
| CreateJob
| MakeDirectory
| WriteDocument
| UploadDocument
| RemoveDirectory
| WaitForJob
| FetchResult
| OtherStep.

Definition step_of (e : Event) : Step :=
  match e with
  | EvJobCreate _ => CreateJob
  | EvMkdtemp _ => MakeDirectory
  | EvWriteFile _ => WriteDocument
  | EvUpload _ _ _ => UploadDocument
  | EvRm _ => RemoveDirectory
  | EvJobWait _ => WaitForJob
  | EvFetch _ => FetchResult
  | _ => OtherStep
  end.

(** The order in which [performCloudConversion] awaits its collaborators. *)
Definition orchestration : list Step :=
  [CreateJob; MakeDirectory; WriteDocument; UploadDocument; RemoveDirectory;
   WaitForJob; FetchResult].

Definition job_format (e : Event) : option string :=
  match e with
  | EvJobCreate f => Some f
  | _ => None
  end.

Definition made_directory (e : Event) : option string :=
  match e with
  | EvMkdtemp d => Some d
  | _ => None
  end.

(** The job answered by [jobs.create] can take the upload: it has an id and
    an import task that has one. *)
Definition uploadable (job : Job) : bool :=
  andb (JsString.truthy_opt (job_id job))
    (match Convert.find_task (fun t => String.eqb (task_name t) "import-file")
             (job_tasks job) with
     | Some uploadTask => JsString.truthy_opt (task_id uploadTask)
     | None => false
     end).

(** ** Files a transcription request creates *)

(** The path an event creates a file at: the upload, the download, the
    extracted audio. *)
Definition created_path (e : Event) : option string :=
  match e with
  | EvWriteFile p => Some p
  | EvDownload _ _ p => Some p
  | EvFfmpeg _ output => Some output
  | _ => None
  end.

(** [s] contains no separator. *)
Definition slash_free (s : string) : Prop :=
  JsString.last_index_of NodePath.slash s = None.

(** ** Operators on JavaScript values *)

Module JsOps.
Import JsString.

(** JavaScript truthiness. *)
Definition truthy_value (v : Js.Value) : bool :=
  match v with
  | Js.Undefined | Js.Null => false
  | Js.Boolean b => b
  | Js.Number n => negb (Nat.eqb n 0)
  | Js.Str s => truthy s
  | Js.Arr _ | Js.Obj _ => true
  end.

(** [a || b] on values. *)
Definition or_value (a b : Js.Value) : Js.Value :=
  if truthy_value a then a else b.

(** [a?.k]: [undefined] when [a] is [null] or [undefined]. *)
Definition get_optional (k : string) (a : Js.Value) : Js.Value :=
  if Js.is_nullish a then Js.Undefined else Js.get k a.

End JsOps.

(** ** The transcription route, earlier revision

    The repository also holds the revision of
    [app/api/transcribe-video/route.ts] that precedes the shape-probing error
    handling.  [extractAudio] and [downloadYouTubeVideoAndExtractAudio] are the
    same in both; [transcribeWithWhisper] and [POST] differ. *)

Module TranscribeV1.
Import JsString.

Section Route.
(** The text a template literal gives for a value that is not a string. *)
Variable display : Js.Value -> string.
Variable w : World.

Definition template (v : Js.Value) : string :=
  match v with
  | Js.Str s => s
  | _ => display v
  end.

(** The [try] block of [transcribeWithWhisper] after the call: what is
    returned need not be a string. *)
Definition extractText (transcription : Js.Value) : Outcome Js.Value :=
  if Js.is_nullish transcription then Threw (Js.TypeError_read "text" transcription)
  else
    match Js.get "text" transcription with
    | Js.Str text => Returned (Js.Str text)
    | text =>
        let possibleText :=
          JsOps.or_value text
            (JsOps.get_optional "text" (Js.get "data" transcription)) in
        if JsOps.truthy_value possibleText then Returned possibleText
        else Threw (Js.Error "Could not extract text from Whisper API response.")
    end.

(** The [catch (error: any)] clause: it reads [error.response] for the log,
    then throws anew with [error.message] in a template. *)
Definition rethrow {A} (error : Js.Thrown) : M A :=
  match error with
  | Js.ErrorObject message _ =>
      throw (Js.Error ("Whisper API transcription failed: " ++ message))
  | Js.NotAnError v =>
      if Js.is_nullish v then throw (Js.TypeError_read "response" v)
      else
        throw (Js.Error ("Whisper API transcription failed: "
                         ++ template (Js.get "message" v)))
  end.

Definition transcribeWithWhisper (audioPath : string) : M Js.Value :=
  if negb (OPENAI_API_KEY w) then
    throw (Js.Error "OpenAI API key is not configured. Cannot transcribe.")
  else
    try_catch
      (call (EvAccess audioPath) (fs_access w audioPath) ;;;
       transcription <- call (EvWhisper audioPath)
                             (openai_transcriptions_create w audioPath) ;;
       lift (extractText transcription))
      rethrow.

Definition errorResponse (error : Js.Thrown) : Http.Response :=
  let errorMessage :=
    Js.message_or "An unknown error occurred during transcription processing." error in
  Http.json 500 [("error", Js.Str errorMessage); ("details", Js.Null)].

Definition transcribeAndRespond (audioToTranscribePath : string)
    (videoTitleFromUrl : option string) : M Http.Response :=
  if negb (truthy audioToTranscribePath) then
    throw (Js.Error "No audio data could be prepared for transcription.")
  else
    transcriptionText <- transcribeWithWhisper audioToTranscribePath ;;
    ret (Http.json 200
           [("transcription", transcriptionText);
            ("videoTitle", Js.of_opt_string videoTitleFromUrl)]).

(** The body of the [try] block of [POST]. *)
Definition handle (formData : Outcome Transcribe.FormData) (tempSessionDir : string)
  : M Http.Response :=
  fd <- lift formData ;;
  if is_string (Transcribe.operationType fd) "file" then
    match Transcribe.video fd with
    | None => ret (Http.json 400 [("error", Js.Str "No video file provided for upload.")])
    | Some videoFile =>
        let tempUploadedVideoPath := NodePath.join [tempSessionDir; file_name videoFile] in
        writeFile w tempUploadedVideoPath (file_bytes videoFile) ;;;
        audio <- Transcribe.extractAudio w tempUploadedVideoPath tempSessionDir ;;
        transcribeAndRespond audio None
    end
  else if is_string (Transcribe.operationType fd) "url" then
    if truthy_opt (Transcribe.videoUrl fd) then
      downloadResult <- Transcribe.downloadYouTubeVideoAndExtractAudio w
                          (or_else (Transcribe.videoUrl fd) EmptyString) tempSessionDir ;;
      transcribeAndRespond (fst downloadResult) (Some (snd downloadResult))
    else ret (Http.json 400 [("error", Js.Str "No video URL provided.")])
  else
    ret (Http.json 400 [("error", Js.Str Transcribe.invalid_operation_type)]).

Definition POST (formData : Outcome Transcribe.FormData) : M Http.Response :=
  tempSessionDir <- mkdtemp w (NodePath.join [os_tmpdir w; "transcribe-session-"]) ;;
  try_finally
    (try_catch (handle formData tempSessionDir) (fun error => ret (errorResponse error)))
    (Transcribe.cleanup w tempSessionDir).

End Route.
End TranscribeV1.

(** ** Comparing the two revisions *)

(** A field of a JSON response; [undefined] when it is not there. *)
Definition response_field (k : string) (r : Http.Response) : Js.Value :=
  match Http.body r with
  | Http.Json fields => match Js.assoc k fields with Some v => v | None => Js.Undefined end
  | Http.Raw _ => Js.Undefined
  end.

(** What both revisions put in a response: the status, the transcript and
    the title, or the error message. *)
Definition essentials (r : Http.Response) : nat * (Js.Value * Js.Value * Js.Value) :=
  (Http.status r,
   (response_field "transcription" r, response_field "videoTitle" r,
    response_field "error" r)).

(** The speech-to-text provider keeps to the types of its SDK: an answer is
    an object whose [text] is a string, and failures are instances of
    [Error]; so are the failures of the readability check. *)
Definition provider_keeps_its_types (w : World) : Prop :=
  (forall audio response,
     openai_transcriptions_create w audio = Returned response ->
     Js.is_nullish response = false
     /\ exists text, Js.get "text" response = Js.Str text)
  /\ (forall audio e, openai_transcriptions_create w audio = Threw e ->
                      exists message props, e = Js.ErrorObject message props)
  /\ (forall audio e, fs_access w audio = Threw e ->
                      exists message props, e = Js.ErrorObject message props).

(** ** The transcription page: [app/transcribe/page.tsx] *)

From Stdlib Require DecimalString.

Module Page.
Import JsString.

(** A [File] as the browser holds it: the upload and its MIME type. *)
Record BrowserFile : Type := mkBrowserFile
  { upload : File;
    mime : string }.

(** The five [useState] cells of [VideoTranscribePage]. *)
Record PageState : Type := mkPageState
  { selectedFile : option BrowserFile;
    isTranscribing : bool;
    (* [string | null] by its type; it holds whatever [result.transcription] was *)
    transcription : Js.Value;
    error : option string;
    fileName : option string }.

(** The state of the first render. *)
Definition start : PageState := mkPageState None false Js.Null None None.

(** What [fetch] resolved to: [response.ok], [response.status], and what
    [response.json()] gives. *)
Record Reply : Type := mkReply
  { reply_ok : bool;
    reply_status : nat;
    reply_json : Outcome Js.Value }.

(** A number in a template literal. *)
Definition decimal (n : nat) : string :=
  DecimalString.NilZero.string_of_uint (Nat.to_uint n).

Definition invalid_file_type : string :=
  "Invalid file type. Please upload a video file (e.g., MP4, MOV, AVI, WEBM).".

Definition onDrop (acceptedFiles : list BrowserFile) (st : PageState) : PageState :=
  match acceptedFiles with
  | [] => mkPageState (selectedFile st) (isTranscribing st) Js.Null None (fileName st)
  | file :: _ =>
      if negb (String.prefix "video/" (mime file)) then
        mkPageState None (isTranscribing st) Js.Null (Some invalid_file_type) None
      else
        mkPageState (Some file) (isTranscribing st) Js.Null None
          (Some (file_name (upload file)))
  end.

Definition handleRemoveVideo (st : PageState) : PageState :=
  mkPageState None (isTranscribing st) Js.Null None None.

(** The multipart form [handleTranscribe] sends, as the route reads it: the
    only field appended is [video]. *)
Definition formDataOf (file : BrowserFile) : Transcribe.FormData :=
  Transcribe.mkFormData None (Some (upload file)) None.

Section Submit.
(** The text [new Error(v)] gives [message] for a value [v] that is not a
    string: the conversion of the JavaScript engine. *)
Variable display : Js.Value -> string.
(** The message of the engine's [TypeError] for reading property [k] of
    [null] or [undefined]. *)
Variable typeError : string -> Js.Value -> string.
(** The server behind [/api/transcribe-video]. *)
Variable server : Transcribe.FormData -> Outcome Reply.

(** [new Error(v).message]. *)
Definition messageOf (v : Js.Value) : string :=
  match v with
  | Js.Str s => s
  | _ => display v
  end.

(** The [try] block of [handleTranscribe]: the transcript to show, or what
    is thrown. *)
Definition submit (file : BrowserFile) : Outcome Js.Value :=
  match server (formDataOf file) with
  | Threw e => Threw e
  | Returned response =>
      if negb (reply_ok response) then
        let errorData :=
          match reply_json response with
          | Returned data => data
          | Threw _ =>
              Js.Obj [("error", Js.Str ("Server error: " ++ decimal (reply_status response)))]
          end in
        if Js.is_nullish errorData then Threw (Js.Error (typeError "error" errorData))
        else
          Threw (Js.Error
                   (messageOf
                      (JsOps.or_value (Js.get "error" errorData)
                         (JsOps.or_value (Js.get "details" errorData)
                            (Js.Str ("Transcription failed: "
                                     ++ decimal (reply_status response)))))))
      else
        match reply_json response with
        | Threw e => Threw e
        | Returned result =>
            if Js.is_nullish result then
              Threw (Js.Error (typeError "transcription" result))
            else Returned (Js.get "transcription" result)
        end
  end.

Definition handleTranscribe (st : PageState) : PageState :=
  match selectedFile st with
  | None =>
      mkPageState (selectedFile st) (isTranscribing st) (transcription st)
        (Some "Please select a video file first.") (fileName st)
  | Some file =>
      match submit file with
      | Returned text => mkPageState (selectedFile st) false text None (fileName st)
      | Threw err =>
          mkPageState (selectedFile st) false Js.Null
            (Some (Js.message_or "An unknown error occurred during transcription." err))
            (fileName st)
      end
  end.

End Submit.

(** What the page receives for [NextResponse.json(fields, { status })]:
    properties whose value is [undefined] are not serialized. *)
Definition wire (status : nat) (fields : list (string * Js.Value)) : Reply :=
  mkReply (andb (200 <=? status)%nat (status <? 300)%nat) status
    (Returned (Js.Obj (filter (fun kv => match snd kv with
                                         | Js.Undefined => false
                                         | _ => true
                                         end) fields))).

(** The selection is coherent: the name shown is the name of the selected
    file, and a selected file has a video MIME type. *)
Definition coherent (st : PageState) : Prop :=
  fileName st = option_map (fun f => file_name (upload f)) (selectedFile st)
  /\ forall f, selectedFile st = Some f -> String.prefix "video/" (mime f) = true.

End Page.

(** ** The database client: [lib/prisma.ts] *)

Module Prisma.

(** What the module reads and writes when it is evaluated: the environment,
    the [global.prisma] slot, and how many clients were constructed so far.
    A client is named by the rank of its construction. *)
Record Runtime : Type := mkRuntime
  { NODE_ENV : option string;
    global_prisma : option nat;
    constructed : nat }.

(** One evaluation of the module: the client it exports, and the runtime
    afterwards. *)
Definition load (rt : Runtime) : nat * Runtime :=
  let '(prisma, count) :=
    match global_prisma rt with
    | Some client => (client, constructed rt)
    | None => (constructed rt, S (constructed rt))
    end in
  (prisma,
   if negb (JsString.is_string (NODE_ENV rt) "production")
   then mkRuntime (NODE_ENV rt) (Some prisma) count
   else mkRuntime (NODE_ENV rt) (global_prisma rt) count).

(** [k] evaluations in a row (hot reloads): the clients exported, oldest
    first. *)
Fixpoint reload (k : nat) (rt : Runtime) : list nat * Runtime :=
  match k with
  | 0 => ([], rt)
  | S k' =>
      let '(client, rt1) := load rt in
      let '(clients, rt2) := reload k' rt1 in
      (client :: clients, rt2)
  end.

End Prisma.

(** * Properties *)

(** ** The monad *)

Lemma extends_refl (P : Event -> bool) (s : State) : extends P s s.
Proof.
  split; [reflexivity|]. exists []. rewrite app_nil_r. split; reflexivity.
Qed.

Lemma extends_trans (P : Event -> bool) (s1 s2 s3 : State) :
  extends P s1 s2 -> extends P s2 s3 -> extends P s1 s3.
Proof.
  intros [D1 [e1 [T1 F1]]] [D2 [e2 [T2 F2]]]. split.
  - congruence.
  - exists (e1 ++ e2)%list. split.
    + rewrite T2, T1, app_assoc. reflexivity.
    + rewrite forallb_app, F1, F2. reflexivity.
Qed.

Lemma quiet_ret {A} (P : Event -> bool) (a : A) : quiet P (ret a).
Proof. intro s. apply extends_refl. Qed.

Lemma quiet_throw {A} (P : Event -> bool) (e : Js.Thrown) : quiet P (@throw A e).
Proof. intro s. apply extends_refl. Qed.

Lemma quiet_lift {A} (P : Event -> bool) (o : Outcome A) : quiet P (lift o).
Proof. intro s. apply extends_refl. Qed.

Lemma quiet_tick (P : Event -> bool) : quiet P tick.
Proof.
  intro s. split; [reflexivity|]. exists []. simpl. rewrite app_nil_r. split; reflexivity.
Qed.

Lemma quiet_emit (P : Event -> bool) (e : Event) : P e = true -> quiet P (emit e).
Proof.
  intros H s. split; [reflexivity|]. exists [e]. simpl. rewrite H. split; reflexivity.
Qed.

Lemma quiet_bind {A B} (P : Event -> bool) (m : M A) (k : A -> M B) :
  quiet P m -> (forall a, quiet P (k a)) -> quiet P (bind m k).
Proof.
  intros Hm Hk s. unfold bind. specialize (Hm s).
  destruct (m s) as [[a|e] s1]; simpl in *.
  - eapply extends_trans; [exact Hm | apply Hk].
  - exact Hm.
Qed.

Lemma quiet_try_catch {A} (P : Event -> bool) (m : M A) (h : Js.Thrown -> M A) :
  quiet P m -> (forall e, quiet P (h e)) -> quiet P (try_catch m h).
Proof.
  intros Hm Hh s. unfold try_catch. specialize (Hm s).
  destruct (m s) as [[a|e] s1]; simpl in *.
  - exact Hm.
  - eapply extends_trans; [exact Hm | apply Hh].
Qed.

Lemma quiet_call {A} (P : Event -> bool) (e : Event) (o : Outcome A) :
  P e = true -> quiet P (call e o).
Proof.
  intro H. unfold call. apply quiet_bind; [apply quiet_emit; exact H|].
  intro. apply quiet_lift.
Qed.

(** Decomposes a goal [quiet P m] along the structure of [m]. *)
Ltac quiet_step :=
  first
    [ apply quiet_ret
    | apply quiet_throw
    | apply quiet_lift
    | apply quiet_tick
    | apply quiet_call; reflexivity
    | apply quiet_bind; [|intro]
    | apply quiet_try_catch; [|intro]
    | match goal with
      | |- quiet _ (match ?x with _ => _ end) => destruct x
      | |- quiet _ (if ?b then _ else _) => destruct b
      end ].

Ltac quiet_auto := repeat quiet_step.

(** ** The transcription route *)

Section TranscribeFacts.
Variable w : World.

Lemma extractAudio_quiet (P : Event -> bool) (videoPath outputDir : string) :
  (forall a b, P (EvFfmpeg a b) = true) ->
  quiet P (Transcribe.extractAudio w videoPath outputDir).
Proof.
  intro H. unfold Transcribe.extractAudio, uniqueSuffix.
  apply quiet_bind; [quiet_auto|]. intro. apply quiet_call. apply H.
Qed.

Lemma transcribeWithWhisper_quiet (P : Event -> bool) (audioPath : string) :
  (forall a, P (EvAccess a) = true) -> (forall a, P (EvWhisper a) = true) ->
  quiet P (Transcribe.transcribeWithWhisper w audioPath).
Proof.
  intros H1 H2. unfold Transcribe.transcribeWithWhisper.
  destruct (negb (OPENAI_API_KEY w)); [apply quiet_throw|].
  apply quiet_try_catch; [|intro; apply quiet_throw].
  apply quiet_bind; [apply quiet_call, H1|]. intro.
  apply quiet_bind; [apply quiet_call, H2|]. intro. apply quiet_lift.
Qed.

Lemma selectFormat_quiet (P : Event -> bool) (formats : list Format) :
  quiet P (Transcribe.selectFormat w formats).
Proof. unfold Transcribe.selectFormat. quiet_auto. Qed.

(** The [try] block of [POST] removes nothing and creates no directory. *)
Lemma handle_quiet (formData : Outcome Transcribe.FormData) (dir : string) :
  quiet (fun e => negb (orb (is_rm e) (is_mkdtemp e)))
    (Transcribe.handle w formData dir).
Proof.
  set (P := fun e => negb (orb (is_rm e) (is_mkdtemp e))).
  assert (T : forall a t o, quiet P (Transcribe.transcribeAndRespond w a t o)).
  { intros. unfold Transcribe.transcribeAndRespond.
    destruct (negb (JsString.truthy a)); [apply quiet_throw|].
    apply quiet_bind; [apply transcribeWithWhisper_quiet; reflexivity|].
    intro. apply quiet_ret. }
  unfold Transcribe.handle. apply quiet_bind; [apply quiet_lift|]. intro fd.
  destruct (JsString.is_string (Transcribe.operationType fd) "file").
  { destruct (Transcribe.video fd); [|apply quiet_ret].
    apply quiet_bind; [apply quiet_call; reflexivity|]. intro.
    apply quiet_bind; [apply extractAudio_quiet; reflexivity|]. intro. apply T. }
  destruct (JsString.is_string (Transcribe.operationType fd) "url"); [|apply quiet_ret].
  destruct (JsString.truthy_opt (Transcribe.videoUrl fd)); [|apply quiet_ret].
  apply quiet_bind; [|intro; apply T].
  unfold Transcribe.downloadYouTubeVideoAndExtractAudio.
  destruct (negb (ytdl_validateURL w _)); [apply quiet_throw|].
  apply quiet_bind; [apply quiet_call; reflexivity|]. intro.
  apply quiet_bind; [apply selectFormat_quiet|]. intro.
  apply quiet_bind; [unfold uniqueSuffix; quiet_auto|]. intro.
  apply quiet_bind; [apply quiet_call; reflexivity|]. intro.
  apply quiet_bind; [apply extractAudio_quiet; reflexivity|]. intro. apply quiet_ret.
Qed.

End TranscribeFacts.

Lemma removed_dir_is_gone (d : string) (l : list string) :
  JsString.eqb_list d (filter (fun x => negb (String.eqb x d)) l) = false.
Proof.
  unfold JsString.eqb_list. induction l as [|x l IH]; [reflexivity|].
  simpl. destruct (String.eqb x d) eqn:E; simpl; [exact IH|].
  rewrite String.eqb_sym, E. exact IH.
Qed.

(** On the transcription route the session directory is removed by the
    [finally] block: on every exit path of [POST] exactly one removal is
    attempted, it is the last effect of the request, a response is always
    produced, and the directory is gone whenever the removal succeeds. *)
Lemma transcribe_POST_cleans_up (w : World) (formData : Outcome Transcribe.FormData)
    (s : State) (dir : string) :
  fs_mkdtemp w (NodePath.join [os_tmpdir w; "transcribe-session-"]) = Returned dir ->
  JsString.truthy dir = true ->
  let run := Transcribe.POST w formData s in
  (exists r, fst run = Returned r)
  /\ filter is_rm (trace (snd run)) = (filter is_rm (trace s) ++ [EvRm dir])%list
  /\ (exists before, trace (snd run) = (before ++ [EvRm dir])%list)
  /\ (fs_rm w dir = Returned tt -> exists_dir dir (snd run) = false).
Proof.
  intros Hmk Hdir run. subst run. unfold Transcribe.POST, mkdtemp. rewrite Hmk.
  unfold bind, emit, add_dir, ret. cbn beta iota.
  set (s1 := mkState _ _ _).
  unfold try_finally, try_catch, Transcribe.cleanup. rewrite Hdir.
  unfold try_catch, rm, bind, emit, remove_dir, ret, throw.
  pose proof (handle_quiet w formData dir s1) as Q.
  destruct (Transcribe.handle w formData dir s1) as [[r|e] s2] eqn:Hh; cbn [snd] in Q.
  all: destruct Q as [D [evs [T F]]].
  all: assert (NR : filter is_rm evs = []) by
      (clear - F; induction evs as [|x evs IH]; [reflexivity|];
       simpl in *; apply andb_true_iff in F as [Fx Fr];
       destruct x; simpl in *; try discriminate; apply IH, Fr).
  all: destruct (fs_rm w dir) as [[]|e'] eqn:Hrm; cbn [fst snd trace dirs].
  all: repeat split; try (eexists; reflexivity).
  all: try (rewrite T; subst s1; cbn [trace]; rewrite !filter_app, NR; simpl;
            rewrite !app_nil_r; reflexivity).
  all: try (intros _; unfold exists_dir; cbn [dirs]; apply removed_dir_is_gone).
  all: try discriminate.
Qed.

(** C2, the defect in general form.  A non-empty [videoUrl] that the
    validator rejects, submitted with operation type [url], is answered with
    status 500 (not 400) and the message [Invalid YouTube URL] (no details);
    the request does fail before any call goes over the network. *)
Theorem invalid_url_fails_with_500_before_network
    (w : World) (fd : Transcribe.FormData) (url dir : string) (s : State) :
  fs_mkdtemp w (NodePath.join [os_tmpdir w; "transcribe-session-"]) = Returned dir ->
  Transcribe.operationType fd = Some "url" ->
  Transcribe.videoUrl fd = Some url ->
  JsString.truthy url = true ->
  ytdl_validateURL w url = false ->
  let run := Transcribe.POST w (Returned fd) s in
  fst run = Returned (Http.json 500 [("error", Js.Str "Invalid YouTube URL");
                                     ("details", Js.Null)])
  /\ filter is_network (trace (snd run)) = filter is_network (trace s).
Proof.
  intros Hmk Hop Hurl Ht Hv.
  unfold Transcribe.POST, mkdtemp. rewrite Hmk.
  unfold try_finally, try_catch, Transcribe.handle, bind, lift, emit, add_dir, ret.
  cbn [fst snd]. rewrite Hop, Hurl. cbn [JsString.is_string JsString.truthy_opt].
  replace (String.eqb "url" "file") with false by reflexivity.
  replace (String.eqb "url" "url") with true by reflexivity.
  rewrite Ht. unfold Transcribe.downloadYouTubeVideoAndExtractAudio.
  cbn [JsString.or_else]. rewrite Ht, Hv. cbn [negb throw].
  unfold Transcribe.cleanup, try_catch, rm, bind, emit, remove_dir, ret, throw.
  destruct (JsString.truthy dir); [destruct (fs_rm w dir) as [[]|e]|];
    cbn [fst snd trace]; (split; [reflexivity|]);
    rewrite ?filter_app; simpl; rewrite ?app_nil_r; reflexivity.
Qed.

(** The request of the specification's scenario, [videoUrl = not-a-url]. *)
Lemma invalid_url_fails_with_500_witness :
  let run := Transcribe.POST Scenario.rejecting (Returned Scenario.notAUrl) initial in
  fst run = Returned (Http.json 500 [("error", Js.Str "Invalid YouTube URL");
                                     ("details", Js.Null)])
  /\ filter is_network (trace (snd run)) = filter is_network (trace initial).
Proof.
  apply (invalid_url_fails_with_500_before_network Scenario.rejecting Scenario.notAUrl
           "not-a-url" Sample.sessionDir initial); reflexivity.
Defined.

(** The rejected URL of the scenario is answered with 500, not with 400. *)
Lemma invalid_url_is_not_answered_400 :
  ytdl_validateURL Scenario.rejecting "not-a-url" = false
  /\ response_status
       (fst (Transcribe.POST Scenario.rejecting (Returned Scenario.notAUrl) initial))
     = Some 500
  /\ response_status
       (fst (Transcribe.POST Scenario.rejecting (Returned Scenario.notAUrl) initial))
     <> Some 400.
Proof. repeat split; try reflexivity. vm_compute. discriminate. Qed.

(** The same handler answers its other validation failures with 400: here,
    a [url] request that carries no [videoUrl]. *)
Lemma missing_url_is_answered_400
    (w : World) (fd : Transcribe.FormData) (dir : string) (s : State) :
  fs_mkdtemp w (NodePath.join [os_tmpdir w; "transcribe-session-"]) = Returned dir ->
  Transcribe.operationType fd = Some "url" ->
  JsString.truthy_opt (Transcribe.videoUrl fd) = false ->
  fst (Transcribe.POST w (Returned fd) s)
  = Returned (Http.json 400 [("error", Js.Str "No video URL provided.")]).
Proof.
  intros Hmk Hop Hno.
  unfold Transcribe.POST, mkdtemp. rewrite Hmk.
  unfold try_finally, try_catch, Transcribe.handle, bind, lift, emit, add_dir, ret.
  cbn [fst snd]. rewrite Hop. cbn [JsString.is_string].
  replace (String.eqb "url" "file") with false by reflexivity.
  replace (String.eqb "url" "url") with true by reflexivity.
  rewrite Hno.
  unfold Transcribe.cleanup, try_catch, rm, bind, emit, remove_dir, ret, throw.
  destruct (JsString.truthy dir); [destruct (fs_rm w dir) as [[]|e]|]; reflexivity.
Qed.

(** ** The conversion route: validation *)

Lemma eqb_list_In (x : string) (l : list string) :
  JsString.eqb_list x l = true <-> In x l.
Proof.
  unfold JsString.eqb_list. rewrite existsb_exists. split.
  - intros [y [Hy E]]. apply String.eqb_eq in E. subst. exact Hy.
  - intro H. exists x. split; [exact H | apply String.eqb_refl].
Qed.

(** The guard of [POST], read against the list of the specification. *)
Lemma unsupported_outside_the_set (targetFormat : option string) :
  (forall t, targetFormat = Some t ->
             ~ In (JsString.toLowerCase t)
                 ["pdf"; "docx"; "txt"; "html"; "odt"; "pptx"; "jpg"; "png"]) ->
  Convert.supported targetFormat = false.
Proof.
  intro H. destruct targetFormat as [t|]; [|reflexivity].
  unfold Convert.supported.
  destruct (JsString.eqb_list (JsString.toLowerCase t)
              Convert.SUPPORTED_DOC_OUTPUT_FORMATS_API) eqn:E.
  - apply eqb_list_In in E. exfalso. exact (H t eq_refl E).
  - apply andb_false_r.
Qed.

(** The second guard of [POST] where the list of formats is declared. *)
Lemma unsupportedTarget_annotated (targetFormat : option string) (s : State) :
  Convert.unsupportedTarget Convert.Annotated targetFormat s
  = (Returned (negb (Convert.supported targetFormat)), s).
Proof.
  unfold Convert.unsupportedTarget, Convert.supported, Convert.moduleConstant, bind, ret.
  destruct targetFormat as [t|]; [|reflexivity].
  cbn [JsString.truthy_opt JsString.or_else]. destruct (JsString.truthy t); reflexivity.
Qed.

(** The second guard of [POST] in [route.ts]: a missing or empty
    [targetFormat] is refused before the list is read; reading the list
    throws. *)
Lemma unsupportedTarget_inferred (targetFormat : option string) (s : State) :
  Convert.unsupportedTarget Convert.Inferred targetFormat s
  = (if JsString.truthy_opt targetFormat
     then Threw (Js.ReferenceError "SUPPORTED_DOC_OUTPUT_FORMATS_API")
     else Returned true, s).
Proof.
  unfold Convert.unsupportedTarget, Convert.moduleConstant, bind, throw, ret.
  destruct (JsString.truthy_opt targetFormat); reflexivity.
Qed.

(** The second guard changes nothing, whatever its outcome. *)
Lemma unsupportedTarget_state (rev : Convert.Revision) (targetFormat : option string)
    (s : State) :
  snd (Convert.unsupportedTarget rev targetFormat s) = s.
Proof.
  destruct rev; [rewrite unsupportedTarget_inferred | rewrite unsupportedTarget_annotated];
    reflexivity.
Qed.

(** C4 (as amended).  When [targetFormat] is, case-insensitively, outside
    [pdf, docx, txt, html, odt, pptx, jpg, png] (or is absent), the request
    ends without any effect, in both revisions: job creation is not invoked
    and the provider is not contacted.  Where the list of formats is declared,
    the answer has status 400 when the server has its CloudConvert API key;
    without the key it has status 500. *)
Theorem unsupported_format_never_reaches_provider
    (w : World) (rev : Convert.Revision) (fd : Convert.FormData) (s : State) :
  (forall t, Convert.targetFormat fd = Some t ->
             ~ In (JsString.toLowerCase t)
                 ["pdf"; "docx"; "txt"; "html"; "odt"; "pptx"; "jpg"; "png"]) ->
  let run := Convert.POST w rev (Returned fd) s in
  snd run = s
  /\ filter is_provider (trace (snd run)) = filter is_provider (trace s)
  /\ (CLOUDCONVERT_API_KEY w = true -> rev = Convert.Annotated ->
      response_status (fst run) = Some 400)
  /\ (CLOUDCONVERT_API_KEY w = false -> response_status (fst run) = Some 500).
Proof.
  intros H run. subst run. apply unsupported_outside_the_set in H.
  unfold Convert.POST, Convert.handle, try_catch, bind, lift, ret.
  destruct (CLOUDCONVERT_API_KEY w); cbn [negb];
    [|repeat split; intros; try reflexivity; discriminate].
  destruct (Convert.document fd);
    [|repeat split; intros; try reflexivity; discriminate].
  destruct (negb (JsString.truthy_opt (Convert.inputFileName fd)));
    [repeat split; intros; try reflexivity; discriminate|].
  destruct rev;
    [rewrite unsupportedTarget_inferred | rewrite unsupportedTarget_annotated, H].
  - destruct (JsString.truthy_opt (Convert.targetFormat fd));
      repeat split; intros; try reflexivity; discriminate.
  - repeat split; intros; try reflexivity; discriminate.
Qed.

(** The scenario of the specification, [targetFormat = exe], on a configured
    server. *)
Lemma unsupported_format_witness :
  let run := Convert.POST Sample.happy Convert.Annotated (Returned Scenario.toExe) initial in
  snd run = initial /\ response_status (fst run) = Some 400.
Proof.
  assert (H : forall t, Convert.targetFormat Scenario.toExe = Some t ->
                ~ In (JsString.toLowerCase t)
                    ["pdf"; "docx"; "txt"; "html"; "odt"; "pptx"; "jpg"; "png"]).
  { intros t E. injection E as <-. simpl.
    intros [F|[F|[F|[F|[F|[F|[F|[F|[]]]]]]]]]; discriminate F. }
  destruct (unsupported_format_never_reaches_provider
              Sample.happy Convert.Annotated Scenario.toExe initial H)
    as [S0 [_ [S400 _]]].
  split; [exact S0 | apply S400; reflexivity].
Defined.

(** C4 (as stated) fails: without the API key the unsupported format is
    answered with 500. *)
Lemma unsupported_format_without_api_key :
  Convert.supported (Convert.targetFormat Scenario.toExe) = false
  /\ response_status
       (fst (Convert.POST Scenario.unconfigured Convert.Annotated
               (Returned Scenario.toExe) initial)) = Some 500
  /\ response_status
       (fst (Convert.POST Scenario.unconfigured Convert.Annotated
               (Returned Scenario.toExe) initial)) <> Some 400.
Proof. repeat split; try reflexivity. vm_compute. discriminate. Qed.

(** C10 (as amended).  A request that carries the document but no
    [inputFileName] ends without any effect, so the provider is not contacted.
    On a server that has its CloudConvert API key the answer is 400 with the
    message [No document file provided.]; without the key it is 500. *)
Theorem missing_input_file_name_is_rejected
    (w : World) (rev : Convert.Revision) (fd : Convert.FormData) (file : File)
    (s : State) :
  Convert.document fd = Some file ->
  Convert.inputFileName fd = None ->
  let run := Convert.POST w rev (Returned fd) s in
  snd run = s
  /\ filter is_provider (trace (snd run)) = filter is_provider (trace s)
  /\ (CLOUDCONVERT_API_KEY w = true ->
      fst run = Returned (Http.json 400 [("error", Js.Str "No document file provided.")]))
  /\ (CLOUDCONVERT_API_KEY w = false -> response_status (fst run) = Some 500).
Proof.
  intros Hd Hn run. subst run.
  unfold Convert.POST, Convert.handle, try_catch, bind, lift, ret.
  rewrite Hd, Hn. cbn [JsString.truthy_opt negb].
  destruct (CLOUDCONVERT_API_KEY w); cbn [negb fst snd];
    repeat split; intros; try reflexivity; discriminate.
Qed.

Lemma missing_input_file_name_witness :
  let run := Convert.POST Sample.happy Convert.Inferred
               (Returned Scenario.noInputFileName) initial in
  snd run = initial
  /\ fst run = Returned (Http.json 400 [("error", Js.Str "No document file provided.")]).
Proof.
  destruct (missing_input_file_name_is_rejected Sample.happy Convert.Inferred
              Scenario.noInputFileName Sample.report initial eq_refl eq_refl)
    as [S0 [_ [S400 _]]].
  split; [exact S0 | apply S400; reflexivity].
Defined.

(** C10 (as stated) fails: without the API key the request is answered with
    500 and another message. *)
Lemma missing_input_file_name_without_api_key :
  Convert.document Scenario.noInputFileName = Some Sample.report
  /\ Convert.inputFileName Scenario.noInputFileName = None
  /\ fst (Convert.POST Scenario.unconfigured Convert.Inferred
            (Returned Scenario.noInputFileName) initial)
     = Returned (Http.json 500
                   [("error", Js.Str "Server configuration error for conversion service.")])
  /\ fst (Convert.POST Scenario.unconfigured Convert.Inferred
            (Returned Scenario.noInputFileName) initial)
     <> Returned (Http.json 400 [("error", Js.Str "No document file provided.")]).
Proof. repeat split; try reflexivity. vm_compute. discriminate. Qed.

(** ** The conversion route: the orchestrator *)

(** Once the job is created, the document uploaded and the temporary
    directory removed, [submitAndWait] hands over the completed job. *)
Lemma submitAndWait_completes (w : World) (inputFile : File)
    (targetFormat tempDir : string) (completedJob : Job) (s : State) :
  completes w inputFile targetFormat tempDir completedJob ->
  exists s', Convert.submitAndWait w inputFile targetFormat s = (Returned completedJob, s').
Proof.
  intros [job [jobId [uploadTask [Hc [Hid [Hjid [Hup [Htid [Hmk [Hw [Hu [Hrm Hwait]]]]]]]]]]]].
  unfold Convert.submitAndWait, call, mkdtemp, writeFile, rm, call.
  rewrite Hc, Hmk.
  unfold bind, emit, lift, add_dir, ret. cbn beta iota.
  rewrite Hid. cbn [JsString.truthy_opt JsString.or_else]. rewrite Hjid. cbn [negb].
  rewrite Hup, Htid. cbn [negb]. cbn beta iota.
  rewrite Hw, Hu, Hrm. cbn beta iota. unfold remove_dir. rewrite Hwait.
  eexists. reflexivity.
Qed.

Lemma performCloudConversion_after_wait (w : World) (rev : Convert.Revision)
    (inputFile : File) (targetFormat tempDir : string) (completedJob : Job) (s : State) :
  completes w inputFile targetFormat tempDir completedJob ->
  exists s',
    Convert.performCloudConversion w rev inputFile targetFormat s
    = try_catch (Convert.collectResult w rev inputFile targetFormat completedJob)
        (fun error =>
           throw (Js.Error ("CloudConvert processing failed: "
                            ++ Js.message_or "Unknown CloudConvert error" error))) s'.
Proof.
  intro H. destruct (submitAndWait_completes w inputFile targetFormat tempDir completedJob s H)
    as [s' E].
  exists s'. unfold Convert.performCloudConversion, Convert.convertSteps, try_catch, bind.
  rewrite E. reflexivity.
Qed.

(** Where the tables are declared, a request that passes validation is
    answered with what the orchestrator throws or, when it returns, with the
    200 response, unless the platform refuses one of the two headers. *)
Lemma POST_accepted (w : World) (fd : Convert.FormData)
    (inputFile : File) (targetFormat : string) (s : State) :
  accepted w fd inputFile targetFormat ->
  fst (Convert.POST w Convert.Annotated (Returned fd) s)
  = match fst (Convert.performCloudConversion w Convert.Annotated inputFile targetFormat s) with
    | Returned converted =>
        match headers_set w "Content-Type"
                (Convert.mimeTypeFrom Convert.EXT_TO_MIMETYPE targetFormat) with
        | Returned _ =>
            match headers_set w "Content-Disposition"
                    (Convert.contentDisposition (snd converted)) with
            | Returned _ => Returned (Convert.successResponse targetFormat converted)
            | Threw refusal => Returned (Convert.errorResponse refusal)
            end
        | Threw refusal => Returned (Convert.errorResponse refusal)
        end
    | Threw error => Returned (Convert.errorResponse error)
    end.
Proof.
  intros [Hk [Hd [Hn [Ht Hs]]]].
  unfold Convert.POST, Convert.handle, try_catch, bind, lift, ret.
  rewrite Hk, Hd, Hn, Ht. cbn [negb]. cbv beta.
  rewrite unsupportedTarget_annotated, Hs. cbn [negb JsString.or_else].
  assert (Tt : JsString.truthy targetFormat = true).
  { unfold Convert.supported in Hs. apply andb_true_iff in Hs. tauto. }
  rewrite Tt.
  destruct (Convert.performCloudConversion w Convert.Annotated inputFile targetFormat s)
    as [[c|e] s']; [|reflexivity].
  cbn [Convert.moduleConstant ret fst].
  destruct (headers_set w "Content-Type" _) as [[]|e1]; [|reflexivity].
  destruct (headers_set w "Content-Disposition" _) as [[]|e2]; reflexivity.
Qed.

(** The error branch reports the first task whose status is [error]. *)
Lemma failedTask_in_error (job : Job) (t : Task) :
  task_in_error job t -> Convert.failedTask job = Some t.
Proof.
  intros [before [after [Hl [Ht Hb]]]]. unfold Convert.failedTask, Convert.find_task.
  rewrite Hl. clear Hl. induction before as [|x before IH]; simpl.
  - rewrite Ht. reflexivity.
  - assert (Hx : String.eqb (task_status x) "error" = false)
      by (apply String.eqb_neq, Hb; left; reflexivity).
    rewrite Hx. apply IH. intros y Hy. apply Hb. right. exact Hy.
Qed.

Lemma failedTask_none (job : Job) :
  no_task_in_error job -> Convert.failedTask job = None.
Proof.
  unfold no_task_in_error, Convert.failedTask, Convert.find_task.
  destruct (job_tasks job) as [tasks|]; [|reflexivity].
  intro H. specialize (H tasks).
  induction tasks as [|x tasks IH]; [reflexivity|]. simpl.
  assert (Hx : String.eqb (task_status x) "error" = false)
    by (apply String.eqb_neq; apply (H x eq_refl); left; reflexivity).
  rewrite Hx. apply IH. intros y _ Hy. apply (H y eq_refl). right. exact Hy.
Qed.

(** C7.  When the wait returns a job whose status is [error], the
    orchestrator throws [CloudConvert processing failed: CloudConvert job
    failed: ] followed by a text chosen in this order: the message of the
    task whose status is [error]; else (no task has that status, or the task
    has no message) the message of the job; else the fixed fallback of the
    revision.  [Else] is JavaScript's: an empty message counts as none. *)
Theorem failed_job_message_precedence
    (w : World) (rev : Convert.Revision) (inputFile : File)
    (targetFormat tempDir : string) (completedJob : Job) (s : State) :
  completes w inputFile targetFormat tempDir completedJob ->
  job_status completedJob = "error" ->
  exists chosen,
    fst (Convert.performCloudConversion w rev inputFile targetFormat s)
    = Threw (Js.Error ("CloudConvert processing failed: CloudConvert job failed: " ++ chosen))
    /\ (forall t m, task_in_error completedJob t ->
                    task_message t = Some m -> JsString.truthy m = true -> chosen = m)
    /\ (no_task_in_error completedJob
        \/ (exists t, task_in_error completedJob t
                      /\ JsString.truthy_opt (task_message t) = false) ->
        (forall m, job_message completedJob = Some m -> JsString.truthy m = true ->
                   chosen = m)
        /\ (JsString.truthy_opt (job_message completedJob) = false ->
            chosen = match rev with
                     | Convert.Inferred => "Unknown error"
                     | Convert.Annotated => "Unknown error from CloudConvert"
                     end)).
Proof.
  intros Hc Hst.
  destruct (performCloudConversion_after_wait w rev inputFile targetFormat tempDir
              completedJob s Hc) as [s' E].
  exists (Convert.failureDetail rev completedJob). rewrite E.
  unfold try_catch, Convert.collectResult. rewrite Hst.
  replace (String.eqb "error" "error") with true by reflexivity.
  unfold throw. cbn [fst Js.message_or Js.Error].
  split; [reflexivity|]. unfold Convert.failureDetail, Convert.taskErrorMessage.
  split.
  - intros t m Ht Hm Tm. rewrite (failedTask_in_error completedJob t Ht), Hm.
    cbn [JsString.or_else]. rewrite Tm. reflexivity.
  - intro Hno.
    assert (N : JsString.or_else
                  (match Convert.failedTask completedJob with
                   | Some t => task_message t
                   | None => None
                   end)
                  (JsString.or_else (job_message completedJob) (Convert.generic_failure rev))
                = JsString.or_else (job_message completedJob) (Convert.generic_failure rev)).
    { destruct Hno as [Hno | [t [Ht Hm]]].
      - rewrite (failedTask_none completedJob Hno). reflexivity.
      - rewrite (failedTask_in_error completedJob t Ht).
        destruct (task_message t) as [x|]; [|reflexivity].
        cbn [JsString.truthy_opt] in Hm. cbn [JsString.or_else]. rewrite Hm. reflexivity. }
    rewrite N. split.
    + intros m Hm Tm. rewrite Hm. cbn [JsString.or_else]. rewrite Tm. reflexivity.
    + intro Hnj. destruct (job_message completedJob) as [y|];
        cbn [JsString.truthy_opt JsString.or_else] in *; rewrite ?Hnj;
        destruct rev; reflexivity.
Qed.

Lemma sample_completes (keys : bool) (validURL : string -> bool)
    (choose : list Format -> ChooseOptions -> Outcome (option Format))
    (transcription : Outcome Js.Value) (completed : Job) :
  completes (Sample.world keys validURL choose transcription (Returned tt) completed
               (Returned tt))
    Sample.report "PDF" Sample.uploadDir completed.
Proof.
  exists Sample.createdJob, "job-1",
    (mkTask "import-file" (Some "task-1") "waiting" None None).
  repeat split.
Defined.

(** In the failed job of the samples the second task is the one in
    error. *)
Lemma sample_task_in_error (taskMessage jobMessage : option string) :
  task_in_error (Sample.failedJob taskMessage jobMessage)
    (mkTask "convert-file" (Some "task-2") "error" taskMessage None).
Proof.
  exists [mkTask "import-file" (Some "task-1") "finished" None None],
         [mkTask "export-file" (Some "task-3") "waiting" None None].
  split; [reflexivity|]. split; [reflexivity|].
  intros x [<-|[]]. discriminate.
Defined.

Lemma failed_job_message_precedence_witness :
  exists chosen,
    fst (Convert.performCloudConversion Scenario.encrypted Convert.Annotated
           Sample.report "PDF" initial)
    = Threw (Js.Error ("CloudConvert processing failed: CloudConvert job failed: " ++ chosen))
    /\ chosen = "Encrypted file".
Proof.
  destruct (failed_job_message_precedence Scenario.encrypted Convert.Annotated
              Sample.report "PDF" Sample.uploadDir
              (Sample.failedJob (Some "Encrypted file") (Some "job failed")) initial
              (sample_completes _ _ _ _ _) eq_refl) as [chosen [E [Task _]]].
  exists chosen. split; [exact E|].
  apply (Task (mkTask "convert-file" (Some "task-2") "error" (Some "Encrypted file") None));
    [apply sample_task_in_error | reflexivity | reflexivity].
Defined.

(** C3 (as amended).  When the job of an accepted request ends in [error]
    and its first task with status [error] carries a non-empty message, the
    orchestrator of either revision throws [CloudConvert processing failed:
    CloudConvert job failed: ] followed by that message, and the route that
    declares its tables answers with status 500, this text in the [error]
    field and [null] in the [details] field. *)
Theorem failed_task_message_is_reported_in_error_field
    (w : World) (fd : Convert.FormData) (inputFile : File)
    (targetFormat tempDir : string) (completedJob : Job) (t : Task) (m : string)
    (s : State) :
  accepted w fd inputFile targetFormat ->
  completes w inputFile targetFormat tempDir completedJob ->
  job_status completedJob = "error" ->
  task_in_error completedJob t ->
  task_message t = Some m ->
  JsString.truthy m = true ->
  (forall rev,
     fst (Convert.performCloudConversion w rev inputFile targetFormat s)
     = Threw (Js.Error ("CloudConvert processing failed: CloudConvert job failed: " ++ m)))
  /\ fst (Convert.POST w Convert.Annotated (Returned fd) s)
     = Returned
         (Http.json 500
            [("error",
              Js.Str ("CloudConvert processing failed: CloudConvert job failed: " ++ m));
             ("details", Js.Null)]).
Proof.
  intros Ha Hc Hst Ht Hm Tm.
  assert (P : forall rev,
             fst (Convert.performCloudConversion w rev inputFile targetFormat s)
             = Threw (Js.Error ("CloudConvert processing failed: CloudConvert job failed: "
                                ++ m))).
  { intro rev.
    destruct (performCloudConversion_after_wait w rev inputFile targetFormat tempDir
                completedJob s Hc) as [s' E].
    rewrite E. unfold try_catch, Convert.collectResult. rewrite Hst.
    replace (String.eqb "error" "error") with true by reflexivity.
    unfold throw, Convert.failureDetail, Convert.taskErrorMessage.
    rewrite (failedTask_in_error completedJob t Ht), Hm. cbn [JsString.or_else].
    rewrite Tm. reflexivity. }
  split; [exact P|].
  rewrite (POST_accepted w fd inputFile targetFormat s Ha), (P Convert.Annotated).
  reflexivity.
Qed.

Lemma failed_task_message_witness :
  fst (Convert.POST Scenario.encrypted Convert.Annotated (Returned Scenario.toPdf) initial)
  = Returned
      (Http.json 500
         [("error",
           Js.Str "CloudConvert processing failed: CloudConvert job failed: Encrypted file");
          ("details", Js.Null)]).
Proof.
  apply (failed_task_message_is_reported_in_error_field Scenario.encrypted
           Scenario.toPdf Sample.report "PDF" Sample.uploadDir
           (Sample.failedJob (Some "Encrypted file") (Some "job failed"))
           (mkTask "convert-file" (Some "task-2") "error" (Some "Encrypted file") None)
           "Encrypted file" initial).
  - repeat split.
  - apply sample_completes.
  - reflexivity.
  - apply sample_task_in_error.
  - reflexivity.
  - reflexivity.
Defined.

(** C3 (as stated) fails: in the scenario of the specification the [details]
    field is [null]; it does not hold the task's message. *)
Lemma failed_task_message_is_not_in_details :
  let response :=
    fst (Convert.POST Scenario.encrypted Convert.Annotated (Returned Scenario.toPdf) initial) in
  task_in_error (Sample.failedJob (Some "Encrypted file") (Some "job failed"))
    (mkTask "convert-file" (Some "task-2") "error" (Some "Encrypted file") None)
  /\ response_status response = Some 500
  /\ (exists r, response = Returned r /\ Http.details_field r = Js.Null)
  /\ ~ (exists r, response = Returned r /\ Http.details_field r = Js.Str "Encrypted file").
Proof.
  split; [apply sample_task_in_error|]. split; [reflexivity|]. split.
  - eexists. split; reflexivity.
  - intros [r [E D]]. vm_compute in E. injection E as <-. discriminate D.
Qed.

(** C8.  When the wait returns a finished job whose export task is finished
    and lists at least one file, the first file decides the result: without
    a download URL the orchestrator throws; with one, and a successful
    download, it returns the downloaded bytes under the file's declared name
    or, when there is none, under the stem of the input name followed by a
    dot and the target format. *)
Theorem converted_file_name_and_url
    (w : World) (rev : Convert.Revision) (inputFile : File)
    (targetFormat tempDir : string) (completedJob : Job) (exportTask : Task)
    (resultFile : ResultFile) (others : list ResultFile) (s : State) :
  completes w inputFile targetFormat tempDir completedJob ->
  job_status completedJob = "finished" ->
  Convert.find_task (fun t => String.eqb (task_name t) "export-file")
    (job_tasks completedJob) = Some exportTask ->
  task_status exportTask = "finished" ->
  task_result exportTask = Some (Some (resultFile :: others)) ->
  let out := fst (Convert.performCloudConversion w rev inputFile targetFormat s) in
  (JsString.truthy_opt (rf_url resultFile) = false ->
   out = Threw (Js.Error ("CloudConvert processing failed: "
                          ++ "CloudConvert export task result did not contain a URL.")))
  /\ (forall u resp bytes,
        rf_url resultFile = Some u -> JsString.truthy u = true ->
        global_fetch w u = Returned resp ->
        fetched_ok resp = true -> fetched_has_body resp = true ->
        fetched_arrayBuffer resp = Returned bytes ->
        exists name,
          out = Returned (bytes, name)
          /\ (forall declared, rf_filename resultFile = Some declared ->
                               JsString.truthy declared = true -> name = declared)
          /\ (JsString.truthy_opt (rf_filename resultFile) = false ->
              name = NodePath.parse_name (file_name inputFile) ++ "." ++ targetFormat)).
Proof.
  intros Hc Hst Hex Hfin Hres out. subst out.
  destruct (performCloudConversion_after_wait w rev inputFile targetFormat tempDir
              completedJob s Hc) as [s' E].
  rewrite E. clear E.
  unfold try_catch, Convert.collectResult, Convert.exportedFiles.
  rewrite Hst, Hex, Hfin, Hres.
  replace (String.eqb "finished" "error") with false by reflexivity.
  replace (String.eqb "finished" "finished") with true by reflexivity.
  split.
  - intro Hno. rewrite Hno. reflexivity.
  - intros u resp bytes Hu Tu Hf Hok Hb Hbuf.
    rewrite Hu. cbn [JsString.truthy_opt JsString.or_else]. rewrite Tu. cbn [negb].
    unfold call, bind, emit, lift, ret. rewrite Hf, Hok, Hb. cbn [andb negb].
    rewrite Hbuf. cbn [fst].
    eexists. split; [reflexivity|]. unfold Convert.convertedFileName. split.
    + intros d Hd Td. rewrite Hd. cbn [JsString.or_else]. rewrite Td. reflexivity.
    + intro Hn. destruct (rf_filename resultFile) as [d|]; cbn [JsString.truthy_opt] in Hn;
        cbn [JsString.or_else]; rewrite ?Hn; reflexivity.
Qed.

(** The result file has no declared name: [report.docx] to [PDF] gives
    [report.PDF]. *)
Lemma converted_file_name_witness :
  exists name,
    fst (Convert.performCloudConversion Scenario.unnamedResult Convert.Annotated
           Sample.report "PDF" initial)
    = Returned (Sample.converted, name)
    /\ name = "report.PDF".
Proof.
  destruct (converted_file_name_and_url Scenario.unnamedResult Convert.Annotated
              Sample.report "PDF" Sample.uploadDir
              (Sample.finishedJob (mkResultFile None (Some "https://cc.example/out")))
              (mkTask "export-file" (Some "task-3") "finished" None
                 (Some (Some [mkResultFile None (Some "https://cc.example/out")])))
              (mkResultFile None (Some "https://cc.example/out")) [] initial
              (sample_completes _ _ _ _ _) eq_refl eq_refl eq_refl eq_refl)
    as [_ Named].
  destruct (Named "https://cc.example/out"
              (mkFetched true true "OK" (Returned Sample.converted)) Sample.converted
              eq_refl eq_refl eq_refl eq_refl eq_refl eq_refl)
    as [name [E [_ Stem]]].
  exists name. split; [exact E | apply Stem; reflexivity].
Defined.

(** When the upload throws, [performCloudConversion] leaves through its
    [catch] clause: the temporary directory it created still exists and no
    removal was attempted. *)
Lemma upload_failure_skips_removal
    (w : World) (rev : Convert.Revision) (inputFile : File)
    (targetFormat tempDir jobId : string) (job : Job) (uploadTask : Task)
    (e : Js.Thrown) (s : State) :
  cc_jobs_create w (JsString.toLowerCase targetFormat) = Returned (Some job) ->
  job_id job = Some jobId -> JsString.truthy jobId = true ->
  Convert.find_task (fun t => String.eqb (task_name t) "import-file") (job_tasks job)
  = Some uploadTask ->
  JsString.truthy_opt (task_id uploadTask) = true ->
  fs_mkdtemp w (NodePath.join [os_tmpdir w; "cc-upload-"]) = Returned tempDir ->
  fs_writeFile w (NodePath.join [tempDir; file_name inputFile]) (file_bytes inputFile)
  = Returned tt ->
  cc_tasks_upload w uploadTask (NodePath.join [tempDir; file_name inputFile])
    (file_name inputFile) = Threw e ->
  let run := Convert.performCloudConversion w rev inputFile targetFormat s in
  (exists failure, fst run = Threw failure)
  /\ exists_dir tempDir (snd run) = true
  /\ filter is_rm (trace (snd run)) = filter is_rm (trace s).
Proof.
  intros Hc Hid Hjid Hup Htid Hmk Hw Hu run. subst run.
  unfold Convert.performCloudConversion, Convert.convertSteps, Convert.submitAndWait,
    call, mkdtemp, writeFile, rm, call.
  rewrite Hc, Hmk.
  unfold try_catch, bind, emit, lift, add_dir, ret, throw. cbn beta iota.
  rewrite Hid. cbn [JsString.truthy_opt JsString.or_else]. rewrite Hjid. cbn [negb].
  rewrite Hup, Htid. cbn [negb]. cbn beta iota.
  rewrite Hw, Hu. cbn [fst snd trace dirs].
  repeat split.
  - eexists. reflexivity.
  - unfold exists_dir, JsString.eqb_list. cbn [dirs existsb].
    rewrite String.eqb_refl. reflexivity.
  - rewrite !filter_app. simpl. rewrite !app_nil_r. reflexivity.
Qed.

(** C1, at the failing request: a conversion whose upload to the provider
    fails leaves [performCloudConversion], in either revision, while the
    [cc-upload-] directory it made still exists and without any attempt to
    remove it; the route that declares its tables answers such a request with
    500 in that very state. *)
Theorem upload_failure_leaves_temporary_directory (rev : Convert.Revision) :
  let run := Convert.performCloudConversion Scenario.uploadFails rev
               Sample.report "PDF" initial in
  let request := Convert.POST Scenario.uploadFails Convert.Annotated
                   (Returned Scenario.toPdf) initial in
  fst run = Threw (Js.Error "CloudConvert processing failed: socket hang up")
  /\ In (EvMkdtemp Sample.uploadDir) (trace (snd run))
  /\ exists_dir Sample.uploadDir (snd run) = true
  /\ filter is_rm (trace (snd run)) = []
  /\ response_status (fst request) = Some 500
  /\ snd request = snd run.
Proof.
  destruct rev; vm_compute; repeat split; right; left; reflexivity.
Qed.

(** ** The transcription route: acquisition and transcript *)

Lemma filter_map_app {A B} (f : A -> option B) (l1 l2 : list A) :
  filter_map f (l1 ++ l2)%list = (filter_map f l1 ++ filter_map f l2)%list.
Proof.
  induction l1 as [|a l1 IH]; [reflexivity|].
  simpl. destruct (f a); simpl; rewrite IH; reflexivity.
Qed.

Lemma lacks_url_with_url (answer : option Format) :
  lacks_url answer -> Transcribe.with_url answer = None.
Proof.
  intro H. destruct answer as [f|]; [|reflexivity].
  unfold Transcribe.with_url. rewrite (H f eq_refl). reflexivity.
Qed.

(** Once a format is selected, exactly that format is downloaded. *)
Lemma download_of_selected (w : World) (url outputDir : string) (info : VideoInfo)
    (f : Format) (s : State) :
  ytdl_validateURL w url = true ->
  ytdl_getInfo w url = Returned info ->
  (forall s0, Transcribe.selectFormat w (info_formats info) s0 = (Returned f, s0)) ->
  downloads (snd (Transcribe.downloadYouTubeVideoAndExtractAudio w url outputDir s))
  = (downloads s ++ [f])%list.
Proof.
  intros Hv Hi Hsel.
  unfold Transcribe.downloadYouTubeVideoAndExtractAudio. rewrite Hv. cbn [negb].
  unfold call at 1. unfold bind at 1. unfold bind at 1. cbn [emit].
  unfold lift at 1. rewrite Hi.
  unfold bind at 1. rewrite Hsel.
  unfold uniqueSuffix at 1. unfold bind at 1. unfold bind at 1. cbn [tick ret].
  set (p := NodePath.join _).
  set (s1 := mkState _ _ _).
  unfold bind at 1. unfold call at 1. unfold bind at 1. cbn [emit]. unfold lift at 1.
  set (s2 := mkState _ _ _).
  assert (D2 : downloads s2 = (downloads s ++ [f])%list).
  { unfold downloads. subst s2 s1. cbn [trace]. rewrite !filter_map_app. simpl.
    rewrite app_nil_r. reflexivity. }
  destruct (ytdl_pipe w url f p); [|exact D2|exact D2].
  pose proof (extractAudio_quiet w (fun e => negb (is_network e)) p outputDir
                (fun _ _ => eq_refl) s2) as [_ [evs [T F]]].
  unfold bind.
  destruct (Transcribe.extractAudio w p outputDir s2) as [[a|e] s3]; cbn [snd ret] in *.
  all: unfold downloads in *; rewrite T, filter_map_app, D2.
  all: assert (N : filter_map downloaded_format evs = []) by
      (clear - F; induction evs as [|x evs IH]; [reflexivity|];
       simpl in *; apply andb_true_iff in F as [Fx Fr];
       destruct x; simpl in *; try discriminate; apply IH, Fr).
  all: rewrite N, app_nil_r; reflexivity.
Qed.

(** What the route does with the answers of [ytdl.chooseFormat], whatever
    they are: the answer for [highestaudio / audioonly] is downloaded when it
    carries a URL; were the library to return nothing, or a format without a
    URL, the answer for [highest] among the formats with an audio track would
    be downloaded instead; were that one missing too, the acquisition would
    throw and download nothing. *)
Lemma format_selection_prefers_audio_only
    (w : World) (url outputDir : string) (info : VideoInfo) (s : State) :
  ytdl_validateURL w url = true ->
  ytdl_getInfo w url = Returned info ->
  let run := Transcribe.downloadYouTubeVideoAndExtractAudio w url outputDir s in
  let audioOnly := ytdl_chooseFormat w (info_formats info) HighestAudio_AudioOnly in
  let withAudio := ytdl_chooseFormat w (info_formats info) Highest_HasAudio in
  (forall f, audioOnly = Returned (Some f) ->
             JsString.truthy_opt (fmt_url f) = true ->
             downloads (snd run) = (downloads s ++ [f])%list)
  /\ (forall none g, audioOnly = Returned none -> lacks_url none ->
                     withAudio = Returned (Some g) ->
                     JsString.truthy_opt (fmt_url g) = true ->
                     downloads (snd run) = (downloads s ++ [g])%list)
  /\ (forall none none', audioOnly = Returned none -> lacks_url none ->
                         withAudio = Returned none' -> lacks_url none' ->
                         fst run = Threw (Js.Error Transcribe.no_suitable_format)
                         /\ downloads (snd run) = downloads s).
Proof.
  intros Hv Hi run audioOnly withAudio. subst run audioOnly withAudio.
  split; [|split].
  - intros f Ha Hu. apply (download_of_selected w url outputDir info f s Hv Hi).
    intro s0. unfold Transcribe.selectFormat, bind, lift. rewrite Ha.
    unfold Transcribe.with_url. rewrite Hu. reflexivity.
  - intros none g Ha Hn Hb Hu. apply (download_of_selected w url outputDir info g s Hv Hi).
    intro s0. unfold Transcribe.selectFormat, bind, lift. rewrite Ha.
    rewrite (lacks_url_with_url none Hn), Hb.
    unfold Transcribe.with_url. rewrite Hu. reflexivity.
  - intros none none' Ha Hn Hb Hn'.
    unfold Transcribe.downloadYouTubeVideoAndExtractAudio. rewrite Hv. cbn [negb].
    unfold call, Transcribe.selectFormat, bind, emit, lift. rewrite Hi, Ha, Hb.
    rewrite (lacks_url_with_url none Hn), (lacks_url_with_url none' Hn').
    split; [reflexivity|].
    unfold downloads. cbn [throw snd trace]. rewrite filter_map_app. simpl.
    rewrite app_nil_r. reflexivity.
Qed.

(** The sample video offers a muxed format and an audio-only one: the
    audio-only one is fetched. *)
Lemma format_selection_witness :
  downloads (snd (Transcribe.downloadYouTubeVideoAndExtractAudio Sample.happy
                    Scenario.watchUrl Sample.sessionDir initial))
  = [Sample.audioOnly].
Proof.
  destruct (format_selection_prefers_audio_only Sample.happy Scenario.watchUrl
              Sample.sessionDir (mkVideoInfo "A talk: part 1/2" [Sample.muxed; Sample.audioOnly])
              initial eq_refl eq_refl) as [First _].
  apply (First Sample.audioOnly); reflexivity.
Defined.

(** On a value that can be read ([null] and [undefined] cannot), the code
    and the wording of the specification pick the same transcript. *)
Lemma extractText_refines_spec (response : Js.Value) :
  Js.is_nullish response = false ->
  match Transcribe.extractText response with
  | Returned text => normalizeSpec response = Returned text
  | Threw e =>
      e = Js.Error
            "Could not extract text from Whisper API response: 'text' field missing, not a string, or structure unexpected."
      /\ normalizeSpec response
         = Threw (Js.Error
                    "Whisper API transcription failed: Could not extract text from Whisper API response: 'text' field missing, not a string, or structure unexpected.")
  end.
Proof.
  intro Hn. unfold Transcribe.extractText, normalizeSpec. rewrite Hn.
  destruct response as [| |b|n|t|items|props]; try discriminate Hn;
    try (cbn; split; reflexivity).
  cbn [Js.get Js.is_object Js.has_prop].
  destruct (Js.assoc "text" props) as [[| |b|n|t|items|props']|];
    cbn [Js.as_string Js.is_string andb]; try reflexivity.
  all: destruct (Js.assoc "data" props) as [[| |b'|n'|t'|items'|dprops]|];
    cbn [Js.as_string Js.is_string Js.is_object Js.has_prop Js.get andb];
    try (split; reflexivity).
  all: destruct (Js.assoc "text" dprops) as [[| |b''|n''|t''|items''|props'']|];
    cbn [Js.as_string Js.is_string andb]; try reflexivity; split; reflexivity.
Qed.

(** C6 (as amended).  Whenever the provider answers a transcription request
    with a value other than [null] and [undefined], the transcript is the one
    the normalization order of the specification yields: the [text] string;
    else a top-level [text] string; else the [text] string under [data]; else
    the call fails, and the message says that no text could be extracted from
    the shape received. *)
Theorem transcript_normalization_order
    (w : World) (audioPath : string) (response : Js.Value) (s : State) :
  OPENAI_API_KEY w = true ->
  fs_access w audioPath = Returned tt ->
  openai_transcriptions_create w audioPath = Returned response ->
  Js.is_nullish response = false ->
  fst (Transcribe.transcribeWithWhisper w audioPath s) = normalizeSpec response.
Proof.
  intros Hk Ha Hr Hn.
  unfold Transcribe.transcribeWithWhisper. rewrite Hk. cbn [negb].
  unfold try_catch, call, bind, emit, lift. rewrite Ha, Hr.
  pose proof (extractText_refines_spec response Hn) as R.
  destruct (Transcribe.extractText response) as [text|e]; cbn [fst].
  - symmetry. exact R.
  - destruct R as [-> R]. rewrite R. reflexivity.
Qed.

(** A transcript that arrives under [data.text] is returned. *)
Lemma transcript_normalization_witness :
  fst (Transcribe.transcribeWithWhisper Scenario.nestedTranscript "/tmp/a.mp3" initial)
  = Returned "nested words".
Proof.
  apply (transcript_normalization_order Scenario.nestedTranscript "/tmp/a.mp3"
           (Js.Obj [("data", Js.Obj [("text", Js.Str "nested words")])]) initial);
    reflexivity.
Defined.

(** C6 (as stated) fails: when the provider answers [null], reading its
    [text] throws before any shape is probed, and the failure carries the
    message of that [TypeError], not the one about the unrecognized shape. *)
Lemma null_response_is_not_normalized :
  openai_transcriptions_create Scenario.nullTranscript "/tmp/a.mp3" = Returned Js.Null
  /\ fst (Transcribe.transcribeWithWhisper Scenario.nullTranscript "/tmp/a.mp3" initial)
     = Threw (Js.Error
                "Whisper API transcription failed: Cannot read properties of null (reading 'text')")
  /\ fst (Transcribe.transcribeWithWhisper Scenario.nullTranscript "/tmp/a.mp3" initial)
     <> normalizeSpec Js.Null.
Proof.
  split; [reflexivity|]. split; [reflexivity|]. vm_compute. discriminate.
Qed.

(** A collaborator that is the library's [chooseFormat] answers like it. *)
Lemma chooseFormat_answers_like_ytdl (w : World) :
  (forall formats options,
     ytdl_chooseFormat w formats options = Ytdl.chooseFormat formats options) ->
  answers_like_ytdl w.
Proof.
  intros H formats options. rewrite H. unfold Ytdl.chooseFormat.
  destruct (filter (Ytdl.passes options) formats) as [|best rest].
  - split; reflexivity.
  - left. reflexivity.
Defined.

(** C5, the defect in general form.  With ytdl-core's [chooseFormat], a
    video that has no audio-only format with a URL makes the acquisition fail
    with the library's [No such format found: highestaudio], and nothing is
    downloaded, whatever other formats the video has: the fallback to a format
    with an audio track is never taken. *)
Theorem missing_audio_only_format_is_not_replaced
    (w : World) (url outputDir : string) (info : VideoInfo) (s : State) :
  answers_like_ytdl w ->
  ytdl_validateURL w url = true ->
  ytdl_getInfo w url = Returned info ->
  filter (Ytdl.passes HighestAudio_AudioOnly) (info_formats info) = [] ->
  let run := Transcribe.downloadYouTubeVideoAndExtractAudio w url outputDir s in
  fst run = Threw (Js.Error "No such format found: highestaudio")
  /\ downloads (snd run) = downloads s.
Proof.
  intros Hy Hv Hi Hnone run. subst run.
  specialize (Hy (info_formats info) HighestAudio_AudioOnly). rewrite Hnone in Hy.
  unfold Transcribe.downloadYouTubeVideoAndExtractAudio. rewrite Hv. cbn [negb].
  unfold call, Transcribe.selectFormat, bind, emit, lift. rewrite Hi.
  destruct (ytdl_chooseFormat w (info_formats info) HighestAudio_AudioOnly)
    as [[f|]|e]; [destruct Hy | destruct Hy |].
  destruct Hy as [_ ->]. split; [reflexivity|].
  unfold downloads. cbn [snd trace]. rewrite filter_map_app. simpl.
  rewrite app_nil_r. reflexivity.
Qed.

(** The failing request: the video offers one format, with picture, sound
    and a URL; the claim has it downloaded, the route fails. *)
Lemma missing_audio_only_format_witness :
  Ytdl.passes Highest_HasAudio Sample.muxed = true
  /\ ytdl_getInfo Scenario.muxedOnly Scenario.watchUrl
     = Returned (mkVideoInfo "A talk: part 1/2" [Sample.muxed])
  /\ fst (Transcribe.downloadYouTubeVideoAndExtractAudio Scenario.muxedOnly
            Scenario.watchUrl Sample.sessionDir initial)
     = Threw (Js.Error "No such format found: highestaudio")
  /\ downloads (snd (Transcribe.downloadYouTubeVideoAndExtractAudio Scenario.muxedOnly
                       Scenario.watchUrl Sample.sessionDir initial))
     = [].
Proof.
  split; [reflexivity|]. split; [reflexivity|].
  apply (missing_audio_only_format_is_not_replaced Scenario.muxedOnly Scenario.watchUrl
           Sample.sessionDir (mkVideoInfo "A talk: part 1/2" [Sample.muxed]) initial).
  - apply chooseFormat_answers_like_ytdl. reflexivity.
  - reflexivity.
  - reflexivity.
  - reflexivity.
Defined.

(** ** Direct upload *)

(** C9, at the failing request: an upload named [../evil.mp4] is written to
    [/tmp/evil.mp4], a path that is not inside the session directory of the
    request. *)
Theorem upload_name_escapes_session_directory :
  let run := Transcribe.POST Sample.happy (Returned Scenario.traversal) initial in
  In (EvMkdtemp Sample.sessionDir) (trace (snd run))
  /\ filter_map written_path (trace (snd run)) = ["/tmp/evil.mp4"]
  /\ NodePath.inside Sample.sessionDir "/tmp/evil.mp4" = false.
Proof.
  vm_compute. repeat split. left. reflexivity.
Qed.

Lemma substring_keeps_absence (c : ascii) (s : string) (n : nat) :
  JsString.last_index_of c s = None ->
  JsString.last_index_of c (String.substring 0 n s) = None.
Proof.
  revert n. induction s as [|d r IH]; intros n H.
  - destruct n; reflexivity.
  - simpl in H. destruct (JsString.last_index_of c r) eqn:Er; [discriminate|].
    destruct (Ascii.eqb d c) eqn:Ed; [discriminate|].
    destruct n; [reflexivity|]. simpl. rewrite (IH n eq_refl), Ed. reflexivity.
Qed.

(** The remote-fetch path does strip the separators from the name it
    generates: a sanitized title contains no slash. *)
Lemma sanitizeTitle_strips_slash (title : string) :
  JsString.last_index_of "/"%char (Transcribe.sanitizeTitle title) = None.
Proof.
  unfold Transcribe.sanitizeTitle. apply substring_keeps_absence.
  induction title as [|c r IH]; [reflexivity|].
  simpl. destruct (Transcribe.unsafe_title_char c) eqn:U; simpl; [exact IH|].
  rewrite IH. destruct (Ascii.eqb c "/") eqn:E; [|reflexivity].
  apply Ascii.eqb_eq in E. subst c. discriminate U.
Qed.

(** ** Further runs *)

(** An upload on a working server: transcript, no title, the original name. *)
Example upload_is_transcribed :
  fst (Transcribe.POST Sample.happy (Returned Scenario.uploadClip) initial)
  = Returned (Http.json 200 [("transcription", Js.Str "hello world");
                             ("videoTitle", Js.Undefined);
                             ("originalFileName", Js.Str "clip.mp4")]).
Proof. reflexivity. Qed.

(** Were the audio-only answer to lack its URL, the muxed format would be
    fetched. *)
Example muxed_format_is_the_fallback :
  downloads (snd (Transcribe.downloadYouTubeVideoAndExtractAudio Scenario.audioWithoutUrl
                    Scenario.watchUrl Sample.sessionDir initial))
  = [Sample.muxed].
Proof. reflexivity. Qed.

(** A failing removal is swallowed: the response stands, the directory
    stays. *)
Example failed_removal_keeps_the_response :
  let run := Transcribe.POST Scenario.removalFails (Returned Scenario.uploadClip) initial in
  response_status (fst run) = Some 200
  /\ filter is_rm (trace (snd run)) = [EvRm Sample.sessionDir]
  /\ exists_dir Sample.sessionDir (snd run) = true.
Proof. repeat split. Qed.

(** An exception of [ytdl.chooseFormat] leaves the acquisition as it is,
    before anything is downloaded. *)
Lemma chooseFormat_failure_propagates
    (w : World) (url outputDir : string) (info : VideoInfo) (e : Js.Thrown) (s : State) :
  ytdl_validateURL w url = true ->
  ytdl_getInfo w url = Returned info ->
  ytdl_chooseFormat w (info_formats info) HighestAudio_AudioOnly = Threw e ->
  let run := Transcribe.downloadYouTubeVideoAndExtractAudio w url outputDir s in
  fst run = Threw e /\ downloads (snd run) = downloads s.
Proof.
  intros Hv Hi Hc run. subst run.
  unfold Transcribe.downloadYouTubeVideoAndExtractAudio. rewrite Hv. cbn [negb].
  unfold call, Transcribe.selectFormat, bind, emit, lift. rewrite Hi, Hc.
  split; [reflexivity|].
  unfold downloads. cbn [snd trace]. rewrite filter_map_app. simpl.
  rewrite app_nil_r. reflexivity.
Qed.

(** Whatever the session directory, the upload is written where
    [path.join] puts its name; nothing confines it to the directory. *)
Lemma upload_is_written_at_joined_path
    (w : World) (fd : Transcribe.FormData) (file : File) (dir : string) (s : State) :
  Transcribe.operationType fd = Some "file" ->
  Transcribe.video fd = Some file ->
  exists r s',
    Transcribe.handle w (Returned fd) dir s = (r, s')
    /\ exists later,
         trace s' = (trace s ++ EvWriteFile (NodePath.join [dir; file_name file]) :: later)%list.
Proof.
  intros Hop Hv. unfold Transcribe.handle, bind at 1, lift at 1.
  rewrite Hop, Hv. cbn [JsString.is_string].
  replace (String.eqb "file" "file") with true by reflexivity.
  set (p := NodePath.join _).
  unfold writeFile, call. unfold bind at 1. unfold bind at 1. cbn [emit].
  set (s1 := mkState _ _ _). unfold lift at 1.
  destruct (fs_writeFile w p (file_bytes file)) as [[]|e].
  - pose proof (extractAudio_quiet w (fun _ => true) p dir (fun _ _ => eq_refl) s1)
      as [_ [ev1 [T1 _]]].
    unfold bind at 1.
    destruct (Transcribe.extractAudio w p dir s1) as [[a|e] s2]; cbn [snd] in T1.
    + assert (Q : quiet (fun _ => true)
                    (Transcribe.transcribeAndRespond w a None (Some (file_name file)))).
      { unfold Transcribe.transcribeAndRespond.
        destruct (negb (JsString.truthy a)); [apply quiet_throw|].
        apply quiet_bind; [apply transcribeWithWhisper_quiet; reflexivity|].
        intro. apply quiet_ret. }
      destruct (Q s2) as [_ [ev2 [T2 _]]].
      destruct (Transcribe.transcribeAndRespond w a None (Some (file_name file)) s2)
        as [r s3] eqn:E3; cbn [snd] in T2.
      exists r, s3. split; [reflexivity|]. exists (ev1 ++ ev2)%list.
      rewrite T2, T1. subst s1. cbn [trace]. rewrite <- !app_assoc. reflexivity.
    + eexists _, s2. split; [reflexivity|]. exists ev1.
      rewrite T1. subst s1. cbn [trace]. rewrite <- !app_assoc. reflexivity.
  - eexists _, s1. split; [reflexivity|]. exists []. reflexivity.
Qed.

(** ** Case analysis on runs *)

(** Case analysis on every answer a run depends on. *)
Ltac split_run :=
  repeat (cbv beta iota zeta;
          match goal with
          | |- context [match ?x with _ => _ end] =>
              lazymatch x with
              | context [match _ with _ => _ end] => fail
              | _ => destruct x eqn:?
              end
          end).

(** Unfolds a run of the conversion route down to the answers of the
    collaborators. *)
Ltac unfold_conversion :=
  unfold Convert.POST, Convert.handle, Convert.performCloudConversion,
    Convert.convertSteps, Convert.submitAndWait, Convert.collectResult,
    mkdtemp, writeFile, rm, call, try_catch, bind, emit, lift, add_dir,
    remove_dir, ret, throw.

(** Unfolds the [try] block of the transcription route down to the answers
    of the collaborators. *)
Ltac unfold_handle :=
  unfold Transcribe.handle,
    Transcribe.transcribeAndRespond, Transcribe.downloadYouTubeVideoAndExtractAudio,
    Transcribe.selectFormat, Transcribe.transcribeWithWhisper, Transcribe.extractAudio,
    uniqueSuffix, writeFile, call, try_catch, bind, emit, lift, tick, ret, throw.


(** ** Paths below a directory *)

Lemma append_nil_r (s : string) : s ++ EmptyString = s.
Proof. induction s as [|c r IH]; [reflexivity|]. simpl. rewrite IH. reflexivity. Qed.

Lemma append_assoc (a b c : string) : (a ++ b) ++ c = a ++ (b ++ c).
Proof. induction a as [|x r IH]; [reflexivity|]. simpl. rewrite IH. reflexivity. Qed.

Lemma prefix_append (a b : string) : String.prefix a (a ++ b) = true.
Proof.
  induction a as [|x r IH]; [destruct b; reflexivity|].
  simpl. destruct (ascii_dec x x) as [_|N]; [exact IH | contradiction].
Qed.

Lemma no_sep_append (c : ascii) (a b : string) :
  JsString.last_index_of c (a ++ b) = None <->
  JsString.last_index_of c a = None /\ JsString.last_index_of c b = None.
Proof.
  induction a as [|x r IH]; simpl.
  - tauto.
  - destruct (JsString.last_index_of c (r ++ b)), (JsString.last_index_of c r),
      (JsString.last_index_of c b), (Ascii.eqb x c);
      intuition discriminate.
Qed.

Lemma split_at_no_sep (c : ascii) (a : string) :
  JsString.last_index_of c a = None -> JsString.split_at c a = [a].
Proof.
  induction a as [|x r IH]; intro H; [reflexivity|].
  simpl in *. destruct (JsString.last_index_of c r); [discriminate|].
  destruct (Ascii.eqb x c); [discriminate|]. rewrite (IH eq_refl). reflexivity.
Qed.

Lemma split_at_cons (c : ascii) (a b : string) :
  JsString.last_index_of c a = None ->
  JsString.split_at c (a ++ String c b) = a :: JsString.split_at c b.
Proof.
  induction a as [|x r IH]; intro H.
  - simpl. rewrite Ascii.eqb_refl. reflexivity.
  - simpl in *. destruct (JsString.last_index_of c r); [discriminate|].
    destruct (Ascii.eqb x c); [discriminate|]. rewrite (IH eq_refl). reflexivity.
Qed.

Lemma plain_segment_no_sep (seg : string) :
  plain_segment seg = true -> JsString.last_index_of NodePath.slash seg = None.
Proof.
  unfold plain_segment. destruct (JsString.last_index_of NodePath.slash seg);
    [discriminate | reflexivity].
Qed.

Lemma split_at_join (segs : list string) :
  segs <> [] -> forallb plain_segment segs = true ->
  JsString.split_at NodePath.slash (JsString.join_with "/" segs) = segs.
Proof.
  induction segs as [|a rest IH]; intros Hne Hp; [contradiction|].
  simpl in Hp. apply andb_true_iff in Hp as [Ha Hr].
  destruct rest as [|b rest'].
  - simpl. apply split_at_no_sep, plain_segment_no_sep, Ha.
  - change (JsString.join_with "/" (a :: b :: rest'))
      with (a ++ String NodePath.slash (JsString.join_with "/" (b :: rest'))).
    rewrite split_at_cons by (apply plain_segment_no_sep, Ha).
    rewrite IH; [reflexivity | discriminate | exact Hr].
Qed.

Lemma push_plain (above : bool) (stack : list string) (seg : string) :
  plain_segment seg = true -> NodePath.push_segment above stack seg = seg :: stack.
Proof.
  unfold plain_segment, NodePath.push_segment, JsString.eqb_list. intro H.
  destruct (JsString.last_index_of NodePath.slash seg); [discriminate|].
  simpl in H. destruct (String.eqb seg EmptyString); [discriminate|].
  destruct (String.eqb seg "."); [discriminate|].
  destruct (String.eqb seg ".."); [discriminate|]. reflexivity.
Qed.

Lemma fold_push_plain (above : bool) (segs stack : list string) :
  forallb plain_segment segs = true ->
  fold_left (NodePath.push_segment above) segs stack = (rev segs ++ stack)%list.
Proof.
  revert stack. induction segs as [|a rest IH]; intros stack Hp; [reflexivity|].
  simpl in Hp. apply andb_true_iff in Hp as [Ha Hr].
  simpl. rewrite (push_plain above stack a Ha), (IH _ Hr), <- app_assoc. reflexivity.
Qed.

Lemma join_with_last (segs : list string) (name : string) :
  segs <> [] ->
  JsString.join_with "/" (segs ++ [name]) = JsString.join_with "/" segs ++ "/" ++ name.
Proof.
  induction segs as [|a rest IH]; intro Hne; [contradiction|].
  destruct rest as [|b rest']; [reflexivity|].
  change (JsString.join_with "/" ((a :: b :: rest') ++ [name]))
    with (a ++ "/" ++ JsString.join_with "/" ((b :: rest') ++ [name])).
  rewrite IH by discriminate.
  change (JsString.join_with "/" (a :: b :: rest'))
    with (a ++ "/" ++ JsString.join_with "/" (b :: rest')).
  rewrite !append_assoc. reflexivity.
Qed.

Lemma truthy_append_r (a b : string) :
  JsString.truthy b = true -> JsString.truthy (a ++ b) = true.
Proof. destruct a; [simpl; tauto | reflexivity]. Qed.

Lemma plain_truthy (seg : string) : plain_segment seg = true -> JsString.truthy seg = true.
Proof.
  destruct seg; [|reflexivity]. unfold plain_segment. simpl. discriminate.
Qed.

Lemma ends_with_slash_append (a b : string) :
  JsString.truthy b = true ->
  NodePath.ends_with_slash (a ++ b) = NodePath.ends_with_slash b.
Proof.
  intro Hb. induction a as [|x r IH]; [reflexivity|].
  simpl. rewrite IH. destruct (r ++ b) eqn:E; [|reflexivity].
  destruct r; [|discriminate]. simpl in E. subst b. discriminate.
Qed.

Lemma no_slash_no_trailing (s : string) :
  JsString.last_index_of NodePath.slash s = None -> NodePath.ends_with_slash s = false.
Proof.
  induction s as [|x r IH]; intro H; [reflexivity|].
  simpl in H. destruct (JsString.last_index_of NodePath.slash r) eqn:E; [discriminate|].
  destruct (Ascii.eqb x NodePath.slash) eqn:Ex; [discriminate|].
  simpl. destruct r; [exact Ex | apply IH; reflexivity].
Qed.

Lemma join_with_no_trailing (segs : list string) :
  segs <> [] -> forallb plain_segment segs = true ->
  NodePath.ends_with_slash (JsString.join_with "/" segs) = false.
Proof.
  induction segs as [|a rest IH]; intros Hne Hp; [contradiction|].
  simpl in Hp. apply andb_true_iff in Hp as [Ha Hr].
  destruct rest as [|b rest'].
  - apply no_slash_no_trailing, plain_segment_no_sep, Ha.
  - change (JsString.join_with "/" (a :: b :: rest'))
      with (a ++ String NodePath.slash (JsString.join_with "/" (b :: rest'))).
    rewrite ends_with_slash_append by reflexivity.
    assert (T : JsString.truthy (JsString.join_with "/" (b :: rest')) = true).
    { simpl in Hr. apply andb_true_iff in Hr as [Hb _].
      destruct rest'; [apply plain_truthy, Hb|].
      change (JsString.join_with "/" (b :: s :: rest'))
        with (b ++ "/" ++ JsString.join_with "/" (s :: rest')).
      apply truthy_append_r. reflexivity. }
    change (String NodePath.slash (JsString.join_with "/" (b :: rest')))
      with ("/" ++ JsString.join_with "/" (b :: rest')).
    rewrite ends_with_slash_append by exact T.
    apply IH; [discriminate | exact Hr].
Qed.

Lemma join_with_truthy (segs : list string) :
  segs <> [] -> forallb plain_segment segs = true ->
  JsString.truthy (JsString.join_with "/" segs) = true.
Proof.
  intros Hne Hp. destruct segs as [|a rest]; [contradiction|].
  simpl in Hp. apply andb_true_iff in Hp as [Ha _].
  pose proof (plain_truthy a Ha) as Ta.
  destruct rest; [exact Ta|].
  change (JsString.join_with "/" (a :: s :: rest))
    with (a ++ "/" ++ JsString.join_with "/" (s :: rest)).
  destruct a; [discriminate | reflexivity].
Qed.

(** A directory written from plain segments is its own normal form. *)
Lemma normalize_directory (segs : list string) :
  segs <> [] -> forallb plain_segment segs = true ->
  NodePath.normalize (directory segs) = directory segs.
Proof.
  intros Hne Hp.
  assert (Sp : JsString.split_at NodePath.slash (directory segs) = EmptyString :: segs).
  { unfold directory.
    change ("/" ++ JsString.join_with "/" segs)
      with (EmptyString ++ String NodePath.slash (JsString.join_with "/" segs)).
    rewrite split_at_cons by reflexivity. rewrite (split_at_join _ Hne Hp). reflexivity. }
  assert (Tr : NodePath.ends_with_slash (directory segs) = false).
  { unfold directory. rewrite ends_with_slash_append by (apply join_with_truthy; assumption).
    apply join_with_no_trailing; assumption. }
  unfold NodePath.normalize. rewrite Sp, Tr.
  unfold NodePath.normalize_segments. cbn [fold_left].
  replace (NodePath.push_segment (negb (NodePath.is_absolute (directory segs))) []
             EmptyString) with (@nil string) by reflexivity.
  rewrite (fold_push_plain _ _ [] Hp), app_nil_r, rev_involutive.
  rewrite (join_with_truthy segs Hne Hp).
  replace (JsString.truthy (directory segs)) with true by reflexivity.
  replace (NodePath.is_absolute (directory segs)) with true by reflexivity.
  rewrite append_nil_r. reflexivity.
Qed.

(** [path.join(dir, name)] is [dir/name] when [dir] is a normalized absolute
    directory and [name] a plain segment. *)
Lemma join_plain (segs : list string) (name : string) :
  segs <> [] -> forallb plain_segment segs = true -> plain_segment name = true ->
  NodePath.join [directory segs; name] = directory segs ++ "/" ++ name.
Proof.
  intros Hne Hp Hn.
  assert (Hp' : forallb plain_segment (segs ++ [name]) = true).
  { rewrite forallb_app, Hp. simpl. rewrite Hn. reflexivity. }
  assert (Hne' : (segs ++ [name])%list <> []) by (destruct segs; discriminate).
  assert (E : directory segs ++ "/" ++ name = directory (segs ++ [name])).
  { unfold directory. rewrite (join_with_last segs name Hne). reflexivity. }
  unfold NodePath.join. cbn [filter].
  replace (JsString.truthy (directory segs)) with true by reflexivity.
  rewrite (plain_truthy name Hn). cbn [JsString.join_with].
  rewrite E. apply normalize_directory; assumption.
Qed.

Lemma inside_plain (dir name : string) :
  NodePath.inside dir (dir ++ "/" ++ name) = true.
Proof.
  unfold NodePath.inside. rewrite <- append_assoc. apply prefix_append.
Qed.

(** ** The conversion route: further properties *)

(** Everything a conversion can do, from one case analysis on the answers
    of its collaborators. *)
Lemma performCloudConversion_shape
    (w : World) (rev : Convert.Revision) (inputFile : File) (targetFormat : string)
    (s : State) :
  let '(out, s') := Convert.performCloudConversion w rev inputFile targetFormat s in
  exists rest,
    trace s' = (trace s ++ EvJobCreate (JsString.toLowerCase targetFormat) :: rest)%list
    /\ (exists n, map step_of rest = firstn n (tl orchestration))
    /\ (forall result, out = Returned result -> map step_of rest = tl orchestration)
    /\ (filter_map made_directory rest = []
        \/ exists job,
             cc_jobs_create w (JsString.toLowerCase targetFormat) = Returned (Some job)
             /\ uploadable job = true).
Proof.
  unfold_conversion. unfold uploadable. split_run.
  all: cbn [trace].
  all: eexists; (split; [rewrite <- ?app_assoc; reflexivity|]).
  all: split;
    [ cbn [map step_of app orchestration tl];
      first [ exists 6; reflexivity | exists 5; reflexivity | exists 4; reflexivity
            | exists 3; reflexivity | exists 2; reflexivity | exists 1; reflexivity
            | exists 0; reflexivity ] |].
  all: split; [intros result E; try discriminate E; reflexivity|].
  all: first [ left; reflexivity
             | right; eexists; split; [reflexivity|];
               repeat match goal with
                      | H : negb _ = false |- _ => apply negb_false_iff in H
                      end;
               repeat match goal with
                      | H : _ = _ |- _ => rewrite H
                      end; reflexivity ].
Qed.

(** The collaborators of [performCloudConversion] are awaited in one fixed
    order, and a run stops at the first failure: what a run did is a prefix of
    the orchestration, and the whole of it when the conversion returns. *)
Theorem conversion_follows_the_orchestration
    (w : World) (rev : Convert.Revision) (inputFile : File) (targetFormat : string)
    (s : State) :
  let run := Convert.performCloudConversion w rev inputFile targetFormat s in
  exists evs,
    trace (snd run) = (trace s ++ evs)%list
    /\ (exists n, map step_of evs = firstn n orchestration)
    /\ (forall result, fst run = Returned result -> map step_of evs = orchestration).
Proof.
  intro run. subst run.
  pose proof (performCloudConversion_shape w rev inputFile targetFormat s) as C.
  destruct (Convert.performCloudConversion w rev inputFile targetFormat s) as [out s'].
  destruct C as [rest [T [[n Hn] [Hall _]]]]. cbn [fst snd].
  exists (EvJobCreate (JsString.toLowerCase targetFormat) :: rest). split; [exact T|].
  split.
  - exists (S n). cbn [map step_of]. rewrite Hn. reflexivity.
  - intros result E. cbn [map step_of]. rewrite (Hall result E). reflexivity.
Qed.


(** The conversion route never lets an exception escape: every request is
    answered, with status 200, 400 or 500. *)
Theorem conversion_POST_always_answers
    (w : World) (rev : Convert.Revision) (formData : Outcome Convert.FormData)
    (s : State) :
  exists r, fst (Convert.POST w rev formData s) = Returned r
            /\ (Http.status r = 200 \/ Http.status r = 400 \/ Http.status r = 500).
Proof.
  unfold Convert.POST, Convert.handle, try_catch, bind, lift, ret.
  destruct (negb (CLOUDCONVERT_API_KEY w)); [eexists; split; [reflexivity|auto]|].
  destruct formData as [fd|e]; [|eexists; split; [reflexivity|auto]].
  destruct (Convert.document fd) as [doc|]; [|eexists; split; [reflexivity|auto]].
  destruct (negb (JsString.truthy_opt (Convert.inputFileName fd)));
    [eexists; split; [reflexivity|auto]|].
  destruct (Convert.unsupportedTarget rev (Convert.targetFormat fd) s) as [[[|]|e] s0];
    [eexists; split; [reflexivity|auto] | | eexists; split; [reflexivity|auto]].
  destruct (Convert.performCloudConversion w rev doc _ s0) as [[c|e] s1];
    [|eexists; split; [reflexivity|auto]].
  destruct (Convert.moduleConstant rev "EXT_TO_MIMETYPE" Convert.EXT_TO_MIMETYPE s1)
    as [[table|e] s2]; [|eexists; split; [reflexivity|auto]].
  destruct (headers_set w "Content-Type" _) as [[]|e];
    [|eexists; split; [reflexivity|auto]].
  destruct (headers_set w "Content-Disposition" _) as [[]|e];
    eexists; (split; [reflexivity|auto]).
Qed.

(** [route.ts] reads a list of formats that it does not declare.  On a
    configured server, every request that carries the document, its name and
    a non-empty target format is answered with 500 and the message of the
    [ReferenceError], whatever the format; nothing else happens, so that
    revision of the route never converts a document. *)
Theorem undeclared_list_fails_every_conversion
    (w : World) (fd : Convert.FormData) (file : File) (name target : string) (s : State) :
  CLOUDCONVERT_API_KEY w = true ->
  Convert.document fd = Some file ->
  Convert.inputFileName fd = Some name -> JsString.truthy name = true ->
  Convert.targetFormat fd = Some target -> JsString.truthy target = true ->
  Convert.POST w Convert.Inferred (Returned fd) s
  = (Returned
       (Http.json 500
          [("error", Js.Str "SUPPORTED_DOC_OUTPUT_FORMATS_API is not defined");
           ("details", Js.Null)]), s).
Proof.
  intros Hk Hd Hn Tn Ht Tt.
  unfold Convert.POST, Convert.handle, try_catch, bind, lift, ret.
  rewrite Hk, Hd, Hn, Ht. cbn [negb JsString.truthy_opt]. rewrite Tn. cbn [negb]. cbv beta.
  rewrite unsupportedTarget_inferred. cbn [JsString.truthy_opt]. rewrite Tt. reflexivity.
Qed.

(** A supported format does not help: [report.docx] to [PDF]. *)
Lemma undeclared_list_witness :
  Convert.POST Sample.happy Convert.Inferred (Returned Scenario.toPdf) initial
  = (Returned
       (Http.json 500
          [("error", Js.Str "SUPPORTED_DOC_OUTPUT_FORMATS_API is not defined");
           ("details", Js.Null)]), initial).
Proof.
  apply (undeclared_list_fails_every_conversion Sample.happy Scenario.toPdf
           Sample.report "report.docx" "PDF" initial); reflexivity.
Defined.



(** A converted file whose name holds a line break: the conversion is
    complete, the header is refused, the answer is 500. *)
Example refused_header_is_answered_500 :
  let run := Convert.POST Scenario.brokenName Convert.Annotated
               (Returned Scenario.toPdf) initial in
  response_status (fst run) = Some 500
  /\ map step_of (trace (snd run)) = orchestration.
Proof. split; reflexivity. Qed.

Lemma supported_lower_in (targetFormat : option string) :
  Convert.supported targetFormat = true ->
  In (JsString.toLowerCase (JsString.or_else targetFormat EmptyString))
    Convert.SUPPORTED_DOC_OUTPUT_FORMATS_API.
Proof.
  unfold Convert.supported. destruct targetFormat as [t|]; [|discriminate].
  intro H. apply andb_true_iff in H as [Ht Hin]. cbn [JsString.or_else].
  rewrite Ht. apply eqb_list_In, Hin.
Qed.

(** A request creates at most one job, and the output format it asks the
    provider for is always one of the eight supported names, in lower
    case. *)
Theorem only_supported_formats_are_requested
    (w : World) (rev : Convert.Revision) (formData : Outcome Convert.FormData)
    (s : State) :
  let run := Convert.POST w rev formData s in
  exists evs,
    trace (snd run) = (trace s ++ evs)%list
    /\ (filter_map job_format evs = []
        \/ exists f, filter_map job_format evs = [f]
                     /\ In f ["pdf"; "docx"; "txt"; "html"; "odt"; "pptx"; "jpg"; "png"]).
Proof.
  intro run. subst run. unfold Convert.POST, Convert.handle, try_catch, bind, lift, ret.
  destruct (negb (CLOUDCONVERT_API_KEY w));
    [exists []; rewrite app_nil_r; split; [reflexivity | left; reflexivity]|].
  destruct formData as [fd|e];
    [|exists []; rewrite app_nil_r; split; [reflexivity | left; reflexivity]].
  destruct (Convert.document fd) as [doc|];
    [|exists []; rewrite app_nil_r; split; [reflexivity | left; reflexivity]].
  destruct (negb (JsString.truthy_opt (Convert.inputFileName fd)));
    [exists []; rewrite app_nil_r; split; [reflexivity | left; reflexivity]|].
  destruct rev;
    [rewrite unsupportedTarget_inferred;
     destruct (JsString.truthy_opt (Convert.targetFormat fd));
     exists []; rewrite app_nil_r; split; [reflexivity | left; reflexivity
                                          | reflexivity | left; reflexivity]|].
  rewrite unsupportedTarget_annotated. set (rev := Convert.Annotated).
  destruct (Convert.supported (Convert.targetFormat fd)) eqn:Hs; cbn [negb];
    [|exists []; rewrite app_nil_r; split; [reflexivity | left; reflexivity]].
  apply supported_lower_in in Hs.
  set (target := JsString.or_else (Convert.targetFormat fd) EmptyString) in *.
  assert (G : exists evs,
             trace (snd (Convert.performCloudConversion w rev doc target s))
             = (trace s ++ EvJobCreate (JsString.toLowerCase target) :: evs)%list
             /\ filter_map job_format evs = []).
  { pose proof (performCloudConversion_shape w rev doc target s) as C.
    destruct (Convert.performCloudConversion w rev doc target s) as [out s'].
    destruct C as [rest [T [[n Hn] _]]].
    exists rest. split; [exact T|]. clear - Hn.
    assert (A : forall e, In e rest -> job_format e = None).
    { intros e He. assert (I : In (step_of e) (tl orchestration)).
      { apply in_map with (f := step_of) in He. rewrite Hn in He.
        revert He. generalize (step_of e) (tl orchestration). clear.
        intros x l. revert l. induction n as [|n IH]; intros [|y l]; simpl; try tauto.
        intros [->|H]; [left; reflexivity | right; apply IH, H]. }
      destruct e; try reflexivity. cbn in I.
      repeat (destruct I as [I|I]; [discriminate I|]). destruct I. }
    clear Hn. induction rest as [|e rest IH]; [reflexivity|].
    cbn [filter_map]. rewrite (A e (or_introl eq_refl)).
    apply IH. intros e' He'. apply A. right. exact He'. }
  destruct G as [evs [T F]].
  assert (R : exists f, filter_map job_format (EvJobCreate (JsString.toLowerCase target) :: evs)
                        = [f]
                        /\ In f ["pdf"; "docx"; "txt"; "html"; "odt"; "pptx"; "jpg"; "png"])
    by (exists (JsString.toLowerCase target); cbn [filter_map job_format]; rewrite F;
        split; [reflexivity | exact Hs]).
  destruct (Convert.performCloudConversion w rev doc target s) as [[c|e] s'];
    cbn [snd] in *; [|eexists; split; [exact T | right; exact R]].
  subst rev. cbn [Convert.moduleConstant ret].
  destruct (headers_set w "Content-Type" _) as [[]|e1];
    [|eexists; split; [exact T | right; exact R]].
  destruct (headers_set w "Content-Disposition" _) as [[]|e2];
    eexists; (split; [exact T | right; exact R]).
Qed.

(** No temporary directory is made unless [jobs.create] answered with a job
    that has an id and an import task with an id. *)
Theorem directory_only_for_an_uploadable_job
    (w : World) (rev : Convert.Revision) (inputFile : File) (targetFormat : string)
    (s : State) :
  let run := Convert.performCloudConversion w rev inputFile targetFormat s in
  exists evs,
    trace (snd run) = (trace s ++ evs)%list
    /\ (filter_map made_directory evs = []
        \/ exists job,
             cc_jobs_create w (JsString.toLowerCase targetFormat) = Returned (Some job)
             /\ uploadable job = true).
Proof.
  intro run. subst run.
  pose proof (performCloudConversion_shape w rev inputFile targetFormat s) as C.
  destruct (Convert.performCloudConversion w rev inputFile targetFormat s) as [out s'].
  destruct C as [rest [T [_ [_ D]]]]. cbn [snd].
  exists (EvJobCreate (JsString.toLowerCase targetFormat) :: rest).
  split; [exact T | exact D].
Qed.

(** What follows the wait neither makes nor removes a directory. *)
Lemma collectResult_quiet (w : World) (rev : Convert.Revision) (inputFile : File)
    (targetFormat : string) (completedJob : Job) :
  quiet (fun e => negb (orb (is_rm e) (is_mkdtemp e)))
    (Convert.collectResult w rev inputFile targetFormat completedJob).
Proof. unfold Convert.collectResult. quiet_auto. Qed.

(** Once the document is uploaded and the removal succeeds, the temporary
    directory is gone for good: whatever the wait, the job or the download do
    afterwards, the request ends without it, after exactly one removal. *)
Theorem uploaded_document_directory_is_removed
    (w : World) (rev : Convert.Revision) (inputFile : File)
    (targetFormat tempDir jobId : string) (job : Job) (uploadTask : Task) (s : State) :
  cc_jobs_create w (JsString.toLowerCase targetFormat) = Returned (Some job) ->
  job_id job = Some jobId -> JsString.truthy jobId = true ->
  Convert.find_task (fun t => String.eqb (task_name t) "import-file") (job_tasks job)
  = Some uploadTask ->
  JsString.truthy_opt (task_id uploadTask) = true ->
  fs_mkdtemp w (NodePath.join [os_tmpdir w; "cc-upload-"]) = Returned tempDir ->
  fs_writeFile w (NodePath.join [tempDir; file_name inputFile]) (file_bytes inputFile)
  = Returned tt ->
  cc_tasks_upload w uploadTask (NodePath.join [tempDir; file_name inputFile])
    (file_name inputFile) = Returned tt ->
  fs_rm w tempDir = Returned tt ->
  let run := Convert.performCloudConversion w rev inputFile targetFormat s in
  exists_dir tempDir (snd run) = false
  /\ filter is_rm (trace (snd run)) = (filter is_rm (trace s) ++ [EvRm tempDir])%list.
Proof.
  intros Hc Hid Hjid Hup Htid Hmk Hw Hu Hrm run. subst run.
  unfold Convert.performCloudConversion, Convert.convertSteps, Convert.submitAndWait,
    mkdtemp, writeFile, rm, call.
  rewrite Hc, Hmk.
  unfold try_catch, bind, emit, lift, add_dir, remove_dir, ret, throw. cbn beta iota.
  rewrite Hid. cbn [JsString.truthy_opt JsString.or_else]. rewrite Hjid. cbn [negb].
  rewrite Hup, Htid. cbn [negb]. cbn beta iota.
  rewrite Hw, Hu, Hrm. cbn beta iota. cbn [dirs trace ticks].
  set (s1 := mkState _ _ _).
  assert (D1 : exists_dir tempDir s1 = false)
    by (unfold exists_dir; subst s1; cbn [dirs]; apply removed_dir_is_gone).
  assert (T1 : filter is_rm (trace s1) = (filter is_rm (trace s) ++ [EvRm tempDir])%list)
    by (subst s1; cbn [trace]; rewrite !filter_app; simpl; rewrite ?app_nil_r;
        reflexivity).
  destruct (cc_jobs_wait w jobId) as [completedJob|e]; [|split; assumption].
  pose proof (collectResult_quiet w rev inputFile targetFormat completedJob s1)
    as [D [evs [T F]]].
  destruct (Convert.collectResult w rev inputFile targetFormat completedJob s1)
    as [[r|e] s2]; cbn [fst snd] in *.
  all: unfold exists_dir in *; rewrite D; split; [exact D1|].
  all: rewrite T, filter_app, T1.
  all: assert (N : filter is_rm evs = []) by
      (clear - F; induction evs as [|x evs IH]; [reflexivity|];
       simpl in *; apply andb_true_iff in F as [Fx Fr];
       destruct x; simpl in *; try discriminate; apply IH, Fr).
  all: rewrite N, app_nil_r; reflexivity.
Qed.

(** Even when the job then fails, the directory of the upload is gone. *)
Lemma uploaded_document_directory_witness :
  let run := Convert.performCloudConversion Scenario.encrypted Convert.Annotated
               Sample.report "PDF" initial in
  exists_dir Sample.uploadDir (snd run) = false
  /\ filter is_rm (trace (snd run)) = [EvRm Sample.uploadDir].
Proof.
  apply (uploaded_document_directory_is_removed Scenario.encrypted Convert.Annotated
           Sample.report "PDF" Sample.uploadDir "job-1" Sample.createdJob
           (mkTask "import-file" (Some "task-1") "waiting" None None) initial);
    reflexivity.
Defined.

(** A job that did not end in [error] but whose export task is missing, not
    finished, or without files makes the conversion fail with a fixed
    message, before anything is fetched. *)
Theorem job_without_exported_file_fails
    (w : World) (rev : Convert.Revision) (inputFile : File)
    (targetFormat tempDir : string) (completedJob : Job) (s : State) :
  completes w inputFile targetFormat tempDir completedJob ->
  job_status completedJob <> "error" ->
  (Convert.find_task (fun t => String.eqb (task_name t) "export-file")
     (job_tasks completedJob) = None
   \/ exists exportTask,
        Convert.find_task (fun t => String.eqb (task_name t) "export-file")
          (job_tasks completedJob) = Some exportTask
        /\ (task_status exportTask <> "finished"
            \/ task_result exportTask = None
            \/ task_result exportTask = Some None
            \/ task_result exportTask = Some (Some []))) ->
  let run := Convert.performCloudConversion w rev inputFile targetFormat s in
  fst run = Threw (Js.Error ("CloudConvert processing failed: "
                             ++ "CloudConvert export task failed or did not produce a file."))
  /\ filter (fun e => match step_of e with FetchResult => true | _ => false end)
       (trace (snd run))
     = filter (fun e => match step_of e with FetchResult => true | _ => false end)
         (trace s).
Proof.
  intros Hc Hst Hex run. subst run.
  assert (G : Convert.exportedFiles completedJob = None).
  { unfold Convert.exportedFiles.
    destruct Hex as [-> | [t [-> [H | [-> | [-> | ->]]]]]]; try reflexivity.
    - apply String.eqb_neq in H. rewrite H. reflexivity.
    - destruct (String.eqb (task_status t) "finished"); reflexivity.
    - destruct (String.eqb (task_status t) "finished"); reflexivity.
    - destruct (String.eqb (task_status t) "finished"); reflexivity. }
  destruct Hc as [job [jobId [uploadTask [Hc [Hid [Hjid [Hup [Htid [Hmk [Hw [Hu [Hrm Hwait]]]]]]]]]]]].
  unfold_conversion. rewrite Hc, Hmk. cbn beta iota.
  rewrite Hid. cbn [JsString.truthy_opt JsString.or_else]. rewrite Hjid. cbn [negb].
  rewrite Hup, Htid. cbn [negb]. cbn beta iota.
  rewrite Hw, Hu, Hrm. cbn beta iota. rewrite Hwait. cbn beta iota.
  apply String.eqb_neq in Hst. rewrite Hst, G. cbn [fst snd trace].
  split; [reflexivity|].
  rewrite !filter_app. simpl. rewrite !app_nil_r. reflexivity.
Qed.

Lemma job_without_exported_file_witness :
  fst (Convert.performCloudConversion
         (Sample.world true (fun _ => true) Sample.chooseFirstMatch
            (Returned Sample.hello) (Returned tt) Sample.createdJob (Returned tt))
         Convert.Inferred Sample.report "PDF" initial)
  = Threw (Js.Error ("CloudConvert processing failed: "
                     ++ "CloudConvert export task failed or did not produce a file.")).
Proof.
  apply (job_without_exported_file_fails
           (Sample.world true (fun _ => true) Sample.chooseFirstMatch
              (Returned Sample.hello) (Returned tt) Sample.createdJob (Returned tt))
           Convert.Inferred Sample.report "PDF" Sample.uploadDir Sample.createdJob initial).
  - apply sample_completes.
  - discriminate.
  - right. exists (mkTask "export-file" (Some "task-3") "waiting" None None).
    split; [reflexivity|]. left. discriminate.
Defined.

(** Every supported target format has its MIME type in the table, so a
    converted document is never served under the fallback
    [application/octet-stream]: its [Content-Type] is the table's entry for the
    lower-cased format, whatever the case it was submitted in. *)
Theorem supported_format_has_a_mime_type
    (targetFormat : string) (converted : Http.Buffer * string) :
  Convert.supported (Some targetFormat) = true ->
  exists mime,
    Convert.mime_lookup (JsString.toLowerCase targetFormat) Convert.EXT_TO_MIMETYPE
    = Some mime
    /\ mime <> "application/octet-stream"
    /\ Http.headers (Convert.successResponse targetFormat converted)
       = [("Content-Type", mime);
          ("Content-Disposition",
           "attachment; filename=" ++ Transcribe.double_quote ++ snd converted
           ++ Transcribe.double_quote)].
Proof.
  intro H. apply supported_lower_in in H. cbn [JsString.or_else] in H.
  assert (T : JsString.truthy targetFormat = true).
  { destruct targetFormat; [|reflexivity]. simpl in H.
    repeat (destruct H as [H|H]; [discriminate H|]). destruct H. }
  rewrite T in H.
  unfold Convert.successResponse, Convert.responseFrom, Convert.mimeTypeFrom,
    Convert.contentDisposition.
  simpl in H.
  repeat (destruct H as [H|H];
          [rewrite <- H; eexists; split; [reflexivity|];
           split; [discriminate | reflexivity]|]).
  destruct H.
Qed.

Lemma supported_format_mime_witness :
  exists mime,
    Convert.mime_lookup (JsString.toLowerCase "DocX") Convert.EXT_TO_MIMETYPE = Some mime
    /\ mime <> "application/octet-stream"
    /\ Http.headers (Convert.successResponse "DocX" (Sample.converted, "report.docx"))
       = [("Content-Type", mime);
          ("Content-Disposition",
           "attachment; filename=" ++ Transcribe.double_quote ++ "report.docx"
           ++ Transcribe.double_quote)].
Proof.
  apply (supported_format_has_a_mime_type "DocX" (Sample.converted, "report.docx")).
  reflexivity.
Defined.

(** The removal of the temporary directory is not guarded: when it throws
    after a successful upload, the conversion fails with the removal's message
    and the job is never waited for. *)
Theorem failed_removal_aborts_the_conversion
    (w : World) (rev : Convert.Revision) (inputFile : File)
    (targetFormat tempDir jobId : string) (job : Job) (uploadTask : Task)
    (e : Js.Thrown) (s : State) :
  cc_jobs_create w (JsString.toLowerCase targetFormat) = Returned (Some job) ->
  job_id job = Some jobId -> JsString.truthy jobId = true ->
  Convert.find_task (fun t => String.eqb (task_name t) "import-file") (job_tasks job)
  = Some uploadTask ->
  JsString.truthy_opt (task_id uploadTask) = true ->
  fs_mkdtemp w (NodePath.join [os_tmpdir w; "cc-upload-"]) = Returned tempDir ->
  fs_writeFile w (NodePath.join [tempDir; file_name inputFile]) (file_bytes inputFile)
  = Returned tt ->
  cc_tasks_upload w uploadTask (NodePath.join [tempDir; file_name inputFile])
    (file_name inputFile) = Returned tt ->
  fs_rm w tempDir = Threw e ->
  let run := Convert.performCloudConversion w rev inputFile targetFormat s in
  fst run = Threw (Js.Error ("CloudConvert processing failed: "
                             ++ Js.message_or "Unknown CloudConvert error" e))
  /\ exists evs,
       trace (snd run) = (trace s ++ evs)%list
       /\ map step_of evs
          = [CreateJob; MakeDirectory; WriteDocument; UploadDocument; RemoveDirectory].
Proof.
  intros Hc Hid Hjid Hup Htid Hmk Hw Hu Hrm run. subst run.
  unfold_conversion. rewrite Hc, Hmk. cbn beta iota.
  rewrite Hid. cbn [JsString.truthy_opt JsString.or_else]. rewrite Hjid. cbn [negb].
  rewrite Hup, Htid. cbn [negb]. cbn beta iota.
  rewrite Hw, Hu, Hrm. cbn [fst snd trace].
  split; [reflexivity|].
  eexists. split; [rewrite <- ?app_assoc; reflexivity | reflexivity].
Qed.

Lemma failed_removal_aborts_witness :
  fst (Convert.performCloudConversion
         (Sample.world true (fun _ => true) Sample.chooseFirstMatch
            (Returned Sample.hello) (Returned tt)
            (Sample.finishedJob (mkResultFile (Some "report.pdf")
                                   (Some "https://cc.example/out")))
            (Threw (Js.Error "EBUSY: resource busy or locked")))
         Convert.Annotated Sample.report "PDF" initial)
  = Threw (Js.Error "CloudConvert processing failed: EBUSY: resource busy or locked").
Proof.
  apply (failed_removal_aborts_the_conversion
           (Sample.world true (fun _ => true) Sample.chooseFirstMatch
              (Returned Sample.hello) (Returned tt)
              (Sample.finishedJob (mkResultFile (Some "report.pdf")
                                     (Some "https://cc.example/out")))
              (Threw (Js.Error "EBUSY: resource busy or locked")))
           Convert.Annotated Sample.report "PDF" Sample.uploadDir "job-1"
           Sample.createdJob (mkTask "import-file" (Some "task-1") "waiting" None None)
           (Js.Error "EBUSY: resource busy or locked") initial); reflexivity.
Defined.

(** ** The transcription route: further properties *)

Lemma cleanup_returns (w : World) (dir : string) (s : State) :
  exists s', Transcribe.cleanup w dir s = (Returned tt, s').
Proof.
  unfold Transcribe.cleanup, try_catch, rm, bind, emit, remove_dir, ret, throw.
  destruct (JsString.truthy dir); [destruct (fs_rm w dir) as [[]|e]|];
    eexists; reflexivity.
Qed.

(** With a session directory, [POST] answers what its [try] block returns,
    or the error response for what it throws. *)
Lemma transcription_POST_outcome (w : World) (formData : Outcome Transcribe.FormData)
    (dir : string) (s : State) :
  fs_mkdtemp w (NodePath.join [os_tmpdir w; "transcribe-session-"]) = Returned dir ->
  fst (Transcribe.POST w formData s)
  = match fst (Transcribe.handle w formData dir
                 (mkState (dir :: dirs s) (trace s ++ [EvMkdtemp dir])%list (ticks s))) with
    | Returned r => Returned r
    | Threw e => Returned (Transcribe.errorResponse e)
    end.
Proof.
  intro Hmk. unfold Transcribe.POST, mkdtemp. rewrite Hmk.
  unfold bind, emit, add_dir, ret, try_finally, try_catch. cbn beta iota.
  cbn [dirs trace ticks].
  destruct (Transcribe.handle w formData dir _) as [[r|e] s2]; cbn [fst].
  - destruct (cleanup_returns w dir s2) as [s3 ->]. reflexivity.
  - destruct (cleanup_returns w dir s2) as [s3 ->]. reflexivity.
Qed.

(** Everything the [try] block of [POST] can do, from one case analysis on
    the answers of its collaborators: the status of what it returns, that a
    rejection leaves the state alone, when Whisper is called, what a 200
    carries, and where files are created. *)
Lemma handle_cases (w : World) (formData : Outcome Transcribe.FormData)
    (dir : string) (s : State) :
  let '(out, s') := Transcribe.handle w formData dir s in
  exists evs,
    trace s' = (trace s ++ evs)%list
    /\ (forall r, out = Returned r ->
          Http.status r = 200 \/ (Http.status r = 400 /\ s' = s))
    /\ (forall audio, In (EvWhisper audio) evs ->
          OPENAI_API_KEY w = true
          /\ fs_access w audio = Returned tt
          /\ exists video, In (EvFfmpeg video audio) evs
                           /\ ffmpeg_save w video audio = None)
    /\ (forall r, out = Returned r ->
          Http.status r = 200 ->
          exists audio response text title name,
            In (EvWhisper audio) evs
            /\ openai_transcriptions_create w audio = Returned response
            /\ Transcribe.extractText response = Returned text
            /\ r = Http.json 200 [("transcription", Js.Str text);
                                  ("videoTitle", title);
                                  ("originalFileName", name)])
    /\ (forall p, In p (filter_map created_path evs) ->
          exists name,
            p = NodePath.join [dir; name]
            /\ ((exists fd file, formData = Returned fd
                                 /\ Transcribe.video fd = Some file
                                 /\ name = file_name file)
                \/ (exists title n formats options o f,
                      ytdl_chooseFormat w formats options = Returned o
                      /\ Transcribe.with_url o = Some f
                      /\ name = "youtube_" ++ Transcribe.underscored
                                                (Transcribe.sanitizeTitle title)
                                ++ "_" ++ unique_suffix w n ++ "."
                                ++ JsString.or_else (fmt_container f) "mp4")
                \/ (exists video n,
                      name = NodePath.parse_name video ++ "_" ++ unique_suffix w n
                             ++ "_audio.mp3"))).
Proof.
  unfold_handle. split_run.
  all: repeat match goal with u : unit |- _ => destruct u end.
  all: cbn [trace].
  all: first [ exists []; split; [rewrite app_nil_r; reflexivity|]
             | eexists; split; [rewrite <- ?app_assoc; reflexivity|] ].
  all: split;
    [ intros r E; try discriminate E; injection E as <-;
      first [ left; reflexivity | right; split; reflexivity ] |].
  all: split;
    [ intros audio Hin; cbn [In app] in Hin;
      repeat match type of Hin with
             | _ \/ _ => destruct Hin as [Hin|Hin]; [try discriminate Hin|]
             end;
      first [ contradiction
            | injection Hin as <-;
              split; [apply negb_false_iff; assumption|];
              split; [assumption|];
              eexists; split; [|eassumption]; cbn [In app]; auto 10 ] |].
  all: split;
    [ intros r E St;
      first [ discriminate E
            | injection E as <-;
              first [ discriminate St
                    | do 5 eexists; split; [cbn [In app]; auto 10|];
                      split; [eassumption|]; split; [eassumption|]; reflexivity ] ] |].
  all: intros p Hin; cbn [filter_map created_path app In] in Hin.
  all: repeat match type of Hin with
              | _ \/ _ => destruct Hin as [Hin|Hin]
              end.
  all: first
         [ contradiction
         | subst p; eexists; split; [reflexivity|];
           first
             [ left; do 2 eexists; refine (conj _ (conj _ eq_refl));
               [ | eassumption ]; reflexivity
             | right; left; do 6 eexists; refine (conj _ (conj _ eq_refl));
               [ | eassumption ]; eassumption
             | right; right; do 2 eexists; reflexivity ] ].
Qed.

(** The transcription route lets an exception escape exactly when the
    session directory cannot be made, and then nothing else has happened;
    otherwise the request is answered with status 200, 400 or 500. *)
Theorem transcription_POST_throws_only_without_session_directory
    (w : World) (formData : Outcome Transcribe.FormData) (s : State) :
  let run := Transcribe.POST w formData s in
  match fs_mkdtemp w (NodePath.join [os_tmpdir w; "transcribe-session-"]) with
  | Threw e => run = (Threw e, s)
  | Returned dir =>
      exists r, fst run = Returned r
                /\ (Http.status r = 200 \/ Http.status r = 400 \/ Http.status r = 500)
  end.
Proof.
  intro run. subst run.
  destruct (fs_mkdtemp w _) as [dir|e] eqn:Hmk.
  - rewrite (transcription_POST_outcome w formData dir s Hmk).
    pose proof (handle_cases w formData dir
                  (mkState (dir :: dirs s) (trace s ++ [EvMkdtemp dir])%list (ticks s)))
      as C.
    destruct (Transcribe.handle w formData dir _) as [[r|e] s2];
      destruct C as [evs [_ [H _]]]; cbn [fst].
    + exists r. split; [reflexivity|]. destruct (H r eq_refl) as [H2|[H4 _]]; auto.
    + eexists. split; [reflexivity|]. right. right. reflexivity.
  - unfold Transcribe.POST, mkdtemp, bind. rewrite Hmk. reflexivity.
Qed.

(** What a request did, once the session directory is made: what the [try]
    block did, then the removal. *)
Lemma transcription_POST_trace (w : World) (formData : Outcome Transcribe.FormData)
    (dir : string) (s : State) :
  fs_mkdtemp w (NodePath.join [os_tmpdir w; "transcribe-session-"]) = Returned dir ->
  exists removal,
    (removal = [] \/ removal = [EvRm dir])
    /\ trace (snd (Transcribe.POST w formData s))
       = (trace (snd (Transcribe.handle w formData dir
                        (mkState (dir :: dirs s) (trace s ++ [EvMkdtemp dir])%list
                           (ticks s))))
          ++ removal)%list.
Proof.
  intro Hmk. unfold Transcribe.POST, mkdtemp. rewrite Hmk.
  unfold bind, emit, add_dir, ret, try_finally, try_catch. cbn beta iota.
  cbn [dirs trace ticks].
  destruct (Transcribe.handle w formData dir _) as [[r|e] s2]; cbn [fst snd].
  all: unfold Transcribe.cleanup, try_catch, rm, bind, emit, remove_dir, ret, throw.
  all: destruct (JsString.truthy dir); [destruct (fs_rm w dir) as [[]|e']|];
    cbn [snd trace].
  all: first [ exists [EvRm dir]; split; [right|]; reflexivity
             | exists []; split; [left; reflexivity|];
               rewrite app_nil_r; reflexivity ].
Qed.

Lemma transcription_answer_needs_directory (w : World)
    (formData : Outcome Transcribe.FormData) (s : State) (r : Http.Response) :
  fst (Transcribe.POST w formData s) = Returned r ->
  exists dir,
    fs_mkdtemp w (NodePath.join [os_tmpdir w; "transcribe-session-"]) = Returned dir.
Proof.
  unfold Transcribe.POST, mkdtemp, bind.
  destruct (fs_mkdtemp w _) as [dir|e]; [eexists; reflexivity | discriminate].
Qed.

(** A request that is answered with 400 has touched nothing but its own
    session directory: no file was written, no process run, no network call
    made. *)
Theorem rejected_transcription_request_is_silent
    (w : World) (formData : Outcome Transcribe.FormData) (s : State)
    (r : Http.Response) :
  fst (Transcribe.POST w formData s) = Returned r ->
  Http.status r = 400 ->
  exists dir removal,
    (removal = [] \/ removal = [EvRm dir])
    /\ trace (snd (Transcribe.POST w formData s))
       = (trace s ++ EvMkdtemp dir :: removal)%list.
Proof.
  intros Hr Hs.
  destruct (transcription_answer_needs_directory w formData s r Hr) as [dir Hmk].
  destruct (transcription_POST_trace w formData dir s Hmk) as [removal [Hrem T]].
  exists dir, removal. split; [exact Hrem|]. rewrite T.
  rewrite (transcription_POST_outcome w formData dir s Hmk) in Hr.
  pose proof (handle_cases w formData dir
                (mkState (dir :: dirs s) (trace s ++ [EvMkdtemp dir])%list (ticks s)))
    as C.
  destruct (Transcribe.handle w formData dir _) as [[r'|e] s2];
    destruct C as [evs [_ [Q _]]]; cbn [fst snd] in *.
  - injection Hr as ->. destruct (Q r eq_refl) as [H2|[_ Q']]; [congruence|].
    rewrite Q'. cbn [trace]. rewrite <- app_assoc. reflexivity.
  - injection Hr as <-. discriminate Hs.
Qed.

(** A request without [operationType] is such a request. *)
Lemma rejected_transcription_request_witness :
  exists dir removal,
    (removal = [] \/ removal = [EvRm dir])
    /\ trace (snd (Transcribe.POST Sample.happy
                     (Returned (Transcribe.mkFormData None (Some Sample.clip) None))
                     initial))
       = (trace initial ++ EvMkdtemp dir :: removal)%list.
Proof.
  apply (rejected_transcription_request_is_silent Sample.happy
           (Returned (Transcribe.mkFormData None (Some Sample.clip) None)) initial
           (Http.json 400 [("error", Js.Str Transcribe.invalid_operation_type)]));
    reflexivity.
Defined.

(** Whisper only ever receives the audio file that a successful ffmpeg run
    of the same request produced, and only when the API key is set and the
    file is readable. *)
Theorem whisper_only_receives_extracted_audio
    (w : World) (formData : Outcome Transcribe.FormData) (s : State) :
  exists evs,
    trace (snd (Transcribe.POST w formData s)) = (trace s ++ evs)%list
    /\ forall audio, In (EvWhisper audio) evs ->
         OPENAI_API_KEY w = true
         /\ fs_access w audio = Returned tt
         /\ exists video, In (EvFfmpeg video audio) evs
                          /\ ffmpeg_save w video audio = None.
Proof.
  destruct (fs_mkdtemp w (NodePath.join [os_tmpdir w; "transcribe-session-"]))
    as [dir|e] eqn:Hmk.
  - destruct (transcription_POST_trace w formData dir s Hmk) as [removal [Hrem T]].
    pose proof (handle_cases w formData dir
                  (mkState (dir :: dirs s) (trace s ++ [EvMkdtemp dir])%list (ticks s)))
      as C.
    destruct (Transcribe.handle w formData dir _) as [out s2];
      destruct C as [evs [Th [_ [Hw _]]]]; cbn [snd] in T.
    exists (EvMkdtemp dir :: evs ++ removal)%list. split.
    + rewrite T, Th. cbn [trace]. rewrite <- !app_assoc. reflexivity.
    + intros audio [Hin|Hin]; [discriminate Hin|].
      apply in_app_or in Hin as [Hin|Hin].
      * destruct (Hw audio Hin) as [K [A [video [F N]]]].
        split; [exact K|]. split; [exact A|]. exists video. split; [|exact N].
        right. apply in_or_app. left. exact F.
      * exfalso. destruct Hrem as [-> | ->]; [destruct Hin|].
        destruct Hin as [Hin|[]]. discriminate Hin.
  - exists []. split.
    + unfold Transcribe.POST, mkdtemp, bind. rewrite Hmk. cbn [snd].
      rewrite app_nil_r. reflexivity.
    + intros audio [].
Qed.

(** A 200 response carries the text extracted from what the provider
    answered for the audio of this very request. *)
Theorem transcript_comes_from_the_provider
    (w : World) (formData : Outcome Transcribe.FormData) (s : State)
    (r : Http.Response) :
  fst (Transcribe.POST w formData s) = Returned r ->
  Http.status r = 200 ->
  exists audio response text title name,
    In (EvWhisper audio) (trace (snd (Transcribe.POST w formData s)))
    /\ openai_transcriptions_create w audio = Returned response
    /\ Transcribe.extractText response = Returned text
    /\ r = Http.json 200 [("transcription", Js.Str text);
                          ("videoTitle", title);
                          ("originalFileName", name)].
Proof.
  intros Hr Hs.
  destruct (transcription_answer_needs_directory w formData s r Hr) as [dir Hmk].
  destruct (transcription_POST_trace w formData dir s Hmk) as [removal [_ T]].
  rewrite (transcription_POST_outcome w formData dir s Hmk) in Hr.
  pose proof (handle_cases w formData dir
                (mkState (dir :: dirs s) (trace s ++ [EvMkdtemp dir])%list (ticks s)))
    as C.
  destruct (Transcribe.handle w formData dir _) as [[r'|e] s2];
    destruct C as [evs [Th [_ [_ [Hok _]]]]]; cbn [fst snd] in *.
  - injection Hr as ->.
    destruct (Hok r eq_refl Hs) as [audio [response [text [title [name [Hin [Hc [Hx Hj]]]]]]]].
    exists audio, response, text, title, name.
    split; [|split; [exact Hc | split; [exact Hx | exact Hj]]].
    rewrite T, Th. apply in_or_app. left. apply in_or_app. right. exact Hin.
  - injection Hr as <-. discriminate Hs.
Qed.

Lemma transcript_comes_from_the_provider_witness :
  exists audio response text title name,
    In (EvWhisper audio)
      (trace (snd (Transcribe.POST Sample.happy (Returned Scenario.uploadClip) initial)))
    /\ openai_transcriptions_create Sample.happy audio = Returned response
    /\ Transcribe.extractText response = Returned text
    /\ Http.json 200 [("transcription", Js.Str "hello world");
                      ("videoTitle", Js.Undefined);
                      ("originalFileName", Js.Str "clip.mp4")]
       = Http.json 200 [("transcription", Js.Str text);
                        ("videoTitle", title);
                        ("originalFileName", name)].
Proof.
  apply (transcript_comes_from_the_provider Sample.happy (Returned Scenario.uploadClip)
           initial); reflexivity.
Defined.

(** Every failure of [transcribeWithWhisper] is a fresh [Error]: the missing
    key, or [Whisper API transcription failed: ] and a message.  Whatever
    payload the SDK attached to its own error is gone, so the response of
    [POST] for it has no details. *)
Theorem whisper_failures_carry_no_details
    (w : World) (audioPath : string) (s : State) (e : Js.Thrown) :
  fst (Transcribe.transcribeWithWhisper w audioPath s) = Threw e ->
  (e = Js.Error "OpenAI API key is not configured. Cannot transcribe."
   \/ exists m, e = Js.Error ("Whisper API transcription failed: " ++ m))
  /\ Transcribe.detailsForResponse e = Js.Null.
Proof.
  unfold Transcribe.transcribeWithWhisper, try_catch, throw.
  destruct (negb (OPENAI_API_KEY w)); cbn [fst].
  - intro H. injection H as <-. split; [left|]; reflexivity.
  - match goal with
    | |- context [bind ?a ?b s] => destruct (bind a b s) as [[t|e'] s']
    end; cbn [fst]; intro H; [discriminate|].
    injection H as <-. split; [right; eexists|]; reflexivity.
Qed.

Lemma whisper_failures_witness :
  (Js.Error "Whisper API transcription failed: 429 rate limited"
   = Js.Error "OpenAI API key is not configured. Cannot transcribe."
   \/ exists m, Js.Error "Whisper API transcription failed: 429 rate limited"
                = Js.Error ("Whisper API transcription failed: " ++ m))
  /\ Transcribe.detailsForResponse
       (Js.Error "Whisper API transcription failed: 429 rate limited") = Js.Null.
Proof.
  apply (whisper_failures_carry_no_details
           (Sample.world true (fun _ => true) Sample.chooseFirstMatch
              (Threw (Js.ErrorObject "429 rate limited"
                        [("response", Js.Obj [("data", Js.Str "slow down")])]))
              (Returned tt) Sample.createdJob (Returned tt))
           "/tmp/a.mp3" initial).
  reflexivity.
Defined.

(** The session directory of an upload is removed once, and is gone. *)
Lemma transcribe_POST_cleans_up_witness :
  let run := Transcribe.POST Sample.happy (Returned Scenario.uploadClip) initial in
  filter is_rm (trace (snd run)) = [EvRm Sample.sessionDir]
  /\ exists_dir Sample.sessionDir (snd run) = false.
Proof.
  destruct (transcribe_POST_cleans_up Sample.happy (Returned Scenario.uploadClip) initial
              Sample.sessionDir eq_refl eq_refl) as [_ [Once [_ Gone]]].
  split; [exact Once | apply Gone; reflexivity].
Defined.

(** The library refuses to choose a format. *)
Lemma chooseFormat_failure_witness :
  let run := Transcribe.downloadYouTubeVideoAndExtractAudio
               (Sample.world true (fun _ => true)
                  (fun _ _ => Threw (Js.Error "No such format found: highestaudio"))
                  (Returned Sample.hello) (Returned tt) Sample.createdJob (Returned tt))
               Scenario.watchUrl Sample.sessionDir initial in
  fst run = Threw (Js.Error "No such format found: highestaudio")
  /\ downloads (snd run) = downloads initial.
Proof.
  apply (chooseFormat_failure_propagates
           (Sample.world true (fun _ => true)
              (fun _ _ => Threw (Js.Error "No such format found: highestaudio"))
              (Returned Sample.hello) (Returned tt) Sample.createdJob (Returned tt))
           Scenario.watchUrl Sample.sessionDir
           (mkVideoInfo "A talk: part 1/2" [Sample.muxed; Sample.audioOnly])
           (Js.Error "No such format found: highestaudio") initial); reflexivity.
Defined.

(** ** Files stay in the session directory *)

Lemma split_at_parts_no_sep (c : ascii) (s x : string) :
  In x (JsString.split_at c s) -> JsString.last_index_of c x = None.
Proof.
  revert x. induction s as [|d r IH]; intros x Hin.
  - destruct Hin as [<-|[]]. reflexivity.
  - simpl in Hin. destruct (Ascii.eqb d c) eqn:E.
    + destruct Hin as [<-|Hin]; [reflexivity | apply IH, Hin].
    + destruct (JsString.split_at c r) as [|p ps] eqn:Es.
      * destruct Hin as [<-|[]]. simpl. rewrite E. reflexivity.
      * destruct Hin as [<-|Hin]; [|apply IH; right; exact Hin].
        simpl. rewrite (IH p (or_introl eq_refl)), E. reflexivity.
Qed.

Lemma base_slash_free (p : string) : slash_free (NodePath.base p).
Proof.
  unfold slash_free, NodePath.base.
  destruct (filter JsString.truthy (rev (JsString.split_at NodePath.slash p)))
    as [|b rest] eqn:E; [reflexivity|].
  apply (split_at_parts_no_sep NodePath.slash p b).
  apply in_rev. apply (proj1 (filter_In JsString.truthy b _)).
  rewrite E. left. reflexivity.
Qed.

Lemma parse_name_slash_free (p : string) : slash_free (NodePath.parse_name p).
Proof.
  unfold NodePath.parse_name. pose proof (base_slash_free p) as B.
  destruct (String.eqb (NodePath.base p) ".."); [exact B|].
  destruct (JsString.last_index_of NodePath.dot (NodePath.base p)) as [[|i]|];
    try exact B.
  apply substring_keeps_absence, B.
Qed.

Lemma slash_free_append (a b : string) :
  slash_free a -> slash_free b -> slash_free (a ++ b).
Proof. intros Ha Hb. apply no_sep_append. split; assumption. Qed.

Lemma contains_char (c : ascii) (a b : string) :
  JsString.last_index_of c (a ++ String c b) <> None.
Proof.
  induction a as [|x r IH]; simpl.
  - destruct (JsString.last_index_of c b); [discriminate|].
    rewrite Ascii.eqb_refl. discriminate.
  - destruct (JsString.last_index_of c (r ++ String c b)); [discriminate|].
    contradiction.
Qed.

(** A slash-free name that contains an underscore is a plain segment. *)
Lemma underscored_name_is_plain (a b : string) :
  slash_free a -> slash_free b -> plain_segment (a ++ "_" ++ b) = true.
Proof.
  intros Ha Hb. unfold plain_segment.
  assert (S : slash_free (a ++ "_" ++ b)).
  { apply slash_free_append; [exact Ha|]. apply slash_free_append; [reflexivity | exact Hb]. }
  unfold slash_free in S. rewrite S.
  pose proof (contains_char "_"%char a b) as C.
  change (a ++ "_" ++ b) with (a ++ String "_" b).
  unfold JsString.eqb_list. cbn [existsb].
  destruct (String.eqb_spec (a ++ String "_" b) EmptyString) as [E|_];
    [rewrite E in C; contradiction C; reflexivity|].
  destruct (String.eqb_spec (a ++ String "_" b) ".") as [E|_];
    [rewrite E in C; contradiction C; reflexivity|].
  destruct (String.eqb_spec (a ++ String "_" b) "..") as [E|_];
    [rewrite E in C; contradiction C; reflexivity|].
  reflexivity.
Qed.

Lemma filter_chars_removes (keep : ascii -> bool) (c : ascii) (s : string) :
  keep c = false -> JsString.last_index_of c (JsString.filter_chars keep s) = None.
Proof.
  intro K. induction s as [|d r IH]; [reflexivity|].
  simpl. destruct (keep d) eqn:Kd; [|exact IH].
  simpl. rewrite IH. destruct (Ascii.eqb_spec d c) as [->|_]; [congruence | reflexivity].
Qed.

Lemma map_chars_avoids (f : ascii -> ascii) (c : ascii) (s : string) :
  (forall d, f d = c -> d = c) ->
  JsString.last_index_of c s = None ->
  JsString.last_index_of c (JsString.map_chars f s) = None.
Proof.
  intros Hf. induction s as [|d r IH]; intro H; [reflexivity|].
  simpl in *. destruct (JsString.last_index_of c r); [discriminate|].
  rewrite (IH eq_refl).
  destruct (Ascii.eqb_spec d c) as [->|Nd]; [discriminate|].
  destruct (Ascii.eqb_spec (f d) c) as [E|_]; [|reflexivity].
  contradiction (Nd (Hf d E)).
Qed.

Lemma map_chars_removes (f : ascii -> ascii) (c : ascii) (s : string) :
  (forall d, f d <> c) -> JsString.last_index_of c (JsString.map_chars f s) = None.
Proof.
  intro Hf. induction s as [|d r IH]; [reflexivity|].
  simpl. rewrite IH. destruct (Ascii.eqb_spec (f d) c) as [E|_]; [|reflexivity].
  contradiction (Hf d E).
Qed.

Lemma length_map_chars (f : ascii -> ascii) (s : string) :
  String.length (JsString.map_chars f s) = String.length s.
Proof. induction s as [|d r IH]; [reflexivity|]. simpl. rewrite IH. reflexivity. Qed.

Lemma length_substring_prefix (n : nat) (s : string) :
  String.length (String.substring 0 n s) <= n.
Proof.
  revert n. induction s as [|d r IH]; intro n; destruct n; simpl; try lia.
  specialize (IH n). lia.
Qed.

Lemma underscored_title_avoids (title : string) (c : ascii) :
  Transcribe.unsafe_title_char c = true \/ Transcribe.is_space c = true ->
  JsString.last_index_of c (Transcribe.underscored (Transcribe.sanitizeTitle title)) = None.
Proof.
  unfold Transcribe.underscored, Transcribe.sanitizeTitle. intros [U|W].
  - apply map_chars_avoids.
    + intros d. destruct (Transcribe.is_space d); [|tauto].
      intros <-. discriminate U.
    + apply substring_keeps_absence, filter_chars_removes. rewrite U. reflexivity.
  - apply map_chars_removes. intros d E.
    destruct (Transcribe.is_space d) eqn:Sd; [subst c; discriminate W | congruence].
Qed.

(** The part of a download's file name that comes from the video title is
    at most 100 code units long and contains none of the characters
    [< > : / \ | ? *], no double quote (code 34) and no white space (codes 9
    to 13, 32 and 160), whatever the title is. *)
Theorem title_part_of_file_name_is_safe (title : string) (c : ascii) :
  String.length (Transcribe.underscored (Transcribe.sanitizeTitle title)) <= 100
  /\ (In c ["<"; ">"; ":"; "/"; "\"; "|"; "?"; "*"]%char
      \/ In (nat_of_ascii c) [34; 9; 10; 11; 12; 13; 32; 160] ->
      JsString.last_index_of c (Transcribe.underscored (Transcribe.sanitizeTitle title))
      = None).
Proof.
  split.
  - unfold Transcribe.underscored, Transcribe.sanitizeTitle.
    rewrite length_map_chars. apply length_substring_prefix.
  - intro H. apply underscored_title_avoids. destruct H as [H|H].
    + left. cbn [In] in H.
      repeat (destruct H as [<-|H]; [reflexivity|]). destruct H.
    + cbn [In] in H. destruct H as [H|H].
      * left. rewrite <- (ascii_nat_embedding c), <- H. reflexivity.
      * right. unfold Transcribe.is_space. cbn [existsb].
        repeat (destruct H as [<-|H]; [reflexivity|]). destruct H.
Qed.

(** The extracted audio always lands inside the output directory, under the
    stem of the input's name, whatever the path of the input is. *)
Theorem extracted_audio_stays_in_output_directory
    (w : World) (videoPath : string) (segs : list string) (s s' : State)
    (audio : string) :
  segs <> [] -> forallb plain_segment segs = true ->
  (forall n, slash_free (unique_suffix w n)) ->
  Transcribe.extractAudio w videoPath (directory segs) s = (Returned audio, s') ->
  audio = directory segs ++ "/"
          ++ (NodePath.parse_name videoPath ++ "_" ++ unique_suffix w (ticks s)
              ++ "_audio.mp3")
  /\ NodePath.inside (directory segs) audio = true.
Proof.
  intros Hne Hp Hsuf.
  unfold Transcribe.extractAudio, uniqueSuffix, call, bind, emit, lift, tick, ret.
  cbn beta iota. cbn [ticks].
  assert (P : plain_segment (NodePath.parse_name videoPath ++ "_"
                             ++ unique_suffix w (ticks s) ++ "_audio.mp3") = true).
  { apply underscored_name_is_plain; [apply parse_name_slash_free|].
    apply slash_free_append; [apply Hsuf | reflexivity]. }
  rewrite (join_plain segs _ Hne Hp P).
  destruct (ffmpeg_save w videoPath _); intro E; [discriminate E|].
  injection E as <- _. split; [reflexivity | apply inside_plain].
Qed.

(** Even for the upload that escaped, the audio is extracted into the
    session directory. *)
Lemma extracted_audio_witness :
  "/tmp/transcribe-session-Ab12Cd/evil_1700000000000_k3j9x1_audio.mp3"
  = directory ["tmp"; "transcribe-session-Ab12Cd"] ++ "/"
    ++ (NodePath.parse_name "/tmp/evil.mp4" ++ "_"
        ++ unique_suffix Sample.happy (ticks initial) ++ "_audio.mp3")
  /\ NodePath.inside (directory ["tmp"; "transcribe-session-Ab12Cd"])
       "/tmp/transcribe-session-Ab12Cd/evil_1700000000000_k3j9x1_audio.mp3" = true.
Proof.
  apply (extracted_audio_stays_in_output_directory Sample.happy "/tmp/evil.mp4"
           ["tmp"; "transcribe-session-Ab12Cd"] initial
           (mkState [] [EvFfmpeg "/tmp/evil.mp4"
                          "/tmp/transcribe-session-Ab12Cd/evil_1700000000000_k3j9x1_audio.mp3"]
              1)).
  - discriminate.
  - reflexivity.
  - intro n. simpl. destruct (Nat.eqb n 0); reflexivity.
  - reflexivity.
Defined.

Lemma with_url_some (o : option Format) (f : Format) :
  Transcribe.with_url o = Some f -> o = Some f.
Proof.
  unfold Transcribe.with_url. destruct o as [g|]; [|discriminate].
  destruct (JsString.truthy_opt (fmt_url g)); [|discriminate].
  intro H. injection H as <-. reflexivity.
Qed.

(** Every file a transcription request creates (the upload, the download,
    the extracted audio) lies inside the session directory of the request, as
    long as the name of the upload is a plain file name and the container name
    of the chosen format has no separator. *)
Theorem request_files_stay_in_session_directory
    (w : World) (formData : Outcome Transcribe.FormData) (segs : list string)
    (s : State) :
  segs <> [] -> forallb plain_segment segs = true ->
  fs_mkdtemp w (NodePath.join [os_tmpdir w; "transcribe-session-"])
  = Returned (directory segs) ->
  (forall n, slash_free (unique_suffix w n)) ->
  (forall fd file, formData = Returned fd -> Transcribe.video fd = Some file ->
                   plain_segment (file_name file) = true) ->
  (forall formats options f,
     ytdl_chooseFormat w formats options = Returned (Some f) ->
     slash_free (JsString.or_else (fmt_container f) "mp4")) ->
  exists evs,
    trace (snd (Transcribe.POST w formData s)) = (trace s ++ evs)%list
    /\ forall p, In p (filter_map created_path evs) ->
                 NodePath.inside (directory segs) p = true.
Proof.
  intros Hne Hp Hmk Hsuf Hup Hfmt.
  destruct (transcription_POST_trace w formData (directory segs) s Hmk)
    as [removal [Hrem T]].
  pose proof (handle_cases w formData (directory segs)
                (mkState (directory segs :: dirs s)
                   (trace s ++ [EvMkdtemp (directory segs)])%list (ticks s)))
    as C.
  destruct (Transcribe.handle w formData (directory segs) _) as [out s2];
    destruct C as [evs [Th [_ [_ [_ Hpaths]]]]]; cbn [snd] in T.
  exists (EvMkdtemp (directory segs) :: evs ++ removal)%list. split.
  - rewrite T, Th. cbn [trace]. rewrite <- !app_assoc. reflexivity.
  - intros p Hin. cbn [filter_map created_path] in Hin.
    rewrite filter_map_app in Hin. apply in_app_or in Hin as [Hin|Hin].
    2: { destruct Hrem as [-> | ->]; destruct Hin. }
    destruct (Hpaths p Hin) as [name [-> Kind]].
    assert (P : plain_segment name = true).
    { destruct Kind as [[fd [file [E [V ->]]]]
                       | [[title [n [formats [options [o [f [C [U ->]]]]]]]]
                         | [video [n ->]]]].
      - exact (Hup fd file E V).
      - apply with_url_some in U. subst o.
        apply (underscored_name_is_plain "youtube"); [reflexivity|].
        apply slash_free_append; [apply underscored_title_avoids; left; reflexivity|].
        apply slash_free_append; [reflexivity|].
        apply slash_free_append; [apply Hsuf|].
        apply slash_free_append; [reflexivity|].
        exact (Hfmt formats options f C).
      - apply underscored_name_is_plain; [apply parse_name_slash_free|].
        apply slash_free_append; [apply Hsuf | reflexivity]. }
    rewrite (join_plain segs name Hne Hp P). apply inside_plain.
Qed.

(** A remote fetch whose title is full of separators. *)
Lemma request_files_witness :
  exists evs,
    trace (snd (Transcribe.POST Scenario.audioWithoutUrl
                  (Returned (Transcribe.mkFormData (Some "url") None
                               (Some Scenario.watchUrl))) initial))
    = (trace initial ++ evs)%list
    /\ forall p, In p (filter_map created_path evs) ->
                 NodePath.inside (directory ["tmp"; "transcribe-session-Ab12Cd"]) p = true.
Proof.
  apply (request_files_stay_in_session_directory Scenario.audioWithoutUrl
           (Returned (Transcribe.mkFormData (Some "url") None (Some Scenario.watchUrl)))
           ["tmp"; "transcribe-session-Ab12Cd"] initial).
  - discriminate.
  - reflexivity.
  - reflexivity.
  - intro n. simpl. destruct (Nat.eqb n 0); reflexivity.
  - intros fd file E V. injection E as <-. discriminate V.
  - intros formats options f C. destruct options; injection C as <-; reflexivity.
Defined.

(** ** The transcription page *)

Lemma start_is_coherent : Page.coherent Page.start.
Proof. split; [reflexivity | intros f H; discriminate H]. Qed.

(** Every handler of the page keeps the selection coherent: the name shown
    is the name of the selected file, and only a file whose MIME type starts
    with [video/] is ever selected, hence ever submitted. *)
Theorem page_selection_stays_coherent
    (display : Js.Value -> string) (typeError : string -> Js.Value -> string)
    (server : Transcribe.FormData -> Outcome Page.Reply)
    (acceptedFiles : list Page.BrowserFile) (st : Page.PageState) :
  Page.coherent st ->
  Page.coherent (Page.onDrop acceptedFiles st)
  /\ Page.coherent (Page.handleRemoveVideo st)
  /\ Page.coherent (Page.handleTranscribe display typeError server st).
Proof.
  intros [Hn Hv]. split; [|split].
  - unfold Page.onDrop. destruct acceptedFiles as [|file rest].
    + split; [exact Hn | exact Hv].
    + destruct (String.prefix "video/" (Page.mime file)) eqn:E; cbn [negb].
      * split; [reflexivity|]. intros f H. injection H as <-. exact E.
      * split; [reflexivity | intros f H; discriminate H].
  - split; [reflexivity | intros f H; discriminate H].
  - unfold Page.handleTranscribe.
    destruct (Page.selectedFile st) as [file|] eqn:Es.
    + destruct (Page.submit display typeError server file); split; cbn;
        rewrite ?Es; try exact Hn; exact Hv.
    + split; cbn; rewrite ?Es; [exact Hn | exact Hv].
Qed.

Lemma page_selection_witness :
  Page.coherent
    (Page.onDrop [Page.mkBrowserFile Sample.report "application/pdf"] Page.start)
  /\ Page.coherent (Page.handleRemoveVideo Page.start)
  /\ Page.coherent
       (Page.handleTranscribe (fun _ => "[object Object]") (fun _ _ => "TypeError")
          (fun _ => Threw (Js.Error "Failed to fetch")) Page.start).
Proof.
  apply (page_selection_stays_coherent (fun _ => "[object Object]")
           (fun _ _ => "TypeError") (fun _ => Threw (Js.Error "Failed to fetch"))
           [Page.mkBrowserFile Sample.report "application/pdf"] Page.start).
  split; [reflexivity | intros f H; discriminate H].
Defined.

(** A submission always comes to an end: the page leaves the transcribing
    state with the same selection, and shows either the [transcription] field
    of a successful JSON reply and no error, or an error and no transcript. *)
Theorem submission_ends_with_transcript_or_error
    (display : Js.Value -> string) (typeError : string -> Js.Value -> string)
    (server : Transcribe.FormData -> Outcome Page.Reply)
    (st : Page.PageState) (file : Page.BrowserFile) :
  Page.selectedFile st = Some file ->
  let st' := Page.handleTranscribe display typeError server st in
  Page.isTranscribing st' = false
  /\ Page.selectedFile st' = Some file
  /\ ((Page.error st' = None
       /\ exists response result,
            server (Page.formDataOf file) = Returned response
            /\ Page.reply_ok response = true
            /\ Page.reply_json response = Returned result
            /\ Page.transcription st' = Js.get "transcription" result)
      \/ (exists message, Page.error st' = Some message
                          /\ Page.transcription st' = Js.Null)).
Proof.
  intros Hs st'. subst st'. unfold Page.handleTranscribe, Page.submit. rewrite Hs.
  destruct (server (Page.formDataOf file)) as [response|e] eqn:Er.
  2: { cbn. repeat split; try assumption. right. eexists. split; reflexivity. }
  destruct (Page.reply_ok response) eqn:Eok; cbn [negb].
  - destruct (Page.reply_json response) as [result|e] eqn:Ej.
    + destruct (Js.is_nullish result); cbn; repeat split; try assumption.
      * right. eexists. split; reflexivity.
      * left. split; [reflexivity|]. exists response, result. repeat split; assumption.
    + cbn. repeat split; try assumption. right. eexists. split; reflexivity.
  - match goal with
    | |- context [Js.is_nullish ?d] => destruct (Js.is_nullish d)
    end; cbn; repeat split; try assumption; right; eexists; split; reflexivity.
Qed.

Lemma submission_witness :
  let st' := Page.handleTranscribe (fun _ => "[object Object]") (fun _ _ => "TypeError")
               (fun _ => Returned (Page.wire 200 [("transcription", Js.Str "hello")]))
               (Page.onDrop [Page.mkBrowserFile Sample.clip "video/mp4"] Page.start) in
  Page.isTranscribing st' = false
  /\ Page.transcription st' = Js.Str "hello".
Proof.
  destruct (submission_ends_with_transcript_or_error (fun _ => "[object Object]")
              (fun _ _ => "TypeError")
              (fun _ => Returned (Page.wire 200 [("transcription", Js.Str "hello")]))
              (Page.onDrop [Page.mkBrowserFile Sample.clip "video/mp4"] Page.start)
              (Page.mkBrowserFile Sample.clip "video/mp4") eq_refl)
    as [T _].
  split; [exact T | reflexivity].
Defined.

(** The page and the route do not fit together.  The form the page sends
    holds the [video] field only, so the route, which demands
    [operationType], answers 400 to every submission; the page ends up showing
    the route's message about the operation type, and never a transcript. *)
Theorem page_submission_is_always_rejected_by_the_route
    (display : Js.Value -> string) (typeError : string -> Js.Value -> string)
    (server : Transcribe.FormData -> Outcome Page.Reply)
    (w : World) (s : State) (dir : string)
    (st : Page.PageState) (file : Page.BrowserFile) :
  fs_mkdtemp w (NodePath.join [os_tmpdir w; "transcribe-session-"]) = Returned dir ->
  (forall fd status fields,
     fst (Transcribe.POST w (Returned fd) s) = Returned (Http.json status fields) ->
     server fd = Returned (Page.wire status fields)) ->
  Page.selectedFile st = Some file ->
  let st' := Page.handleTranscribe display typeError server st in
  fst (Transcribe.POST w (Returned (Page.formDataOf file)) s)
  = Returned (Http.json 400 [("error", Js.Str Transcribe.invalid_operation_type)])
  /\ Page.error st' = Some Transcribe.invalid_operation_type
  /\ Page.transcription st' = Js.Null
  /\ Page.isTranscribing st' = false.
Proof.
  intros Hmk Hserver Hs st'. subst st'.
  assert (R : fst (Transcribe.POST w (Returned (Page.formDataOf file)) s)
              = Returned (Http.json 400
                            [("error", Js.Str Transcribe.invalid_operation_type)])).
  { rewrite (transcription_POST_outcome w _ dir s Hmk). reflexivity. }
  split; [exact R|].
  unfold Page.handleTranscribe, Page.submit. rewrite Hs.
  rewrite (Hserver _ _ _ R). cbn. repeat split.
Qed.

Lemma page_submission_witness :
  let st' := Page.handleTranscribe (fun _ => "[object Object]") (fun _ _ => "TypeError")
               (fun fd =>
                  match fst (Transcribe.POST Sample.happy (Returned fd) initial) with
                  | Returned r =>
                      Returned (Page.wire (Http.status r)
                                  (match Http.body r with
                                   | Http.Json fields => fields
                                   | Http.Raw _ => []
                                   end))
                  | Threw e => Threw e
                  end)
               (Page.onDrop [Page.mkBrowserFile Sample.clip "video/mp4"] Page.start) in
  Page.error st' = Some Transcribe.invalid_operation_type
  /\ Page.transcription st' = Js.Null.
Proof.
  destruct (page_submission_is_always_rejected_by_the_route
              (fun _ => "[object Object]") (fun _ _ => "TypeError")
              (fun fd =>
                 match fst (Transcribe.POST Sample.happy (Returned fd) initial) with
                 | Returned r =>
                     Returned (Page.wire (Http.status r)
                                 (match Http.body r with
                                  | Http.Json fields => fields
                                  | Http.Raw _ => []
                                  end))
                 | Threw e => Threw e
                 end)
              Sample.happy initial Sample.sessionDir
              (Page.onDrop [Page.mkBrowserFile Sample.clip "video/mp4"] Page.start)
              (Page.mkBrowserFile Sample.clip "video/mp4"))
    as [_ [E [T _]]].
  - reflexivity.
  - intros fd status fields H. rewrite H. reflexivity.
  - reflexivity.
  - split; [exact E | exact T].
Defined.

(** ** The database client *)

Lemma reload_with_global (k : nat) (rt : Prisma.Runtime) (client : nat) :
  JsString.is_string (Prisma.NODE_ENV rt) "production" = false ->
  Prisma.global_prisma rt = Some client ->
  Prisma.reload k rt = (repeat client k, rt).
Proof.
  revert rt. induction k as [|k IH]; intros rt Hdev Hg; [reflexivity|].
  cbn [Prisma.reload]. unfold Prisma.load. rewrite Hg, Hdev. cbn [negb].
  assert (E : Prisma.mkRuntime (Prisma.NODE_ENV rt) (Some client) (Prisma.constructed rt) = rt).
  { destruct rt as [e g c]. cbn in *. rewrite Hg. reflexivity. }
  rewrite E, (IH rt Hdev Hg). reflexivity.
Qed.

(** Outside production the module keeps one client for all its evaluations:
    however often it is reloaded, every evaluation exports the same client and
    at most one client is constructed. *)
Theorem prisma_client_is_shared_outside_production (k : nat) (rt : Prisma.Runtime) :
  JsString.is_string (Prisma.NODE_ENV rt) "production" = false ->
  let run := Prisma.reload k rt in
  Prisma.constructed (snd run) <= S (Prisma.constructed rt)
  /\ exists client, fst run = repeat client k.
Proof.
  intros Hdev run. subst run. destruct k as [|k].
  - cbn. split; [lia | exists 0; reflexivity].
  - cbn [Prisma.reload]. unfold Prisma.load. rewrite Hdev. cbn [negb].
    destruct (Prisma.global_prisma rt) as [client|] eqn:Hg.
    + rewrite (reload_with_global k
                 (Prisma.mkRuntime (Prisma.NODE_ENV rt) (Some client)
                    (Prisma.constructed rt)) client Hdev eq_refl). cbn.
      split; [lia | exists client; reflexivity].
    + rewrite (reload_with_global k
                 (Prisma.mkRuntime (Prisma.NODE_ENV rt) (Some (Prisma.constructed rt))
                    (S (Prisma.constructed rt))) (Prisma.constructed rt) Hdev eq_refl).
      cbn. split; [lia | exists (Prisma.constructed rt); reflexivity].
Qed.

Lemma prisma_client_is_shared_witness :
  let run := Prisma.reload 3 (Prisma.mkRuntime (Some "development") None 0) in
  Prisma.constructed (snd run) <= 1 /\ exists client, fst run = repeat client 3.
Proof.
  apply (prisma_client_is_shared_outside_production 3
           (Prisma.mkRuntime (Some "development") None 0)).
  reflexivity.
Defined.

(** In production the module never fills [global.prisma]: with the slot
    empty, each of [k] evaluations constructs a client of its own. *)
Theorem prisma_client_is_not_shared_in_production (k : nat) (rt : Prisma.Runtime) :
  Prisma.NODE_ENV rt = Some "production" ->
  Prisma.global_prisma rt = None ->
  let run := Prisma.reload k rt in
  fst run = seq (Prisma.constructed rt) k
  /\ Prisma.constructed (snd run) = Prisma.constructed rt + k
  /\ Prisma.global_prisma (snd run) = None.
Proof.
  revert rt. induction k as [|k IH]; intros rt Henv Hg run; subst run.
  - cbn. repeat split; [lia | exact Hg].
  - cbn [Prisma.reload]. unfold Prisma.load. rewrite Hg, Henv.
    cbn [JsString.is_string]. replace (String.eqb "production" "production") with true
      by reflexivity. cbn [negb].
    specialize (IH (Prisma.mkRuntime (Some "production") None (S (Prisma.constructed rt)))
                  eq_refl eq_refl).
    cbv zeta in IH. cbn [Prisma.constructed] in IH.
    destruct (Prisma.reload k _) as [clients rt2]. cbn [fst snd] in *.
    destruct IH as [Hc [Hn Hg2]]. rewrite Hc, Hn. repeat split; [lia | exact Hg2].
Qed.

Lemma prisma_client_is_not_shared_witness :
  let run := Prisma.reload 3 (Prisma.mkRuntime (Some "production") None 0) in
  fst run = [0; 1; 2]
  /\ Prisma.constructed (snd run) = 3
  /\ Prisma.global_prisma (snd run) = None.
Proof.
  apply (prisma_client_is_not_shared_in_production 3
           (Prisma.mkRuntime (Some "production") None 0)); reflexivity.
Defined.

(** ** The two revisions of the transcription route *)

Lemma transcribeWithWhisper_revisions (display : Js.Value -> string) (w : World)
    (audioPath : string) (s : State) :
  provider_keeps_its_types w ->
  TranscribeV1.transcribeWithWhisper display w audioPath s
  = (match fst (Transcribe.transcribeWithWhisper w audioPath s) with
     | Returned text => Returned (Js.Str text)
     | Threw e => Threw e
     end,
     snd (Transcribe.transcribeWithWhisper w audioPath s)).
Proof.
  intros [Hok [Hfail Hacc]].
  unfold TranscribeV1.transcribeWithWhisper, Transcribe.transcribeWithWhisper.
  destruct (negb (OPENAI_API_KEY w)); [reflexivity|].
  unfold try_catch, call, bind, emit, lift, throw.
  destruct (fs_access w audioPath) as [[]|e] eqn:Ea.
  - destruct (openai_transcriptions_create w audioPath) as [response|e] eqn:Ec.
    + destruct (Hok audioPath response Ec) as [Hn [text Ht]].
      unfold TranscribeV1.extractText, Transcribe.extractText. rewrite Hn, Ht. reflexivity.
    + destruct (Hfail audioPath e Ec) as [m [props ->]]. reflexivity.
  - destruct (Hacc audioPath e Ea) as [m [props ->]]. reflexivity.
Qed.

(** The two [try] blocks end in the same state, with the same exception or
    with responses that agree on the essentials. *)
Lemma handle_revisions (display : Js.Value -> string) (w : World)
    (formData : Outcome Transcribe.FormData) (dir : string) (s : State) :
  provider_keeps_its_types w ->
  snd (TranscribeV1.handle display w formData dir s)
  = snd (Transcribe.handle w formData dir s)
  /\ match fst (TranscribeV1.handle display w formData dir s),
           fst (Transcribe.handle w formData dir s) with
     | Returned earlier, Returned later => essentials earlier = essentials later
     | Threw e, Threw e' => e = e'
     | _, _ => False
     end.
Proof.
  intro Hw.
  assert (T : forall audio title name s0,
             snd (TranscribeV1.transcribeAndRespond display w audio title s0)
             = snd (Transcribe.transcribeAndRespond w audio title name s0)
             /\ match fst (TranscribeV1.transcribeAndRespond display w audio title s0),
                      fst (Transcribe.transcribeAndRespond w audio title name s0) with
                | Returned earlier, Returned later => essentials earlier = essentials later
                | Threw e, Threw e' => e = e'
                | _, _ => False
                end).
  { intros audio title name s0.
    unfold TranscribeV1.transcribeAndRespond, Transcribe.transcribeAndRespond.
    destruct (negb (JsString.truthy audio)); [split; reflexivity|].
    unfold bind. rewrite (transcribeWithWhisper_revisions display w audio s0 Hw).
    destruct (Transcribe.transcribeWithWhisper w audio s0) as [[text|e] s1];
      split; reflexivity. }
  unfold TranscribeV1.handle, Transcribe.handle, bind, lift.
  destruct formData as [fd|e]; [|split; reflexivity].
  destruct (JsString.is_string (Transcribe.operationType fd) "file").
  { destruct (Transcribe.video fd) as [file|]; [|split; reflexivity].
    destruct (writeFile w _ _ s) as [[[]|e] s0]; [|split; reflexivity].
    destruct (Transcribe.extractAudio w _ dir s0) as [[audio|e] s1];
      [apply T | split; reflexivity]. }
  destruct (JsString.is_string (Transcribe.operationType fd) "url");
    [|split; reflexivity].
  destruct (JsString.truthy_opt (Transcribe.videoUrl fd)); [|split; reflexivity].
  destruct (Transcribe.downloadYouTubeVideoAndExtractAudio w _ dir s) as [[result|e] s1];
    [apply T | split; reflexivity].
Qed.

(** With a provider that keeps to its types, the later revision of the
    route answers like the earlier one: every request leaves the same trace
    and directories, escapes with the same exception, or is answered with the
    same status, transcript, title and error message.  The revisions can only
    differ in [details] and in the added [originalFileName]. *)
Theorem revisions_agree_on_the_essentials
    (display : Js.Value -> string) (w : World)
    (formData : Outcome Transcribe.FormData) (s : State) :
  provider_keeps_its_types w ->
  snd (TranscribeV1.POST display w formData s) = snd (Transcribe.POST w formData s)
  /\ match fst (TranscribeV1.POST display w formData s),
           fst (Transcribe.POST w formData s) with
     | Returned earlier, Returned later => essentials earlier = essentials later
     | Threw e, Threw e' => e = e'
     | _, _ => False
     end.
Proof.
  intro Hw. unfold TranscribeV1.POST, Transcribe.POST, mkdtemp.
  destruct (fs_mkdtemp w _) as [dir|e]; [|split; reflexivity].
  unfold bind, emit, add_dir, ret. cbn beta iota.
  set (s1 := mkState _ _ _).
  destruct (handle_revisions display w formData dir s1 Hw) as [Hs Ho].
  unfold try_finally, try_catch.
  destruct (TranscribeV1.handle display w formData dir s1) as [[r1|e1] s2];
    destruct (Transcribe.handle w formData dir s1) as [[r2|e2] s3];
    cbn [fst snd] in Hs, Ho; try contradiction; subst s3.
  - destruct (cleanup_returns w dir s2) as [s4 ->]. split; [reflexivity | exact Ho].
  - subst e2. destruct (cleanup_returns w dir s2) as [s4 ->]. split; reflexivity.
Qed.

Lemma sample_provider_keeps_its_types :
  provider_keeps_its_types Sample.happy.
Proof.
  split; [|split].
  - intros audio response H. injection H as <-. split; [reflexivity|].
    exists "hello world". reflexivity.
  - intros audio e H. discriminate H.
  - intros audio e H. discriminate H.
Defined.

Lemma revisions_agree_witness :
  snd (TranscribeV1.POST (fun _ => "undefined") Sample.happy
         (Returned Scenario.uploadClip) initial)
  = snd (Transcribe.POST Sample.happy (Returned Scenario.uploadClip) initial)
  /\ match fst (TranscribeV1.POST (fun _ => "undefined") Sample.happy
                  (Returned Scenario.uploadClip) initial),
           fst (Transcribe.POST Sample.happy (Returned Scenario.uploadClip) initial) with
     | Returned earlier, Returned later => essentials earlier = essentials later
     | Threw e, Threw e' => e = e'
     | _, _ => False
     end.
Proof.
  apply (revisions_agree_on_the_essentials (fun _ => "undefined") Sample.happy
           (Returned Scenario.uploadClip) initial).
  apply sample_provider_keeps_its_types.
Defined.

(** Without that assumption the revisions part ways: for an answer whose
    [text] is a number, the earlier revision returns the number in a 200 and
    the later one answers 500. *)
Example revisions_differ_on_untyped_answers :
  let w := Sample.world true (fun _ => true) Sample.chooseFirstMatch
             (Returned (Js.Obj [("text", Js.Number 7)])) (Returned tt)
             Sample.createdJob (Returned tt) in
  response_status (fst (TranscribeV1.POST (fun _ => "7") w
                          (Returned Scenario.uploadClip) initial)) = Some 200
  /\ response_status (fst (Transcribe.POST w (Returned Scenario.uploadClip) initial))
     = Some 500.
Proof. split; reflexivity. Qed.
